(** * OmniMemory ESP32 firmware: manifest queue, retention, upload and audio
    arbitration.

    A shallow embedding of [apps/esp32/src/main.cpp] and of the constants of
    [apps/esp32/include/config.h].  The global variables of the sketch become
    the fields of [State]; every function of the sketch that reads or writes
    them becomes a function from [State] to [State].  What the sketch obtains
    from its collaborators during one pass of [loop] (clock readings, the
    microphone frame, camera and network outcomes) is the record [World].

    Modelling conventions:
    - C integers are [Z]; the wrap-around of [uint8_t], [uint32_t],
      [uint64_t] and [unsigned long] is written out with [mod];
      [time_t] and [int] values are unbounded [Z] (no overflow of signed
      arithmetic is modelled).
    - Arduino [String] is [string]; [String(n)] is decimal printing.
    - The SD card is a finite map from paths to file contents together with
      the set of directories.  Operations on a mounted card succeed, except
      where [World] injects a failure (audio folder, audio file, photo file).
    - [deserializeJson] of ArduinoJson is modelled on the fragment the
      manifests use: one flat object whose members are strings or integers.
    - [float] arithmetic of the noise floor is not modelled; the outcome of
      the two RMS comparisons of a tick is part of [World]. *)

From Stdlib Require Import Ascii ZArith Lia DecimalString DecimalZ.
From stdpp Require Import base option list strings gmap sorting.

Local Open Scope Z_scope.

(** ** config.h *)

Module Config.
Definition UPLOAD_MAX_ATTEMPTS : Z := 3.
Definition UPLOAD_BACKOFF_SEC_1 : Z := 60.
Definition UPLOAD_BACKOFF_SEC_2 : Z := 300.
Definition UPLOAD_BACKOFF_SEC_3 : Z := 1800.
Definition UPLOAD_INTERVAL_MS : Z := 15000.
Definition UPLOAD_BATCH_SIZE : nat := 5.
Definition CAPTURE_INTERVAL_MS : Z := 30000.
Definition SD_MIN_FREE_PERCENT : Z := 15.
Definition SD_EMERGENCY_FREE_PERCENT : Z := 5.
Definition RETENTION_CHECK_INTERVAL_MS : Z := 60 * 60 * 1000.
Definition TELEMETRY_INTERVAL_MS : Z := 60 * 60 * 1000.
Definition AUDIO_SAMPLE_RATE : Z := 16000.
Definition AUDIO_FRAME_MS : Z := 20.
Definition AUDIO_PREROLL_MS : Z := 1000.
Definition AUDIO_MIN_SEC : Z := 1.
Definition AUDIO_MAX_SEC : Z := 60.
Definition AUDIO_VAD_START_FRAMES : Z := 4.
Definition AUDIO_VAD_STOP_FRAMES : Z := 50.
Definition AUDIO_PHOTO_CLIP_ENABLED : bool := true.
Definition AUDIO_PHOTO_CLIP_POST_MS : Z := 9000.
Definition AUDIO_HEARTBEAT_ENABLED : bool := true.
Definition AUDIO_HEARTBEAT_INTERVAL_MS : Z := 5 * 60 * 1000.
Definition AUDIO_HEARTBEAT_DURATION_MS : Z := 3000.
End Config.
Import Config.

(** ** Machine integers *)

Definition wrap (bits x : Z) : Z := x mod 2 ^ bits.
Definition to_uint8 : Z → Z := wrap 8.
Definition to_uint32 : Z → Z := wrap 32.
Definition to_uint64 : Z → Z := wrap 64.
Definition INT_MIN : Z := - 2 ^ 31.
Definition INT_MAX : Z := 2 ^ 31 - 1.

(** [a - b] on [unsigned long] (32 bits on the ESP32). *)
Definition ulong_sub (a b : Z) : Z := to_uint32 (a - b).

(** ** Arduino String *)

(** The double quote and the backslash, by character code. *)
Definition dquote : ascii := "034"%char.
Definition backslash : ascii := "092"%char.
Definition DQ : string := String dquote "".

(** [String(n)]: decimal digits, with a leading minus sign when negative. *)
Definition String_of (z : Z) : string := NilEmpty.string_of_int (Z.to_int z).

Fixpoint endsWith (s suffix : string) : bool :=
  if String.eqb s suffix then true
  else match s with
       | String _ r => endsWith r suffix
       | EmptyString => false
       end.

Definition isEmpty (s : string) : bool := String.eqb s "".

(** The rest of [s] after [pre], when [s] starts with [pre]. *)
Fixpoint strip_prefix (pre s : string) : option string :=
  match pre, s with
  | EmptyString, _ => Some s
  | String a pre', String b s' =>
      if Ascii.eqb a b then strip_prefix pre' s' else None
  | String _ _, EmptyString => None
  end.

Fixpoint has_char (c : ascii) (s : string) : bool :=
  match s with
  | EmptyString => false
  | String a r => Ascii.eqb a c || has_char c r
  end.

(** ** ArduinoJson, on flat objects of strings and integers *)

Inductive JsonValue :=
| JStr (s : string)
| JInt (z : Z).

Definition JsonDoc := list (string * JsonValue).

Definition is_ws (c : ascii) : bool :=
  Ascii.eqb c " " || Ascii.eqb c "009" || Ascii.eqb c "010" || Ascii.eqb c "013".

Fixpoint skip_ws (s : string) : string :=
  match s with
  | String c r => if is_ws c then skip_ws r else s
  | EmptyString => s
  end.

Definition unescape (c : ascii) : option ascii :=
  if Ascii.eqb c dquote then Some dquote
  else if Ascii.eqb c backslash then Some backslash
  else if Ascii.eqb c "/" then Some "/"%char
  else if Ascii.eqb c "b" then Some "008"%char
  else if Ascii.eqb c "f" then Some "012"%char
  else if Ascii.eqb c "n" then Some "010"%char
  else if Ascii.eqb c "r" then Some "013"%char
  else if Ascii.eqb c "t" then Some "009"%char
  else None.

(** The characters of a string literal after its opening quote, up to the
    closing quote; returns the decoded text and what follows the literal. *)
Fixpoint parse_quoted (s : string) : option (string * string) :=
  match s with
  | EmptyString => None
  | String c r =>
      if Ascii.eqb c dquote then Some (EmptyString, r)
      else if Ascii.eqb c backslash then
        match r with
        | String e r' =>
            match unescape e, parse_quoted r' with
            | Some ch, Some (v, rest) => Some (String ch v, rest)
            | _, _ => None
            end
        | EmptyString => None
        end
      else
        match parse_quoted r with
        | Some (v, rest) => Some (String c v, rest)
        | None => None
        end
  end.

Definition is_digit (c : ascii) : bool :=
  (48 <=? nat_of_ascii c)%nat && (nat_of_ascii c <=? 57)%nat.

Fixpoint span_digits (s : string) : string * string :=
  match s with
  | String c r =>
      if is_digit c then
        let '(d, rest) := span_digits r in (String c d, rest)
      else (EmptyString, s)
  | EmptyString => (EmptyString, EmptyString)
  end.

Definition parse_digits (s : string) : option (Decimal.uint * string) :=
  let '(d, rest) := span_digits s in
  if isEmpty d then None
  else match NilEmpty.uint_of_string d with
       | Some u => Some (u, rest)
       | None => None
       end.

Definition parse_int (s : string) : option (Z * string) :=
  match s with
  | String c r =>
      if Ascii.eqb c "-" then
        match parse_digits r with
        | Some (u, rest) => Some (Z.of_int (Decimal.Neg u), rest)
        | None => None
        end
      else
        match parse_digits s with
        | Some (u, rest) => Some (Z.of_int (Decimal.Pos u), rest)
        | None => None
        end
  | EmptyString => None
  end.

Definition parse_value (s : string) : option (JsonValue * string) :=
  match s with
  | String c r =>
      if Ascii.eqb c dquote then
        match parse_quoted r with
        | Some (v, rest) => Some (JStr v, rest)
        | None => None
        end
      else
        match parse_int s with
        | Some (z, rest) => Some (JInt z, rest)
        | None => None
        end
  | EmptyString => None
  end.

(** The members of an object after its opening brace, through the closing
    brace.  [fuel] bounds the number of members. *)
Fixpoint parse_members (fuel : nat) (s : string) : option JsonDoc :=
  match fuel with
  | O => None
  | S fuel' =>
      match skip_ws s with
      | String c r =>
          if Ascii.eqb c dquote then
            match parse_quoted r with
            | Some (key, r1) =>
                match skip_ws r1 with
                | String c1 r2 =>
                    if Ascii.eqb c1 ":" then
                      match parse_value (skip_ws r2) with
                      | Some (v, r3) =>
                          match skip_ws r3 with
                          | String c3 r4 =>
                              if Ascii.eqb c3 "," then
                                match parse_members fuel' r4 with
                                | Some rest => Some ((key, v) :: rest)
                                | None => None
                                end
                              else if Ascii.eqb c3 "}" then Some [(key, v)]
                              else None
                          | EmptyString => None
                          end
                      | None => None
                      end
                    else None
                | EmptyString => None
                end
            | None => None
            end
          else None
      | EmptyString => None
      end
  end.

(** [deserializeJson(doc, file)]: [None] stands for any error code other
    than [DeserializationError::Ok]. *)
Definition deserializeJson (input : string) : option JsonDoc :=
  match skip_ws input with
  | String c r =>
      if Ascii.eqb c "{" then
        match skip_ws r with
        | String c' _ =>
            if Ascii.eqb c' "}" then Some []
            else parse_members (String.length r) r
        | EmptyString => None
        end
      else None
  | EmptyString => None
  end.

(** [doc[key]]: a member parsed later replaces an earlier one of the same
    name. *)
Fixpoint doc_get (doc : JsonDoc) (key : string) : option JsonValue :=
  match doc with
  | [] => None
  | (k, v) :: rest =>
      match doc_get rest key with
      | Some v' => Some v'
      | None => if String.eqb k key then Some v else None
      end
  end.

(** [doc[key] | ""] *)
Definition or_str (v : option JsonValue) : string :=
  match v with
  | Some (JStr s) => s
  | _ => ""
  end.

(** [doc[key] | 0]: the default is an [int], so the member is read as an
    [int]; a value that does not fit gives the default. *)
Definition or_int0 (v : option JsonValue) : Z :=
  match v with
  | Some (JInt z) => if (INT_MIN <=? z) && (z <=? INT_MAX) then z else 0
  | _ => 0
  end.

(** ** SD_MMC *)

(** The card: its files, its directories, and its space accounting
    ([totalBytes] and [usedBytes], the latter a function of what is stored;
    how the FAT driver rounds to clusters is left open). *)
Record SDCard := {
  sd_files : gmap string string;
  sd_dirs : gset string;
  sd_totalBytes : Z;
  sd_usedBytes : gmap string string → gset string → Z
}.

Definition with_files (c : SDCard) (files : gmap string string) : SDCard :=
  {| sd_files := files; sd_dirs := sd_dirs c;
     sd_totalBytes := sd_totalBytes c; sd_usedBytes := sd_usedBytes c |}.

Definition SD_is_file (c : SDCard) (path : string) : bool :=
  bool_decide (is_Some (sd_files c !! path)).

Definition SD_is_dir (c : SDCard) (path : string) : bool :=
  bool_decide (path ∈ sd_dirs c).

Definition SD_exists (c : SDCard) (path : string) : bool :=
  SD_is_file c path || SD_is_dir c path.

Definition SD_mkdir (c : SDCard) (path : string) : SDCard :=
  {| sd_files := sd_files c; sd_dirs := {[path]} ∪ sd_dirs c;
     sd_totalBytes := sd_totalBytes c; sd_usedBytes := sd_usedBytes c |}.

(** [open(path, FILE_WRITE)], [print(content)], [close()] *)
Definition SD_write (c : SDCard) (path content : string) : SDCard :=
  with_files c (<[path := content]> (sd_files c)).

(** [remove] unlinks a file; it leaves directories alone. *)
Definition SD_remove (c : SDCard) (path : string) : SDCard :=
  with_files c (delete path (sd_files c)).

(** [rename] fails when the source is missing or the target exists. *)
Definition SD_rename (c : SDCard) (from to : string) : bool * SDCard :=
  match sd_files c !! from with
  | Some content =>
      if SD_exists c to then (false, c)
      else (true, with_files c (<[to := content]> (delete from (sd_files c))))
  | None => (false, c)
  end.

(** The names [openNextFile] yields for the plain files directly inside
    [dir], in the order of the directory. *)
Definition SD_list (c : SDCard) (dir : string) : list string :=
  omap (λ entry : string * string,
          match strip_prefix (dir +:+ "/") entry.1 with
          | Some name =>
              if has_char "/" name || isEmpty name then None else Some name
          | None => None
          end)
       (map_to_list (sd_files c)).

(** ** Global variables of the sketch *)

Record Audio := {
  audio_preroll : bool;            (* the ring buffer is allocated *)
  audio_recording : bool;
  audio_file : bool;               (* the [File] handle is open *)
  audio_filepath : string;
  audio_start_epoch : Z;
  audio_seq : Z;
  audio_samples_written : Z;
  vad_over_count : Z;
  vad_under_count : Z;
  audio_force_active : bool;
  audio_force_stop_samples : Z;
  audio_photo_clip_pending : bool;
  audio_photo_clip_epoch : Z;
  audio_heartbeat_pending : bool;
  last_audio_heartbeat : Z;
  preroll_index : Z;
  preroll_filled : bool
}.

Record State := {
  sd_ok : bool;
  camera_ok : bool;
  ntp_synced : bool;
  wifi_ok : bool;
  capture_paused : bool;
  last_capture : Z;
  last_upload : Z;
  last_wifi_attempt : Z;
  last_ntp_attempt : Z;
  last_retention_check : Z;
  last_telemetry : Z;
  audio_ok : bool;
  audio : Audio;
  prefs_seq : Z;                   (* key "seq" of [Preferences] *)
  SD_MMC : SDCard
}.

Definition set_SD_MMC (c : SDCard) (st : State) : State :=
  {| sd_ok := sd_ok st; camera_ok := camera_ok st; ntp_synced := ntp_synced st;
     wifi_ok := wifi_ok st; capture_paused := capture_paused st;
     last_capture := last_capture st; last_upload := last_upload st;
     last_wifi_attempt := last_wifi_attempt st;
     last_ntp_attempt := last_ntp_attempt st;
     last_retention_check := last_retention_check st;
     last_telemetry := last_telemetry st; audio_ok := audio_ok st;
     audio := audio st; prefs_seq := prefs_seq st; SD_MMC := c |}.

Definition set_audio (a : Audio) (st : State) : State :=
  {| sd_ok := sd_ok st; camera_ok := camera_ok st; ntp_synced := ntp_synced st;
     wifi_ok := wifi_ok st; capture_paused := capture_paused st;
     last_capture := last_capture st; last_upload := last_upload st;
     last_wifi_attempt := last_wifi_attempt st;
     last_ntp_attempt := last_ntp_attempt st;
     last_retention_check := last_retention_check st;
     last_telemetry := last_telemetry st; audio_ok := audio_ok st;
     audio := a; prefs_seq := prefs_seq st; SD_MMC := SD_MMC st |}.

Definition set_prefs_seq (v : Z) (st : State) : State :=
  {| sd_ok := sd_ok st; camera_ok := camera_ok st; ntp_synced := ntp_synced st;
     wifi_ok := wifi_ok st; capture_paused := capture_paused st;
     last_capture := last_capture st; last_upload := last_upload st;
     last_wifi_attempt := last_wifi_attempt st;
     last_ntp_attempt := last_ntp_attempt st;
     last_retention_check := last_retention_check st;
     last_telemetry := last_telemetry st; audio_ok := audio_ok st;
     audio := audio st; prefs_seq := v; SD_MMC := SD_MMC st |}.

Definition set_capture_paused (b : bool) (st : State) : State :=
  {| sd_ok := sd_ok st; camera_ok := camera_ok st; ntp_synced := ntp_synced st;
     wifi_ok := wifi_ok st; capture_paused := b;
     last_capture := last_capture st; last_upload := last_upload st;
     last_wifi_attempt := last_wifi_attempt st;
     last_ntp_attempt := last_ntp_attempt st;
     last_retention_check := last_retention_check st;
     last_telemetry := last_telemetry st; audio_ok := audio_ok st;
     audio := audio st; prefs_seq := prefs_seq st; SD_MMC := SD_MMC st |}.

Definition set_wifi (ok : bool) (attempt : Z) (st : State) : State :=
  {| sd_ok := sd_ok st; camera_ok := camera_ok st; ntp_synced := ntp_synced st;
     wifi_ok := ok; capture_paused := capture_paused st;
     last_capture := last_capture st; last_upload := last_upload st;
     last_wifi_attempt := attempt;
     last_ntp_attempt := last_ntp_attempt st;
     last_retention_check := last_retention_check st;
     last_telemetry := last_telemetry st; audio_ok := audio_ok st;
     audio := audio st; prefs_seq := prefs_seq st; SD_MMC := SD_MMC st |}.

Definition set_ntp (ok : bool) (attempt : Z) (st : State) : State :=
  {| sd_ok := sd_ok st; camera_ok := camera_ok st; ntp_synced := ok;
     wifi_ok := wifi_ok st; capture_paused := capture_paused st;
     last_capture := last_capture st; last_upload := last_upload st;
     last_wifi_attempt := last_wifi_attempt st;
     last_ntp_attempt := attempt;
     last_retention_check := last_retention_check st;
     last_telemetry := last_telemetry st; audio_ok := audio_ok st;
     audio := audio st; prefs_seq := prefs_seq st; SD_MMC := SD_MMC st |}.

Definition set_last_capture (v : Z) (st : State) : State :=
  {| sd_ok := sd_ok st; camera_ok := camera_ok st; ntp_synced := ntp_synced st;
     wifi_ok := wifi_ok st; capture_paused := capture_paused st;
     last_capture := v; last_upload := last_upload st;
     last_wifi_attempt := last_wifi_attempt st;
     last_ntp_attempt := last_ntp_attempt st;
     last_retention_check := last_retention_check st;
     last_telemetry := last_telemetry st; audio_ok := audio_ok st;
     audio := audio st; prefs_seq := prefs_seq st; SD_MMC := SD_MMC st |}.

Definition set_last_upload (v : Z) (st : State) : State :=
  {| sd_ok := sd_ok st; camera_ok := camera_ok st; ntp_synced := ntp_synced st;
     wifi_ok := wifi_ok st; capture_paused := capture_paused st;
     last_capture := last_capture st; last_upload := v;
     last_wifi_attempt := last_wifi_attempt st;
     last_ntp_attempt := last_ntp_attempt st;
     last_retention_check := last_retention_check st;
     last_telemetry := last_telemetry st; audio_ok := audio_ok st;
     audio := audio st; prefs_seq := prefs_seq st; SD_MMC := SD_MMC st |}.

Definition set_last_retention_check (v : Z) (st : State) : State :=
  {| sd_ok := sd_ok st; camera_ok := camera_ok st; ntp_synced := ntp_synced st;
     wifi_ok := wifi_ok st; capture_paused := capture_paused st;
     last_capture := last_capture st; last_upload := last_upload st;
     last_wifi_attempt := last_wifi_attempt st;
     last_ntp_attempt := last_ntp_attempt st;
     last_retention_check := v;
     last_telemetry := last_telemetry st; audio_ok := audio_ok st;
     audio := audio st; prefs_seq := prefs_seq st; SD_MMC := SD_MMC st |}.

Definition set_last_telemetry (v : Z) (st : State) : State :=
  {| sd_ok := sd_ok st; camera_ok := camera_ok st; ntp_synced := ntp_synced st;
     wifi_ok := wifi_ok st; capture_paused := capture_paused st;
     last_capture := last_capture st; last_upload := last_upload st;
     last_wifi_attempt := last_wifi_attempt st;
     last_ntp_attempt := last_ntp_attempt st;
     last_retention_check := last_retention_check st;
     last_telemetry := v; audio_ok := audio_ok st;
     audio := audio st; prefs_seq := prefs_seq st; SD_MMC := SD_MMC st |}.

(** ** Manifests *)

(** The text [write_manifest_atomic] prints: members joined without any
    escaping of the string fields. [time_t] values are cast to
    [unsigned long] before printing. *)
Definition manifest_payload (seq : Z) (filepath : string) (captured_epoch : Z)
    (status item_type content_type : string) (upload_attempts : Z)
    (last_attempt_epoch : Z) : string :=
  let payload := "{" in
  let payload := payload +:+ (DQ +:+ "filepath" +:+ DQ +:+ ":" +:+ DQ +:+ filepath +:+ DQ +:+ ",") in
  let payload := payload +:+ (DQ +:+ "seq" +:+ DQ +:+ ":" +:+ String_of seq +:+ ",") in
  let payload := payload +:+ (DQ +:+ "captured_at_epoch" +:+ DQ +:+ ":" +:+ String_of (to_uint32 captured_epoch) +:+ ",") in
  let payload := payload +:+ (DQ +:+ "status" +:+ DQ +:+ ":" +:+ DQ +:+ status +:+ DQ +:+ ",") in
  let payload := payload +:+ (DQ +:+ "item_type" +:+ DQ +:+ ":" +:+ DQ +:+ item_type +:+ DQ +:+ ",") in
  let payload := payload +:+ (DQ +:+ "content_type" +:+ DQ +:+ ":" +:+ DQ +:+ content_type +:+ DQ +:+ ",") in
  let payload := payload +:+ (DQ +:+ "upload_attempts" +:+ DQ +:+ ":" +:+ String_of upload_attempts +:+ ",") in
  let payload := payload +:+ (DQ +:+ "last_attempt_epoch" +:+ DQ +:+ ":" +:+ String_of (to_uint32 last_attempt_epoch)) in
  payload +:+ "}".

Definition manifest_final_path (seq : Z) : string :=
  "/manifests/" +:+ String_of seq +:+ ".json".

Definition write_manifest_atomic (st : State) (seq : Z) (filepath : string)
    (captured_epoch : Z) (status item_type content_type : string)
    (upload_attempts : Z) (last_attempt_epoch : Z) : bool * State :=
  if negb (sd_ok st) then (false, st)
  else
    let c := SD_MMC st in
    let c := if negb (SD_exists c "/manifests") then SD_mkdir c "/manifests" else c in
    let final_path := manifest_final_path seq in
    let tmp_path := final_path +:+ ".tmp" in
    let payload := manifest_payload seq filepath captured_epoch status
                     item_type content_type upload_attempts last_attempt_epoch in
    let c := SD_write c tmp_path payload in
    let written := Z.of_nat (String.length payload) in
    if written =? 0 then (false, set_SD_MMC (SD_remove c tmp_path) st)
    else
      let c := if SD_exists c final_path then SD_remove c final_path else c in
      match SD_rename c tmp_path final_path with
      | (true, c') => (true, set_SD_MMC c' st)
      | (false, c') => (false, set_SD_MMC (SD_remove c' tmp_path) st)
      end.

Record PendingItem := {
  manifest_path : string;
  filepath : string;
  item_type : string;
  content_type : string;
  seq : Z;
  captured_epoch : Z;
  upload_attempts : Z;
  last_attempt_epoch : Z
}.

(** [load_manifest(manifest_path, out, &status)]: [Some (out, status)] when it
    returns true. *)
Definition load_manifest (c : SDCard) (path : string) : option (PendingItem * string) :=
  match sd_files c !! path with
  | None => None
  | Some text =>
      match deserializeJson text with
      | None => None
      | Some doc =>
          let fp := or_str (doc_get doc "filepath") in
          let ity := or_str (doc_get doc "item_type") in
          let cty := or_str (doc_get doc "content_type") in
          let ity := if isEmpty ity
                     then (if endsWith fp ".wav" then "audio" else "photo")
                     else ity in
          let cty := if isEmpty cty
                     then (if String.eqb ity "audio" then "audio/wav" else "image/jpeg")
                     else cty in
          Some ({| manifest_path := path;
                   filepath := fp;
                   item_type := ity;
                   content_type := cty;
                   seq := to_uint32 (or_int0 (doc_get doc "seq"));
                   captured_epoch := or_int0 (doc_get doc "captured_at_epoch");
                   upload_attempts := or_int0 (doc_get doc "upload_attempts");
                   last_attempt_epoch := or_int0 (doc_get doc "last_attempt_epoch") |},
                or_str (doc_get doc "status"))
      end
  end.

(** ** What one pass of [loop] obtains from outside *)

(** The network's answers to one call of [upload_one_pending]. *)
Record NetOutcome := {
  (* [POST /devices/upload-url]: [Some (host, port, path, object_key)] when
     the answer is HTTP 200 with a JSON body ([upload_port] defaulted to 443),
     [None] otherwise *)
  net_upload_url : option (string * Z * string * string);
  (* the streaming [PUT]: the code of the status line, [None] when the
     connection or a chunk write fails *)
  net_put_status : option Z;
  (* [POST /devices/ingest]: the HTTP code *)
  net_ingest_code : Z
}.

Record World := {
  w_millis : Z;                    (* [millis()] *)
  w_time : Z;                      (* [time(&now)] *)
  w_date : string;                 (* local date as [%Y%m%d] *)
  w_hms : string;                  (* local time as [%02d%02d%02d] *)
  w_i2s_ok : bool;                 (* [i2s_read(...) == ESP_OK] *)
  w_bytes_read : Z;
  w_rms_over_start : bool;         (* [rms > noise_rms * AUDIO_RMS_START_MULT] *)
  w_rms_under_stop : bool;         (* [rms < noise_rms * AUDIO_RMS_STOP_MULT] *)
  w_audio_mkdir_ok : bool;         (* [SD_MMC.mkdir] of an audio folder *)
  w_audio_open_ok : bool;          (* opening the audio file for writing *)
  w_audio_write_ok : bool;         (* the frame is written in full *)
  w_camera_fb : option Z;          (* [esp_camera_fb_get()]: the frame length *)
  w_photo_open_ok : bool;
  w_photo_written : Z;             (* what [file.write] returns *)
  w_wifi_connect : bool;           (* [connect_wifi_best_effort] *)
  w_ntp_sync : bool;               (* [sync_time_best_effort] *)
  w_uploads : list NetOutcome      (* one per item of the upload batch *)
}.

Definition now_epoch (st : State) (w : World) : Z :=
  if ntp_synced st then w_time w else to_uint32 (w_millis w) / 1000.

Definition get_next_seq (st : State) : Z * State :=
  let seq := prefs_seq st in
  (seq, set_prefs_seq (to_uint32 (seq + 1)) st).

(** ** Selection of the oldest manifest *)

Definition backoff_seconds (attempts : Z) : Z :=
  if attempts <=? 0 then 0
  else if attempts =? 1 then UPLOAD_BACKOFF_SEC_1
  else if attempts =? 2 then UPLOAD_BACKOFF_SEC_2
  else UPLOAD_BACKOFF_SEC_3.

(** The local variables of a directory scan. *)
Record Scan := {
  scan_found : bool;
  scan_best_epoch : Z;
  scan_best_seq : Z;
  scan_out : PendingItem
}.

Definition empty_item : PendingItem :=
  {| manifest_path := ""; filepath := ""; item_type := ""; content_type := "";
     seq := 0; captured_epoch := 0; upload_attempts := 0;
     last_attempt_epoch := 0 |}.

Definition scan_start : Scan :=
  {| scan_found := false; scan_best_epoch := 0; scan_best_seq := 0;
     scan_out := empty_item |}.

(** The [better] flag both scans compute for [item] against the best so
    far. *)
Definition is_better (sc : Scan) (item : PendingItem) : bool :=
  if negb (scan_found sc) then true
  else if (captured_epoch item >? 0) && (scan_best_epoch sc >? 0)
       then captured_epoch item <? scan_best_epoch sc
  else if (captured_epoch item >? 0) && (scan_best_epoch sc =? 0) then true
  else if (captured_epoch item =? 0) && (scan_best_epoch sc =? 0)
       then seq item <? scan_best_seq sc
  else false.

Definition take_if_better (sc : Scan) (item : PendingItem) : Scan :=
  if is_better sc item then
    {| scan_found := true; scan_best_epoch := captured_epoch item;
       scan_best_seq := seq item; scan_out := item |}
  else sc.

(** The backoff test of [find_oldest_pending]: true when the item is
    skipped. *)
Definition in_backoff (now : Z) (item : PendingItem) : bool :=
  let backoff := backoff_seconds (upload_attempts item) in
  (backoff >? 0) && (now - last_attempt_epoch item <? backoff).

(** One turn of the [while (File f = root.openNextFile())] loop of
    [find_oldest_pending], for the directory entry [name]. *)
Definition pending_step (now : Z) (acc : State * Scan) (name : string) : State * Scan :=
  let '(st, sc) := acc in
  if negb (endsWith name ".json") then acc
  else
    match load_manifest (SD_MMC st) ("/manifests/" +:+ name) with
    | None => acc
    | Some (item, status) =>
        if negb (String.eqb status "PENDING") then acc
        else if UPLOAD_MAX_ATTEMPTS <=? upload_attempts item then
          ((write_manifest_atomic st (seq item) (filepath item)
              (captured_epoch item) "FAILED" (item_type item)
              (content_type item) (upload_attempts item)
              (last_attempt_epoch item)).2, sc)
        else if in_backoff now item then acc
        else (st, take_if_better sc item)
    end.

(** The scan visits the entries the directory had when it was opened and
    reads each manifest as it is when its turn comes. *)
Definition find_oldest_pending (st : State) (w : World) : bool * PendingItem * State :=
  if negb (sd_ok st) then (false, empty_item, st)
  else if negb (SD_is_dir (SD_MMC st) "/manifests") then (false, empty_item, st)
  else
    let now := now_epoch st w in
    let '(st', sc) := foldl (pending_step now) (st, scan_start)
                        (SD_list (SD_MMC st) "/manifests") in
    (scan_found sc, scan_out sc, st').

Definition uploaded_step (c : SDCard) (sc : Scan) (name : string) : Scan :=
  if negb (endsWith name ".json") then sc
  else
    match load_manifest c ("/manifests/" +:+ name) with
    | None => sc
    | Some (item, status) =>
        if negb (String.eqb status "UPLOADED") then sc
        else take_if_better sc item
    end.

Definition find_oldest_uploaded (st : State) : bool * PendingItem :=
  if negb (sd_ok st) then (false, empty_item)
  else if negb (SD_is_dir (SD_MMC st) "/manifests") then (false, empty_item)
  else
    let sc := foldl (uploaded_step (SD_MMC st)) scan_start
                (SD_list (SD_MMC st) "/manifests") in
    (scan_found sc, scan_out sc).

(** ** Retention *)

(** [free_percent] on the two readings of the card. *)
Definition free_percent_of (totalBytes usedBytes : Z) : Z :=
  let total := to_uint64 totalBytes in
  let used := to_uint64 usedBytes in
  if total =? 0 then 0
  else
    let free_bytes := to_uint64 (total - used) in
    to_uint8 (to_uint64 (free_bytes * 100) / total).

Definition free_percent (c : SDCard) : Z :=
  free_percent_of (sd_totalBytes c) (sd_usedBytes c (sd_files c) (sd_dirs c)).

Definition remove_if_exists (c : SDCard) (path : string) : SDCard :=
  if SD_exists c path then SD_remove c path else c.

(** The [while (free_pct < SD_MIN_FREE_PERCENT)] loop.  The sketch counts
    its deletions; the items are kept here, oldest deletion first.  [None]
    when [fuel] turns of the loop are not enough. *)
Fixpoint retention_loop (fuel : nat) (st : State) (free_pct : Z)
    (deletions : list PendingItem) : option (State * Z * list PendingItem) :=
  if negb (free_pct <? SD_MIN_FREE_PERCENT) then Some (st, free_pct, deletions)
  else
    match fuel with
    | O => None
    | S fuel' =>
        match find_oldest_uploaded st with
        | (false, _) => Some (st, free_pct, deletions)
        | (true, item) =>
            let c := remove_if_exists (SD_MMC st) (filepath item) in
            let c := remove_if_exists c (manifest_path item) in
            retention_loop fuel' (set_SD_MMC c st) (free_percent c)
              (deletions ++ [item])
        end
    end.

(** Every turn of the loop unlinks a file, so one turn more than there are
    files is enough. *)
Definition retention_fuel (st : State) : nat := S (size (sd_files (SD_MMC st))).

Definition enforce_retention (st : State) : option (State * list PendingItem) :=
  if negb (sd_ok st) then Some (st, [])
  else
    let free_pct := free_percent (SD_MMC st) in
    if SD_MIN_FREE_PERCENT <=? free_pct then Some (set_capture_paused false st, [])
    else
      match retention_loop (retention_fuel st) st free_pct [] with
      | Some (st', free_pct', deletions) =>
          Some (set_capture_paused (free_pct' <? SD_EMERGENCY_FREE_PERCENT) st',
                deletions)
      | None => None
      end.

(** ** Upload *)

Definition request_upload_target (DEVICE_TOKEN : string) (item : PendingItem)
    (net : NetOutcome) : option (string * Z * string * string) :=
  if Z.of_nat (String.length DEVICE_TOKEN) =? 0 then None
  else
    match net_upload_url net with
    | None => None
    | Some (host, port, path, object_key) =>
        if isEmpty host || isEmpty path || isEmpty object_key then None
        else Some (host, port, path, object_key)
    end.

Definition stream_upload (st : State) (item : PendingItem) (net : NetOutcome) : bool :=
  if negb (SD_is_file (SD_MMC st) (filepath item)) then false
  else
    match net_put_status net with
    | None => false
    | Some status_code => (200 <=? status_code) && (status_code <? 300)
    end.

Definition notify_ingest (net : NetOutcome) : bool :=
  net_ingest_code net =? 200.

Definition update_manifest_status (st : State) (item : PendingItem)
    (status : string) (attempts : Z) (last_attempt : Z) : State :=
  (write_manifest_atomic st (seq item) (filepath item) (captured_epoch item)
     status (item_type item) (content_type item) attempts last_attempt).2.

(** The three identical failure branches of [upload_one_pending]. *)
Definition record_failure (st : State) (item : PendingItem) (attempt_epoch : Z) : State :=
  if UPLOAD_MAX_ATTEMPTS <=? upload_attempts item + 1 then
    update_manifest_status st item "FAILED" (upload_attempts item + 1) attempt_epoch
  else
    update_manifest_status st item "PENDING" (upload_attempts item + 1) attempt_epoch.

Definition upload_one_pending (DEVICE_TOKEN : string) (st : State) (w : World)
    (net : NetOutcome) : bool * State :=
  if negb (sd_ok st) || negb (wifi_ok st) then (false, st)
  else
    match find_oldest_pending st w with
    | (false, _, st) => (false, st)
    | (true, item, st) =>
        let attempt_epoch := now_epoch st w in
        let st := update_manifest_status st item "PENDING"
                    (upload_attempts item + 1) attempt_epoch in
        match request_upload_target DEVICE_TOKEN item net with
        | None => (false, record_failure st item attempt_epoch)
        | Some (host, port, path, object_key) =>
            if negb (stream_upload st item net) then
              (false, record_failure st item attempt_epoch)
            else if negb (notify_ingest net) then
              (false, record_failure st item attempt_epoch)
            else
              (true, update_manifest_status st item "UPLOADED"
                       (upload_attempts item + 1) attempt_epoch)
        end
    end.

Definition no_network : NetOutcome :=
  {| net_upload_url := None; net_put_status := None; net_ingest_code := 0 |}.

Fixpoint upload_batch_from (n : nat) (DEVICE_TOKEN : string) (st : State)
    (w : World) (nets : list NetOutcome) : State :=
  match n with
  | O => st
  | S n' =>
      match upload_one_pending DEVICE_TOKEN st w (hd no_network nets) with
      | (false, st') => st'
      | (true, st') => upload_batch_from n' DEVICE_TOKEN st' w (tl nets)
      end
  end.

Definition upload_batch (DEVICE_TOKEN : string) (st : State) (w : World) : State :=
  upload_batch_from UPLOAD_BATCH_SIZE DEVICE_TOKEN st w (w_uploads w).

(** ** Audio *)

Definition kAudioFrameSamples : Z := (AUDIO_SAMPLE_RATE * AUDIO_FRAME_MS) / 1000.
Definition kAudioPrerollSamples : Z := (AUDIO_SAMPLE_RATE * AUDIO_PREROLL_MS) / 1000.

Definition ms_to_samples (ms : Z) : Z := (AUDIO_SAMPLE_RATE * ms) / 1000.

Definition adjust_start_epoch (epoch : Z) : Z :=
  let preroll_sec := AUDIO_PREROLL_MS / 1000 in
  if preroll_sec =? 0 then epoch
  else if epoch >? preroll_sec then epoch - preroll_sec
  else epoch.

Fixpoint zeros (n : nat) : string :=
  match n with
  | O => ""
  | S n' => String "0" (zeros n')
  end.

(** [%06lu] *)
Definition pad6 (z : Z) : string :=
  let digits := String_of z in
  zeros (6 - String.length digits) +:+ digits.

Definition build_date_folder (st : State) (w : World) : string :=
  if negb (ntp_synced st) then "/unsynced" else "/" +:+ w_date w.

Definition build_filename (st : State) (w : World) (seq : Z) : string :=
  if negb (ntp_synced st) then "/img_" +:+ String_of seq +:+ ".jpg"
  else "/" +:+ w_hms w +:+ "_" +:+ pad6 seq +:+ ".jpg".

Definition build_audio_folder (st : State) (w : World) : string :=
  if negb (ntp_synced st) then "/unsynced_audio" else "/audio/" +:+ w_date w.

Definition build_audio_filename (st : State) (w : World) (seq : Z) : string :=
  if negb (ntp_synced st) then "/audio_" +:+ String_of seq +:+ ".wav"
  else "/" +:+ w_hms w +:+ "_" +:+ pad6 seq +:+ ".wav".

(** [SD_MMC.mkdir] of an audio folder, whose outcome [World] decides. *)
Definition audio_mkdir (w : World) (st : State) (path : string) : bool * State :=
  if w_audio_mkdir_ok w then (true, set_SD_MMC (SD_mkdir (SD_MMC st) path) st)
  else (false, st).

Definition ensure_audio_folder (st : State) (w : World) (folder : string) : bool * State :=
  if negb (sd_ok st) then (false, st)
  else if String.eqb folder "/unsynced_audio" then
    if negb (SD_exists (SD_MMC st) folder) then audio_mkdir w st folder
    else (true, st)
  else if String.prefix "/audio/" folder then
    match (if negb (SD_exists (SD_MMC st) "/audio") then audio_mkdir w st "/audio"
           else (true, st)) with
    | (false, st) => (false, st)
    | (true, st) =>
        if negb (SD_exists (SD_MMC st) folder) then audio_mkdir w st folder
        else (true, st)
    end
  else if negb (SD_exists (SD_MMC st) folder) then audio_mkdir w st folder
  else (true, st).

(** Updates of single audio variables. *)
Definition a_recording (b : bool) (a : Audio) : Audio :=
  {| audio_preroll := audio_preroll a; audio_recording := b;
     audio_file := audio_file a; audio_filepath := audio_filepath a;
     audio_start_epoch := audio_start_epoch a; audio_seq := audio_seq a;
     audio_samples_written := audio_samples_written a;
     vad_over_count := vad_over_count a; vad_under_count := vad_under_count a;
     audio_force_active := audio_force_active a;
     audio_force_stop_samples := audio_force_stop_samples a;
     audio_photo_clip_pending := audio_photo_clip_pending a;
     audio_photo_clip_epoch := audio_photo_clip_epoch a;
     audio_heartbeat_pending := audio_heartbeat_pending a;
     last_audio_heartbeat := last_audio_heartbeat a;
     preroll_index := preroll_index a; preroll_filled := preroll_filled a |}.

Definition a_file (open : bool) (path : string) (a : Audio) : Audio :=
  {| audio_preroll := audio_preroll a; audio_recording := audio_recording a;
     audio_file := open; audio_filepath := path;
     audio_start_epoch := audio_start_epoch a; audio_seq := audio_seq a;
     audio_samples_written := audio_samples_written a;
     vad_over_count := vad_over_count a; vad_under_count := vad_under_count a;
     audio_force_active := audio_force_active a;
     audio_force_stop_samples := audio_force_stop_samples a;
     audio_photo_clip_pending := audio_photo_clip_pending a;
     audio_photo_clip_epoch := audio_photo_clip_epoch a;
     audio_heartbeat_pending := audio_heartbeat_pending a;
     last_audio_heartbeat := last_audio_heartbeat a;
     preroll_index := preroll_index a; preroll_filled := preroll_filled a |}.

(** [audio_seq], [audio_start_epoch], [audio_force_stop_samples] and
    [audio_force_active], assigned together when a recording is started. *)
Definition a_start (seq epoch force_stop : Z) (a : Audio) : Audio :=
  {| audio_preroll := audio_preroll a; audio_recording := audio_recording a;
     audio_file := audio_file a; audio_filepath := audio_filepath a;
     audio_start_epoch := epoch; audio_seq := seq;
     audio_samples_written := audio_samples_written a;
     vad_over_count := vad_over_count a; vad_under_count := vad_under_count a;
     audio_force_active := force_stop >? 0;
     audio_force_stop_samples := force_stop;
     audio_photo_clip_pending := audio_photo_clip_pending a;
     audio_photo_clip_epoch := audio_photo_clip_epoch a;
     audio_heartbeat_pending := audio_heartbeat_pending a;
     last_audio_heartbeat := last_audio_heartbeat a;
     preroll_index := preroll_index a; preroll_filled := preroll_filled a |}.

Definition a_samples_written (n : Z) (a : Audio) : Audio :=
  {| audio_preroll := audio_preroll a; audio_recording := audio_recording a;
     audio_file := audio_file a; audio_filepath := audio_filepath a;
     audio_start_epoch := audio_start_epoch a; audio_seq := audio_seq a;
     audio_samples_written := n;
     vad_over_count := vad_over_count a; vad_under_count := vad_under_count a;
     audio_force_active := audio_force_active a;
     audio_force_stop_samples := audio_force_stop_samples a;
     audio_photo_clip_pending := audio_photo_clip_pending a;
     audio_photo_clip_epoch := audio_photo_clip_epoch a;
     audio_heartbeat_pending := audio_heartbeat_pending a;
     last_audio_heartbeat := last_audio_heartbeat a;
     preroll_index := preroll_index a; preroll_filled := preroll_filled a |}.

Definition a_vad_over (n : Z) (a : Audio) : Audio :=
  {| audio_preroll := audio_preroll a; audio_recording := audio_recording a;
     audio_file := audio_file a; audio_filepath := audio_filepath a;
     audio_start_epoch := audio_start_epoch a; audio_seq := audio_seq a;
     audio_samples_written := audio_samples_written a;
     vad_over_count := n; vad_under_count := vad_under_count a;
     audio_force_active := audio_force_active a;
     audio_force_stop_samples := audio_force_stop_samples a;
     audio_photo_clip_pending := audio_photo_clip_pending a;
     audio_photo_clip_epoch := audio_photo_clip_epoch a;
     audio_heartbeat_pending := audio_heartbeat_pending a;
     last_audio_heartbeat := last_audio_heartbeat a;
     preroll_index := preroll_index a; preroll_filled := preroll_filled a |}.

Definition a_vad_under (n : Z) (a : Audio) : Audio :=
  {| audio_preroll := audio_preroll a; audio_recording := audio_recording a;
     audio_file := audio_file a; audio_filepath := audio_filepath a;
     audio_start_epoch := audio_start_epoch a; audio_seq := audio_seq a;
     audio_samples_written := audio_samples_written a;
     vad_over_count := vad_over_count a; vad_under_count := n;
     audio_force_active := audio_force_active a;
     audio_force_stop_samples := audio_force_stop_samples a;
     audio_photo_clip_pending := audio_photo_clip_pending a;
     audio_photo_clip_epoch := audio_photo_clip_epoch a;
     audio_heartbeat_pending := audio_heartbeat_pending a;
     last_audio_heartbeat := last_audio_heartbeat a;
     preroll_index := preroll_index a; preroll_filled := preroll_filled a |}.

Definition a_photo_clip (pending : bool) (epoch : Z) (a : Audio) : Audio :=
  {| audio_preroll := audio_preroll a; audio_recording := audio_recording a;
     audio_file := audio_file a; audio_filepath := audio_filepath a;
     audio_start_epoch := audio_start_epoch a; audio_seq := audio_seq a;
     audio_samples_written := audio_samples_written a;
     vad_over_count := vad_over_count a; vad_under_count := vad_under_count a;
     audio_force_active := audio_force_active a;
     audio_force_stop_samples := audio_force_stop_samples a;
     audio_photo_clip_pending := pending;
     audio_photo_clip_epoch := epoch;
     audio_heartbeat_pending := audio_heartbeat_pending a;
     last_audio_heartbeat := last_audio_heartbeat a;
     preroll_index := preroll_index a; preroll_filled := preroll_filled a |}.

Definition a_heartbeat (pending : bool) (last : Z) (a : Audio) : Audio :=
  {| audio_preroll := audio_preroll a; audio_recording := audio_recording a;
     audio_file := audio_file a; audio_filepath := audio_filepath a;
     audio_start_epoch := audio_start_epoch a; audio_seq := audio_seq a;
     audio_samples_written := audio_samples_written a;
     vad_over_count := vad_over_count a; vad_under_count := vad_under_count a;
     audio_force_active := audio_force_active a;
     audio_force_stop_samples := audio_force_stop_samples a;
     audio_photo_clip_pending := audio_photo_clip_pending a;
     audio_photo_clip_epoch := audio_photo_clip_epoch a;
     audio_heartbeat_pending := pending;
     last_audio_heartbeat := last;
     preroll_index := preroll_index a; preroll_filled := preroll_filled a |}.

Definition a_preroll (index : Z) (filled : bool) (a : Audio) : Audio :=
  {| audio_preroll := audio_preroll a; audio_recording := audio_recording a;
     audio_file := audio_file a; audio_filepath := audio_filepath a;
     audio_start_epoch := audio_start_epoch a; audio_seq := audio_seq a;
     audio_samples_written := audio_samples_written a;
     vad_over_count := vad_over_count a; vad_under_count := vad_under_count a;
     audio_force_active := audio_force_active a;
     audio_force_stop_samples := audio_force_stop_samples a;
     audio_photo_clip_pending := audio_photo_clip_pending a;
     audio_photo_clip_epoch := audio_photo_clip_epoch a;
     audio_heartbeat_pending := audio_heartbeat_pending a;
     last_audio_heartbeat := last_audio_heartbeat a;
     preroll_index := index; preroll_filled := filled |}.

(** The variables [finish_audio_recording] resets at its end. *)
Definition a_reset (a : Audio) : Audio :=
  {| audio_preroll := audio_preroll a; audio_recording := false;
     audio_file := audio_file a; audio_filepath := "";
     audio_start_epoch := audio_start_epoch a; audio_seq := audio_seq a;
     audio_samples_written := 0;
     vad_over_count := 0; vad_under_count := 0;
     audio_force_active := false;
     audio_force_stop_samples := 0;
     audio_photo_clip_pending := audio_photo_clip_pending a;
     audio_photo_clip_epoch := audio_photo_clip_epoch a;
     audio_heartbeat_pending := audio_heartbeat_pending a;
     last_audio_heartbeat := last_audio_heartbeat a;
     preroll_index := preroll_index a; preroll_filled := preroll_filled a |}.

Definition upd_audio (f : Audio → Audio) (st : State) : State :=
  set_audio (f (audio st)) st.

(** [preroll_push]: the ring index after [count] samples, and whether the
    ring wrapped (the sample values are not kept). *)
Definition preroll_push (st : State) (count : Z) : State :=
  if negb (audio_preroll (audio st)) || (kAudioPrerollSamples =? 0) then st
  else
    let idx := preroll_index (audio st) + count in
    upd_audio (a_preroll (idx mod kAudioPrerollSamples)
                 (preroll_filled (audio st) || (kAudioPrerollSamples <=? idx))) st.

(** [preroll_write]: the number of samples copied from the ring into the
    file. *)
Definition preroll_write (st : State) : Z :=
  let a := audio st in
  if negb (audio_preroll a) || (kAudioPrerollSamples =? 0) then 0
  else
    let available := if preroll_filled a then kAudioPrerollSamples else preroll_index a in
    if available =? 0 then 0
    else
      let start := if preroll_filled a then preroll_index a else 0 in
      let first_len := if preroll_filled a then kAudioPrerollSamples - start else available in
      let written := if first_len >? 0 then first_len * 2 else 0 in
      let written := if preroll_filled a && (start >? 0) then written + start * 2 else written in
      written / 2.

Definition write_audio_frame (st : State) (w : World) (count : Z) : bool * State :=
  if negb (audio_file (audio st)) then (false, st)
  else if negb (w_audio_write_ok w) then (false, st)
  else (true, upd_audio (a_samples_written (audio_samples_written (audio st) + count)) st).

Definition finish_audio_recording (st : State) (keep : bool) : State :=
  if negb (audio_recording (audio st)) then st
  else
    let min_samples := AUDIO_MIN_SEC * AUDIO_SAMPLE_RATE in
    let keep := if audio_samples_written (audio st) <? min_samples then false else keep in
    let st := if audio_file (audio st)
              then upd_audio (a_file false (audio_filepath (audio st))) st
              else st in
    let path := audio_filepath (audio st) in
    let st :=
      if negb keep || isEmpty path then
        if negb (isEmpty path) && SD_exists (SD_MMC st) path
        then set_SD_MMC (SD_remove (SD_MMC st) path) st
        else st
      else
        (write_manifest_atomic st (audio_seq (audio st)) path
           (audio_start_epoch (audio st)) "PENDING" "audio" "audio/wav" 0 0).2 in
    upd_audio a_reset st.

Definition start_audio_recording (st : State) (w : World) (count : Z)
    (start_epoch : Z) (force_stop_samples : Z) : bool * State :=
  if negb (sd_ok st) || capture_paused st then (false, st)
  else if audio_recording (audio st) then (false, st)
  else
    let '(seq, st) := get_next_seq st in
    let epoch := if start_epoch >? 0 then start_epoch else now_epoch st w in
    let st := upd_audio (a_start seq (adjust_start_epoch epoch) force_stop_samples) st in
    let folder := build_audio_folder st w in
    match ensure_audio_folder st w folder with
    | (false, st) => (false, st)
    | (true, st) =>
        let path := folder +:+ build_audio_filename st w (audio_seq (audio st)) in
        if negb (w_audio_open_ok w) then
          (false, upd_audio (a_file false "") st)
        else
          let st := set_SD_MMC (SD_write (SD_MMC st) path "") st in
          let st := upd_audio (a_file true path) st in
          let st := upd_audio (a_samples_written 0) st in
          let st := upd_audio (a_samples_written
                                 (audio_samples_written (audio st) + preroll_write st)) st in
          let st := upd_audio (a_recording true) st in
          let st := upd_audio (a_vad_under 0) st in
          match write_audio_frame st w count with
          | (false, st) => (false, finish_audio_recording st false)
          | (true, st) => (true, st)
          end
    end.

(** The idle branch of [audio_tick] once no forced start is pending. *)
Definition audio_tick_vad_idle (st : State) (w : World) (sample_count : Z) : State :=
  let st := preroll_push st sample_count in
  let st := if w_rms_over_start w
            then upd_audio (a_vad_over (vad_over_count (audio st) + 1)) st
            else upd_audio (a_vad_over 0) st in
  if AUDIO_VAD_START_FRAMES <=? vad_over_count (audio st) then
    match start_audio_recording st w sample_count (now_epoch st w) 0 with
    | (true, st) => upd_audio (a_vad_over 0) st
    | (false, st) => st
    end
  else st.

(** The recording branch of [audio_tick]. *)
Definition audio_tick_recording (st : State) (w : World) (sample_count : Z) : State :=
  match write_audio_frame st w sample_count with
  | (false, st) => finish_audio_recording st false
  | (true, st) =>
      if audio_force_active (audio st) then
        if (audio_force_stop_samples (audio st) >? 0)
           && (audio_force_stop_samples (audio st) <=? audio_samples_written (audio st))
        then finish_audio_recording st true
        else st
      else
        let st := if w_rms_under_stop w
                  then upd_audio (a_vad_under (vad_under_count (audio st) + 1)) st
                  else upd_audio (a_vad_under 0) st in
        (* [duration_sec >= AUDIO_MAX_SEC], on sample counts *)
        if (AUDIO_VAD_STOP_FRAMES <=? vad_under_count (audio st))
           || (AUDIO_MAX_SEC * AUDIO_SAMPLE_RATE <=? audio_samples_written (audio st))
        then finish_audio_recording st true
        else st
  end.

Definition audio_tick (st : State) (w : World) : State :=
  if negb (audio_ok st) then st
  else if negb (w_i2s_ok w) then st
  else
    let sample_count := w_bytes_read w / 2 in
    if sample_count =? 0 then st
    else if negb (audio_recording (audio st)) then
      if audio_photo_clip_pending (audio st) then
        let force_epoch := audio_photo_clip_epoch (audio st) in
        let st := upd_audio (a_photo_clip false force_epoch) st in
        let force_samples := kAudioPrerollSamples + ms_to_samples AUDIO_PHOTO_CLIP_POST_MS in
        (start_audio_recording st w sample_count force_epoch force_samples).2
      else if audio_heartbeat_pending (audio st) then
        let st := upd_audio (a_heartbeat false (last_audio_heartbeat (audio st))) st in
        let force_samples := kAudioPrerollSamples + ms_to_samples AUDIO_HEARTBEAT_DURATION_MS in
        let force_epoch := now_epoch st w in
        (start_audio_recording st w sample_count force_epoch force_samples).2
      else audio_tick_vad_idle st w sample_count
    else audio_tick_recording st w sample_count.

(** ** Photo capture *)

Definition capture_and_save (st : State) (w : World) : bool * State :=
  if negb (sd_ok st) || negb (camera_ok st) then (false, st)
  else if capture_paused st then (false, st)
  else
    match w_camera_fb w with
    | None => (false, st)
    | Some fb_len =>
        let '(seq, st) := get_next_seq st in
        let folder := build_date_folder st w in
        let st := if negb (SD_exists (SD_MMC st) folder)
                  then set_SD_MMC (SD_mkdir (SD_MMC st) folder) st else st in
        let filepath := folder +:+ build_filename st w seq in
        if negb (w_photo_open_ok w) then (false, st)
        else
          let st := set_SD_MMC (SD_write (SD_MMC st) filepath "") st in
          if negb (w_photo_written w =? fb_len) then (false, st)
          else
            let captured_epoch := now_epoch st w in
            let st := (write_manifest_atomic st seq filepath captured_epoch
                         "PENDING" "photo" "image/jpeg" 0 0).2 in
            let st := if audio_ok st && AUDIO_PHOTO_CLIP_ENABLED
                         && negb (audio_recording (audio st))
                      then upd_audio (a_photo_clip true captured_epoch) st
                      else st in
            (true, st)
    end.

(** ** The cooperative loop *)

Definition loop_wifi (st : State) (w : World) : State :=
  let now := to_uint32 (w_millis w) in
  if negb (wifi_ok st) && negb (audio_recording (audio st))
     && (10000 <=? ulong_sub now (last_wifi_attempt st))
  then set_wifi (w_wifi_connect w) now st
  else st.

Definition loop_ntp (st : State) (w : World) : State :=
  let now := to_uint32 (w_millis w) in
  if wifi_ok st && negb (ntp_synced st) && negb (audio_recording (audio st))
     && (15000 <=? ulong_sub now (last_ntp_attempt st))
  then set_ntp (w_ntp_sync w) now st
  else st.

Definition loop_capture (st : State) (w : World) : State :=
  let now := to_uint32 (w_millis w) in
  if CAPTURE_INTERVAL_MS <=? ulong_sub now (last_capture st)
  then set_last_capture now (capture_and_save st w).2
  else st.

Definition loop_heartbeat (st : State) (w : World) : State :=
  let now := to_uint32 (w_millis w) in
  if audio_ok st && AUDIO_HEARTBEAT_ENABLED then
    if negb (audio_recording (audio st))
       && negb (audio_heartbeat_pending (audio st))
       && (AUDIO_HEARTBEAT_INTERVAL_MS <=? ulong_sub now (last_audio_heartbeat (audio st)))
    then upd_audio (a_heartbeat true now) st
    else st
  else st.

Definition loop_upload (DEVICE_TOKEN : string) (st : State) (w : World) : State :=
  let now := to_uint32 (w_millis w) in
  if negb (audio_recording (audio st))
     && (UPLOAD_INTERVAL_MS <=? ulong_sub now (last_upload st))
  then set_last_upload now (upload_batch DEVICE_TOKEN st w)
  else st.

(** [enforce_retention] always returns (see [enforce_retention_returns]);
    the state is left as it is in the other case of the [match]. *)
Definition loop_retention (st : State) (w : World) : State :=
  let now := to_uint32 (w_millis w) in
  if negb (audio_recording (audio st))
     && (RETENTION_CHECK_INTERVAL_MS <=? ulong_sub now (last_retention_check st))
  then set_last_retention_check now
         (match enforce_retention st with
          | Some (st', _) => st'
          | None => st
          end)
  else st.

(** [send_telemetry] changes no variable of the sketch. *)
Definition loop_telemetry (st : State) (w : World) : State :=
  let now := to_uint32 (w_millis w) in
  if negb (audio_recording (audio st))
     && (TELEMETRY_INTERVAL_MS <=? ulong_sub now (last_telemetry st))
  then set_last_telemetry now st
  else st.

(** [loop()] from the reconnection of Wi-Fi through the photo capture. *)
Definition loop_connect_capture (st : State) (w : World) : State :=
  loop_capture (loop_ntp (loop_wifi st w) w) w.

(** [loop()] after the heartbeat check. *)
Definition loop_tail (DEVICE_TOKEN : string) (st : State) (w : World) : State :=
  loop_telemetry (loop_retention (loop_upload DEVICE_TOKEN st w) w) w.

(** [loop()] after [audio_tick()]. *)
Definition loop_after_tick (DEVICE_TOKEN : string) (st : State) (w : World) : State :=
  loop_tail DEVICE_TOKEN (loop_heartbeat (loop_connect_capture st w) w) w.

Definition loop (DEVICE_TOKEN : string) (st : State) (w : World) : State :=
  loop_after_tick DEVICE_TOKEN (audio_tick st w) w.

(** ** Power-on and [setup()] *)

Definition audio_power_on : Audio :=
  {| audio_preroll := false; audio_recording := false; audio_file := false;
     audio_filepath := ""; audio_start_epoch := 0; audio_seq := 0;
     audio_samples_written := 0; vad_over_count := 0; vad_under_count := 0;
     audio_force_active := false; audio_force_stop_samples := 0;
     audio_photo_clip_pending := false; audio_photo_clip_epoch := 0;
     audio_heartbeat_pending := false; last_audio_heartbeat := 0;
     preroll_index := 0; preroll_filled := false |}.

(** The outcomes of the three hardware initialisations of [setup()]. *)
Record Boot := {
  boot_camera_init : bool;         (* [esp_camera_init(...) == ESP_OK] *)
  boot_sd_begin : bool;            (* [SD_MMC.begin(...)] *)
  boot_init_audio : bool           (* [init_audio()] *)
}.

(** The variables after [setup()]; the sequence counter and the card are
    what survived the previous run. *)
Definition setup (b : Boot) (seq0 : Z) (c : SDCard) (w : World) : State :=
  let st :=
    {| sd_ok := boot_sd_begin b; camera_ok := boot_camera_init b;
       ntp_synced := false; wifi_ok := false; capture_paused := false;
       last_capture := 0; last_upload := 0; last_wifi_attempt := 0;
       last_ntp_attempt := 0; last_retention_check := 0; last_telemetry := 0;
       audio_ok := boot_init_audio b;
       audio := {| audio_preroll := boot_init_audio b; audio_recording := false;
                   audio_file := false; audio_filepath := "";
                   audio_start_epoch := 0; audio_seq := 0;
                   audio_samples_written := 0; vad_over_count := 0;
                   vad_under_count := 0; audio_force_active := false;
                   audio_force_stop_samples := 0;
                   audio_photo_clip_pending := false;
                   audio_photo_clip_epoch := 0;
                   audio_heartbeat_pending := false;
                   last_audio_heartbeat := 0;
                   preroll_index := 0; preroll_filled := false |};
       prefs_seq := seq0; SD_MMC := c |} in
  let st := (capture_and_save st w).2 in
  let st := set_wifi (w_wifi_connect w) (last_wifi_attempt st) st in
  set_ntp (if wifi_ok st then w_ntp_sync w else false) (last_ntp_attempt st) st.

(** The states the sketch can be in between two passes of [loop()]. *)
Inductive reachable (DEVICE_TOKEN : string) : State → Prop :=
| reachable_setup b seq0 c w :
    0 <= seq0 < 2 ^ 32 →
    reachable DEVICE_TOKEN (setup b seq0 c w)
| reachable_loop st w :
    reachable DEVICE_TOKEN st →
    reachable DEVICE_TOKEN (loop DEVICE_TOKEN st w).

(** ** WAV header *)

Definition to_uint16 : Z → Z := wrap 16.

(** [static_cast<int>] of an unsigned value: two's complement on 32 bits. *)
Definition to_int (z : Z) : Z := (z + 2 ^ 31) mod 2 ^ 32 - 2 ^ 31.

(** The bytes [write_le16] and [write_le32] store at [out], lowest address
    first. *)
Definition write_le16 (value : Z) : list Z :=
  [Z.land value 255; Z.land (Z.shiftr value 8) 255].

Definition write_le32 (value : Z) : list Z :=
  [Z.land value 255; Z.land (Z.shiftr value 8) 255;
   Z.land (Z.shiftr value 16) 255; Z.land (Z.shiftr value 24) 255].

(** [memcpy(header + offset, src, n)], and the stores of [write_le16] and
    [write_le32] at [header + offset]. *)
Definition store (offset : nat) (src : list Z) (header : list Z) : list Z :=
  list_inserts offset src header.

(** The character codes of a string literal. *)
Definition bytes_of (s : string) : list Z :=
  (λ c, Z.of_nat (nat_of_ascii c)) <$> String.list_ascii_of_string s.

(** The 44 bytes [write_wav_header] hands to [file.write]. *)
Definition write_wav_header (data_bytes : Z) : list Z :=
  let header := replicate 44 0 in
  let header := store 0 (bytes_of "RIFF") header in
  let header := store 4 (write_le32 (to_uint32 (36 + data_bytes))) header in
  let header := store 8 (bytes_of "WAVE") header in
  let header := store 12 (bytes_of "fmt ") header in
  let header := store 16 (write_le32 16) header in
  let header := store 20 (write_le16 1) header in
  let header := store 22 (write_le16 1) header in
  let header := store 24 (write_le32 AUDIO_SAMPLE_RATE) header in
  let byte_rate := AUDIO_SAMPLE_RATE * 1 * 16 / 8 in
  let header := store 28 (write_le32 byte_rate) header in
  let header := store 32 (write_le16 2) header in
  let header := store 34 (write_le16 16) header in
  let header := store 36 (bytes_of "data") header in
  let header := store 40 (write_le32 data_bytes) header in
  header.

(** The header [finish_audio_recording] writes over the first 44 bytes of an
    open audio file: [data_bytes] is
    [static_cast<uint32_t>(audio_samples_written * sizeof(int16_t))]. *)
Definition finish_wav_header (st : State) : list Z :=
  write_wav_header (to_uint32 (audio_samples_written (audio st) * 2)).

(** ** compute_rms *)

(** The accumulator [sum] of [compute_rms] when its loop ends ([uint64_t]
    arithmetic; every sample is widened to [int32_t] and cast to
    [uint64_t]).  The division and the square root, in [float], are not
    modelled. *)
Definition compute_rms_sum (samples : list Z) : Z :=
  foldl (λ sum s, to_uint64 (sum + to_uint64 (to_uint64 s * to_uint64 s)))
        0 samples.

(** ** The preroll ring, with its samples *)

(** [audio_preroll] (the buffer, [None] while it is [nullptr]),
    [preroll_index] and [preroll_filled]. *)
Record Preroll := {
  ring : option (list Z);
  ring_index : Z;
  ring_filled : bool
}.

(** One turn of the loop of [preroll_push], for a ring of [capacity]
    samples. *)
Definition preroll_push_sample (capacity : Z) (p : Preroll) (sample : Z) : Preroll :=
  let buffer := (λ b, <[Z.to_nat (ring_index p) := sample]> b) <$> ring p in
  let index := ring_index p + 1 in
  if capacity <=? index
  then {| ring := buffer; ring_index := 0; ring_filled := true |}
  else {| ring := buffer; ring_index := index; ring_filled := ring_filled p |}.

Definition ring_push (capacity : Z) (p : Preroll) (samples : list Z) : Preroll :=
  match ring p with
  | None => p
  | Some _ =>
      if capacity =? 0 then p
      else foldl (preroll_push_sample capacity) p samples
  end.

(** The samples [preroll_write] copies into the file, in the order it writes
    them (both [file.write] calls writing in full). *)
Definition ring_write (capacity : Z) (p : Preroll) : list Z :=
  match ring p with
  | None => []
  | Some buffer =>
      if capacity =? 0 then []
      else
        let available := if ring_filled p then capacity else ring_index p in
        if available =? 0 then []
        else
          let start := if ring_filled p then ring_index p else 0 in
          let first_len := if ring_filled p then capacity - start else available in
          let written :=
            if first_len >? 0
            then take (Z.to_nat first_len) (drop (Z.to_nat start) buffer)
            else [] in
          if ring_filled p && (start >? 0)
          then written ++ take (Z.to_nat start) buffer
          else written
  end.

(** [preroll_push] and [preroll_write] of the sketch: the ring holds
    [kAudioPrerollSamples] samples. *)
Definition preroll_push_samples : Preroll → list Z → Preroll :=
  ring_push kAudioPrerollSamples.

Definition preroll_write_samples : Preroll → list Z :=
  ring_write kAudioPrerollSamples.

(** ** The status line of the upload answer *)

(** [client.readBytesUntil(terminator, buffer, length)]: the bytes stored,
    from what the connection delivers before it times out. *)
Fixpoint readBytesUntil (terminator : ascii) (length : nat) (stream : string) : string :=
  match length, stream with
  | S n, String c rest =>
      if Ascii.eqb c terminator then ""
      else String c (readBytesUntil terminator n rest)
  | _, _ => ""
  end.

(** A [char] buffer read as a C string: it ends at its first NUL. *)
Fixpoint c_str (buffer : string) : string :=
  match buffer with
  | String c rest => if Ascii.eqb c "000" then "" else String c (c_str rest)
  | EmptyString => ""
  end.

(** [strchr(s, c)]: the string from the first [c] on. *)
Fixpoint strchr (s : string) (c : ascii) : option string :=
  match s with
  | String a rest => if Ascii.eqb a c then Some s else strchr rest c
  | EmptyString => None
  end.

(** The loop that steps [p] over blanks. *)
Fixpoint skip_spaces (p : string) : string :=
  match p with
  | String c rest => if Ascii.eqb c " " then skip_spaces rest else p
  | EmptyString => p
  end.

Definition isspace (c : ascii) : bool :=
  Ascii.eqb c " " || ((9 <=? nat_of_ascii c)%nat && (nat_of_ascii c <=? 13)%nat).

Fixpoint skip_isspace (s : string) : string :=
  match s with
  | String c rest => if isspace c then skip_isspace rest else s
  | EmptyString => s
  end.

(** [atoi]: white space, an optional sign, then the digits there are. *)
Definition atoi (s : string) : Z :=
  let s := skip_isspace s in
  let '(negative, s) :=
    match s with
    | String c rest =>
        if Ascii.eqb c "-" then (true, rest)
        else if Ascii.eqb c "+" then (false, rest)
        else (false, s)
    | EmptyString => (false, s)
    end in
  let value :=
    match NilEmpty.uint_of_string (span_digits s).1 with
    | Some u => Z.of_uint u
    | None => 0
    end in
  if negative then - value else value.

(** [read_http_status_code], on what the connection delivers. *)
Definition read_http_status_code (stream : string) : Z :=
  let line := c_str (readBytesUntil "010" 95 stream) in
  match strchr line " " with
  | None => -1
  | Some p => atoi (skip_spaces p)
  end.

(** ** The file name sent with an upload *)

(** [s.lastIndexOf(ch)]: -1 when [ch] does not occur. *)
Fixpoint lastIndexOf_from (ch : ascii) (s : string) (i last : Z) : Z :=
  match s with
  | String c rest =>
      lastIndexOf_from ch rest (i + 1) (if Ascii.eqb c ch then i else last)
  | EmptyString => last
  end.

Definition lastIndexOf (s : string) (ch : ascii) : Z := lastIndexOf_from ch s 0 (-1).

Fixpoint string_drop (n : nat) (s : string) : string :=
  match n, s with
  | S n', String _ rest => string_drop n' rest
  | _, _ => s
  end.

(** [s.substring(left)] *)
Definition substring (s : string) (left : Z) : string :=
  if Z.of_nat (String.length s) <=? left then ""
  else string_drop (Z.to_nat left) s.

(** The [filename] member of the upload-url request and the
    [original_filename] member of the ingest request. *)
Definition upload_filename (item : PendingItem) : string :=
  substring (filepath item) (lastIndexOf (filepath item) "/" + 1).

(** ** Telemetry *)

Definition FIRMWARE_VERSION : string := "0.1.0".

Definition count_step (c : SDCard) (count : Z) (name : string) : Z :=
  if negb (endsWith name ".json") then count
  else
    match load_manifest c ("/manifests/" +:+ name) with
    | None => count
    | Some (_, status) =>
        if String.eqb status "PENDING" then count + 1 else count
    end.

Definition count_pending_manifests (st : State) : Z :=
  if negb (sd_ok st) then 0
  else if negb (SD_is_dir (SD_MMC st) "/manifests") then 0
  else foldl (count_step (SD_MMC st)) 0 (SD_list (SD_MMC st) "/manifests").

(** The members of the telemetry document. *)
Record Telemetry := {
  uptime_seconds : Z;
  sd_used_mb : Z;
  sd_free_mb : Z;
  backlog_count : Z;
  wifi_rssi : Z;
  firmware_version : string
}.

(** [send_telemetry]: the document it posts, [None] when it returns without
    posting.  [rssi] is what [WiFi.RSSI()] reads.  The answer to the post is
    not looked at, and no variable of the sketch is changed. *)
Definition send_telemetry (DEVICE_TOKEN : string) (st : State) (w : World)
    (rssi : Z) : option Telemetry :=
  if negb (wifi_ok st) || (Z.of_nat (String.length DEVICE_TOKEN) =? 0) then None
  else
    let c := SD_MMC st in
    let used := to_uint64 (sd_usedBytes c (sd_files c) (sd_dirs c)) in
    let total := to_uint64 (sd_totalBytes c) in
    let free_bytes := if total >? used then total - used else 0 in
    Some {| uptime_seconds := to_uint32 (w_millis w) / 1000;
            sd_used_mb := to_int (used / (1024 * 1024));
            sd_free_mb := to_int (free_bytes / (1024 * 1024));
            backlog_count := count_pending_manifests st;
            wifi_rssi := rssi;
            firmware_version := FIRMWARE_VERSION |}.

(** ** Notions used in the statements *)

Definition all_digits (s : string) : bool :=
  forallb is_digit (String.list_ascii_of_string s).

(** A string without double quote and backslash: printed between quotes, it
    reads back as itself. *)
Definition plain (s : string) : bool :=
  negb (has_char dquote s) && negb (has_char backslash s).

(** The document read back from a printed manifest. *)
Definition manifest_doc (seq : Z) (filepath : string) (captured_epoch : Z)
    (status item_type content_type : string) (upload_attempts : Z)
    (last_attempt_epoch : Z) : JsonDoc :=
  [("filepath", JStr filepath); ("seq", JInt seq);
   ("captured_at_epoch", JInt (to_uint32 captured_epoch));
   ("status", JStr status); ("item_type", JStr item_type);
   ("content_type", JStr content_type);
   ("upload_attempts", JInt upload_attempts);
   ("last_attempt_epoch", JInt (to_uint32 last_attempt_epoch))].

(** The card on which [write_manifest_atomic] works once the folder is
    there. *)
Definition with_manifests_dir (c : SDCard) : SDCard :=
  if negb (SD_exists c "/manifests") then SD_mkdir c "/manifests" else c.

Definition int_range (z : Z) : Prop := INT_MIN <= z <= INT_MAX.

(** What [load_manifest] returns for a printed manifest whose strings are
    plain: the item-type and content-type defaults are filled in, and the
    numbers are read as [int]. *)
Definition loaded_item (path : string) (sq : Z) (fp : string) (ce : Z)
    (ity cty : string) (ua la : Z) : PendingItem :=
  let ity' := if isEmpty ity
              then (if endsWith fp ".wav" then "audio" else "photo") else ity in
  let cty' := if isEmpty cty
              then (if String.eqb ity' "audio" then "audio/wav" else "image/jpeg")
              else cty in
  {| manifest_path := path; filepath := fp; item_type := ity';
     content_type := cty';
     seq := to_uint32 (or_int0 (Some (JInt sq)));
     captured_epoch := or_int0 (Some (JInt (to_uint32 ce)));
     upload_attempts := or_int0 (Some (JInt ua));
     last_attempt_epoch := or_int0 (Some (JInt (to_uint32 la))) |}.


(** The order of the two scans: [older a b] when [a] is to be taken before
    [b]. *)
Definition older (a b : PendingItem) : Prop :=
  (0 < captured_epoch a ∧ 0 < captured_epoch b
   ∧ captured_epoch a < captured_epoch b)
  ∨ (0 < captured_epoch a ∧ ¬ 0 < captured_epoch b)
  ∨ (captured_epoch a = 0 ∧ captured_epoch b = 0 ∧ seq a < seq b).

(** The manifest a scan reads for the directory entry [name]. *)
Definition manifest_at (c : SDCard) (name : string) : option (PendingItem * string) :=
  if endsWith name ".json" then load_manifest c ("/manifests/" +:+ name) else None.

(** The manifests a scan of [/manifests] reads, in directory order. *)
Definition manifests (c : SDCard) : list (PendingItem * string) :=
  omap (manifest_at c) (SD_list c "/manifests").

Definition uploaded_of (m : PendingItem * string) : option PendingItem :=
  if String.eqb m.2 "UPLOADED" then Some m.1 else None.

(** The items whose manifest has status UPLOADED. *)
Definition uploaded_items (c : SDCard) : list PendingItem :=
  omap uploaded_of (manifests c).

Definition pending_of (now : Z) (m : PendingItem * string) : option PendingItem :=
  if String.eqb m.2 "PENDING"
     && (upload_attempts m.1 <? UPLOAD_MAX_ATTEMPTS)
     && negb (in_backoff now m.1)
  then Some m.1 else None.

(** The items [find_oldest_pending] chooses among at time [now]: status
    PENDING, attempts left, backoff elapsed. *)
Definition pending_items (now : Z) (c : SDCard) : list PendingItem :=
  omap (pending_of now) (manifests c).

(** The backoff has elapsed, as the specification words it. *)
Definition eligible (now : Z) (item : PendingItem) : Prop :=
  upload_attempts item = 0
  ∨ backoff_seconds (upload_attempts item) <= now - last_attempt_epoch item.

(** Every manifest carries a [captured_at_epoch] that is not negative. *)
Definition stamped (c : SDCard) : Prop :=
  ∀ name item status,
    manifest_at c name = Some (item, status) → 0 <= captured_epoch item.

(** Every manifest sits in the file its own [seq] names. *)
Definition names_match (c : SDCard) : Prop :=
  ∀ name item status,
    manifest_at c name = Some (item, status) →
    name = String_of (seq item) +:+ ".json".

(** The store the sketch maintains: manifests sit under their own name,
    their strings can be printed again without escaping, their numbers are
    non-negative, and no directory takes the place of a manifest. *)
Record wf_item (name : string) (item : PendingItem) : Prop := {
  wf_name : name = String_of (seq item) +:+ ".json";
  wf_filepath : plain (filepath item) = true;
  wf_item_type : plain (item_type item) = true;
  wf_content_type : plain (content_type item) = true;
  wf_seq : seq item <= INT_MAX;
  wf_captured : 0 <= captured_epoch item;
  wf_attempts : 0 <= upload_attempts item;
  wf_last_attempt : 0 <= last_attempt_epoch item
}.

Record wf_card (c : SDCard) : Prop := {
  wf_manifests :
    ∀ name item status, manifest_at c name = Some (item, status) → wf_item name item;
  wf_no_dir : ∀ sq, SD_is_dir c (manifest_final_path sq) = false
}.

(** What a scan knows after it has seen the items [seen]. *)
Definition scan_inv (seen : list PendingItem) (sc : Scan) : Prop :=
  if scan_found sc then
    scan_out sc ∈ seen
    ∧ scan_best_epoch sc = captured_epoch (scan_out sc)
    ∧ scan_best_seq sc = seq (scan_out sc)
    ∧ ∀ x, x ∈ seen → ¬ older x (scan_out sc)
  else seen = [] ∧ scan_out sc = empty_item.

(** The item a manifest holds once it is rewritten with a new attempt
    count and attempt time. *)
Definition with_attempt (item : PendingItem) (ua la : Z) : PendingItem :=
  {| manifest_path := manifest_path item; filepath := filepath item;
     item_type := item_type item; content_type := content_type item;
     seq := seq item; captured_epoch := captured_epoch item;
     upload_attempts := ua;
     last_attempt_epoch := or_int0 (Some (JInt (to_uint32 la))) |}.

(** The effect of a scan on the manifests: an entry is as it was, or it was
    PENDING with its attempts used up and is now FAILED. *)
Definition swept (c c' : SDCard) : Prop :=
  ∀ n,
    manifest_at c' n = manifest_at c n
    ∨ ∃ item,
        manifest_at c n = Some (item, "PENDING")
        ∧ UPLOAD_MAX_ATTEMPTS <= upload_attempts item
        ∧ manifest_at c' n = Some (item, "FAILED").

(** The status a manifest is left with by one call of
    [upload_one_pending] that selected it. *)
Definition status_after (ok : bool) (item : PendingItem) : string :=
  if ok then "UPLOADED"
  else if UPLOAD_MAX_ATTEMPTS <=? upload_attempts item + 1 then "FAILED"
  else "PENDING".


(** [wf_card], as a check that can be run on a given card. *)
Definition wf_itemb (name : string) (item : PendingItem) : bool :=
  String.eqb name (String_of (seq item) +:+ ".json")
  && plain (filepath item) && plain (item_type item)
  && plain (content_type item) && (seq item <=? INT_MAX)
  && (0 <=? captured_epoch item) && (0 <=? upload_attempts item)
  && (0 <=? last_attempt_epoch item).

Definition wf_cardb (c : SDCard) : bool :=
  forallb (λ entry : string * string,
             match strip_prefix "/manifests/" entry.1 with
             | Some name =>
                 match manifest_at c name with
                 | Some (item, _) => wf_itemb name item
                 | None => true
                 end
             | None => true
             end)
          (map_to_list (sd_files c))
  && forallb (λ d : string,
                match strip_prefix "/manifests/" d with
                | Some _ => false
                | None => true
                end)
             (elements (sd_dirs c)).

(** A card on which some files of [c] are gone and the others are as they
    were. *)
Definition shrunk (c c' : SDCard) : Prop :=
  sd_dirs c' = sd_dirs c
  ∧ ∀ p, sd_files c' !! p = sd_files c !! p ∨ sd_files c' !! p = None.

(** The card once the artifact and the manifest of [item] are unlinked. *)
Definition without_item (c : SDCard) (item : PendingItem) : SDCard :=
  remove_if_exists (remove_if_exists c (filepath item)) (manifest_path item).

(** What a sweep that began on [st] has done when it stops at [st'] with the
    percentage [free_pct] after the deletions [deleted]. *)
Record swept_clean (st st' : State) (free_pct : Z) (deleted : list PendingItem) : Prop := {
  sc_state : st' = set_SD_MMC (SD_MMC st') st;
  sc_free_pct : free_pct = free_percent (SD_MMC st');
  sc_done : SD_MIN_FREE_PERCENT <= free_pct ∨ uploaded_items (SD_MMC st') = [];
  sc_files :
    ∀ p, sd_files (SD_MMC st') !! p = sd_files (SD_MMC st) !! p
         ∨ (sd_files (SD_MMC st') !! p = None
            ∧ ∃ item, item ∈ deleted
                      ∧ (p = filepath item ∨ p = manifest_path item));
  sc_uploaded : ∀ item, item ∈ deleted → item ∈ uploaded_items (SD_MMC st);
  sc_order : StronglySorted (λ a b, ¬ older b a) deleted;
  sc_left : ∀ x, x ∈ uploaded_items (SD_MMC st') → x ∈ uploaded_items (SD_MMC st);
  sc_oldest :
    ∀ item x, item ∈ deleted → x ∈ uploaded_items (SD_MMC st') → ¬ older x item
}.

(** [st'] is reached from [st] by passes of [loop()] that all end with the
    recording of [st] still going on. *)
Inductive keeps_recording (DEVICE_TOKEN : string) (st : State) : State → Prop :=
| keeps_recording_now :
    audio_recording (audio st) = true → keeps_recording DEVICE_TOKEN st st
| keeps_recording_pass st' w :
    keeps_recording DEVICE_TOKEN st st' →
    audio_recording (audio (loop DEVICE_TOKEN st' w)) = true →
    keeps_recording DEVICE_TOKEN st (loop DEVICE_TOKEN st' w).

(** The manifest [finish_audio_recording] writes for the recording of
    [st]. *)
Definition recording_manifest (st : State) : string :=
  manifest_payload (audio_seq (audio st)) (audio_filepath (audio st))
    (audio_start_epoch (audio st)) "PENDING" "audio" "audio/wav" 0 0.

(** A forced recording is going on. *)
Definition forced_recording (st : State) : bool :=
  audio_recording (audio st) && audio_force_active (audio st).

(** Every pass of [loop()] over the inputs [ws], run from [st], begins and
    ends with a recording going on. *)
Fixpoint recording_throughout (DEVICE_TOKEN : string) (st : State)
    (ws : list World) : bool :=
  match ws with
  | [] => audio_recording (audio st)
  | w :: ws =>
      audio_recording (audio st)
      && recording_throughout DEVICE_TOKEN (loop DEVICE_TOKEN st w) ws
  end.

(** The frame [audio_tick] hands on: it was read, and it is not empty. *)
Definition frame_read (st : State) (w : World) : bool :=
  audio_ok st && w_i2s_ok w && negb (w_bytes_read w / 2 =? 0).

(** The forced start [audio_tick] attempts on an idle [st]: for the photo
    clip when one is pending, for the heartbeat otherwise.  The pending flag
    is cleared in the state the attempt is made from. *)
Definition forced_start (st : State) (w : World) : bool * State :=
  if audio_photo_clip_pending (audio st) then
    start_audio_recording
      (upd_audio (a_photo_clip false (audio_photo_clip_epoch (audio st))) st)
      w (w_bytes_read w / 2) (audio_photo_clip_epoch (audio st))
      (kAudioPrerollSamples + ms_to_samples AUDIO_PHOTO_CLIP_POST_MS)
  else
    start_audio_recording
      (upd_audio (a_heartbeat false (last_audio_heartbeat (audio st))) st)
      w (w_bytes_read w / 2) (now_epoch st w)
      (kAudioPrerollSamples + ms_to_samples AUDIO_HEARTBEAT_DURATION_MS).

(** The pending flag a forced start serves. *)
Definition served_flag (photo : bool) (st : State) : bool :=
  if photo then audio_photo_clip_pending (audio st)
  else audio_heartbeat_pending (audio st).

(** A run of [audio_tick()], one call per input. *)
Definition audio_ticks (st : State) (ws : list World) : State :=
  foldl audio_tick st ws.

(** ** Notions used to state properties of the other functions *)

(** The number a little-endian byte sequence stands for. *)
Definition le_value (bytes : list Z) : Z :=
  foldr (λ b acc, b + 256 * acc) 0 bytes.

(** The bytes [offset .. offset + n - 1] of a header. *)
Definition field (offset n : nat) (header : list Z) : list Z :=
  take n (drop offset header).

Definition sum_squares (samples : list Z) : Z :=
  foldr (λ s acc, s * s + acc) 0 samples.

(** A 16-bit sample. *)
Definition int16 (s : Z) : Prop := - 2 ^ 15 <= s < 2 ^ 15.

(** The last [n] elements of [xs] (all of them when there are fewer). *)
Definition last_samples (n : nat) (xs : list Z) : list Z :=
  drop (length xs - n) xs.

(** The ring as [init_audio] leaves it: allocated and zeroed. *)
Definition fresh_ring (capacity : Z) : Preroll :=
  {| ring := Some (replicate (Z.to_nat capacity) 0); ring_index := 0;
     ring_filled := false |}.

(** What the ring holds once the samples [pushed] have gone through
    it: while it has not wrapped, they lie at its start; afterwards, read
    from the write index round, it holds the last [capacity] of them. *)
Definition ring_holds (capacity : Z) (p : Preroll) (pushed : list Z) : Prop :=
  ∃ buffer,
    ring p = Some buffer
    ∧ length buffer = Z.to_nat capacity
    ∧ 0 <= ring_index p < capacity
    ∧ if ring_filled p then
        (Z.to_nat capacity <= length pushed)%nat
        ∧ drop (Z.to_nat (ring_index p)) buffer
          ++ take (Z.to_nat (ring_index p)) buffer
          = last_samples (Z.to_nat capacity) pushed
      else
        ring_index p = Z.of_nat (length pushed)
        ∧ take (Z.to_nat (ring_index p)) buffer = pushed.

Definition pending_status (m : PendingItem * string) : option PendingItem :=
  if String.eqb m.2 "PENDING" then Some m.1 else None.

(** The items whose manifest has status PENDING, whatever their attempt
    count and backoff. *)
Definition backlog (c : SDCard) : list PendingItem :=
  omap pending_status (manifests c).

(** One mebibyte, the unit of the telemetry document. *)
Definition MiB : Z := 1024 * 1024.

(** [st'] differs from [st] at most in the card, the sequence counter and
    the audio variables. *)
Definition media_only (st st' : State) : Prop :=
  sd_ok st' = sd_ok st ∧ camera_ok st' = camera_ok st
  ∧ audio_ok st' = audio_ok st ∧ wifi_ok st' = wifi_ok st
  ∧ ntp_synced st' = ntp_synced st ∧ capture_paused st' = capture_paused st
  ∧ last_capture st' = last_capture st ∧ last_upload st' = last_upload st
  ∧ last_wifi_attempt st' = last_wifi_attempt st
  ∧ last_ntp_attempt st' = last_ntp_attempt st
  ∧ last_retention_check st' = last_retention_check st
  ∧ last_telemetry st' = last_telemetry st.

(** The ring variables of a state. *)
Definition same_ring (st st' : State) : Prop :=
  audio_preroll (audio st') = audio_preroll (audio st)
  ∧ preroll_index (audio st') = preroll_index (audio st)
  ∧ preroll_filled (audio st') = preroll_filled (audio st).

(** The number of samples at which the recording of [st] is ended. *)
Definition clip_limit (st : State) : Z :=
  if audio_force_active (audio st) then audio_force_stop_samples (audio st)
  else AUDIO_MAX_SEC * AUDIO_SAMPLE_RATE.

(** Between two ticks the write index lies within the ring, and a recording
    that is going on holds fewer samples than its limit. *)
Definition clip_inv (st : State) : Prop :=
  0 <= preroll_index (audio st) < kAudioPrerollSamples
  ∧ (audio_recording (audio st) = true →
     audio_samples_written (audio st) < clip_limit st
     ∧ clip_limit st <= AUDIO_MAX_SEC * AUDIO_SAMPLE_RATE
     ∧ (audio_force_active (audio st) = true →
        0 < audio_force_stop_samples (audio st))).

(** [i2s_read] fills at most the frame buffer. *)
Definition frame_fits (w : World) : Prop :=
  0 <= w_bytes_read w <= 2 * kAudioFrameSamples.

(** ** A card and a state to run the sketch on *)

(** An empty card of 1000 bytes on which 800 bytes are taken and every file
    takes 12 bytes more. *)
Definition example_card : SDCard :=
  {| sd_files := ∅; sd_dirs := {["/manifests"]}; sd_totalBytes := 1000;
     sd_usedBytes := λ files _, 800 + 12 * Z.of_nat (size files) |}.

(** Everything initialised, clock synchronised, audio idle. *)
Definition example_state (c : SDCard) : State :=
  {| sd_ok := true; camera_ok := true; ntp_synced := true; wifi_ok := true;
     capture_paused := false; last_capture := 0; last_upload := 0;
     last_wifi_attempt := 0; last_ntp_attempt := 0;
     last_retention_check := 0; last_telemetry := 0; audio_ok := true;
     audio := a_preroll 0 true
                {| audio_preroll := true; audio_recording := false;
                   audio_file := false; audio_filepath := "";
                   audio_start_epoch := 0; audio_seq := 0;
                   audio_samples_written := 0; vad_over_count := 0;
                   vad_under_count := 0; audio_force_active := false;
                   audio_force_stop_samples := 0;
                   audio_photo_clip_pending := false;
                   audio_photo_clip_epoch := 0;
                   audio_heartbeat_pending := false;
                   last_audio_heartbeat := 0;
                   preroll_index := 0; preroll_filled := false |};
     prefs_seq := 10; SD_MMC := c |}.

(** A photo and its manifest put on the card of [st]. *)
Definition with_photo (sq ce : Z) (status : string) (ua la : Z) (st : State) : State :=
  let path := "/unsynced/img_" +:+ String_of sq +:+ ".jpg" in
  (write_manifest_atomic (set_SD_MMC (SD_write (SD_MMC st) path "JFIF") st)
     sq path ce status "photo" "image/jpeg" ua la).2.

(** A quiet pass of [loop]: a full frame of silence, camera and storage
    working, no network answer. *)
Definition quiet_world (millis time : Z) : World :=
  {| w_millis := millis; w_time := time; w_date := "20260101";
     w_hms := "120000"; w_i2s_ok := true; w_bytes_read := 640;
     w_rms_over_start := false; w_rms_under_stop := true;
     w_audio_mkdir_ok := true; w_audio_open_ok := true;
     w_audio_write_ok := true; w_camera_fb := Some 2048;
     w_photo_open_ok := true; w_photo_written := 2048;
     w_wifi_connect := true; w_ntp_sync := true; w_uploads := [] |}.

(** The three answers of a server that accepts an upload. *)
Definition accepting_network : NetOutcome :=
  {| net_upload_url := Some ("s3.test", 443, "/bucket/k", "k");
     net_put_status := Some 200; net_ingest_code := 200 |}.

(** A card with four photos: seq 0 PENDING and never tried, seq 1 PENDING
    after two attempts (the last at 1000), seq 2 FAILED, seq 3 UPLOADED. *)
Definition backlog_state : State :=
  with_photo 3 100 "UPLOADED" 1 900
    (with_photo 2 120 "FAILED" 3 950
       (with_photo 1 50 "PENDING" 2 1000
          (with_photo 0 150 "PENDING" 0 0 (example_state example_card)))).

(** A card whose only pending photo has one attempt left. *)
Definition last_chance_state : State :=
  with_photo 2 120 "FAILED" 3 950
    (with_photo 1 50 "PENDING" 2 1000 (example_state example_card)).

(** Scenario 5 of the specification: three UPLOADED photos (epochs 100, 200,
    300) and one PENDING (epoch 150), 10 percent of the card free. *)
Definition full_card_state : State :=
  with_photo 4 150 "PENDING" 0 0
    (with_photo 3 300 "UPLOADED" 1 900
       (with_photo 2 200 "UPLOADED" 1 800
          (with_photo 1 100 "UPLOADED" 1 700 (example_state example_card)))).

(** Camera, card and microphone all come up at boot. *)
Definition boot_ok : Boot :=
  {| boot_camera_init := true; boot_sd_begin := true; boot_init_audio := true |}.

(** The state [setup()] leaves on the example card, the boot photo taken. *)
Definition booted_state : State := setup boot_ok 0 example_card (quiet_world 0 0).

(** The inputs of a pass in which the audio file cannot be opened. *)
Definition open_failure (w : World) : World :=
  {| w_millis := w_millis w; w_time := w_time w; w_date := w_date w;
     w_hms := w_hms w; w_i2s_ok := w_i2s_ok w; w_bytes_read := w_bytes_read w;
     w_rms_over_start := w_rms_over_start w;
     w_rms_under_stop := w_rms_under_stop w;
     w_audio_mkdir_ok := w_audio_mkdir_ok w; w_audio_open_ok := false;
     w_audio_write_ok := w_audio_write_ok w; w_camera_fb := w_camera_fb w;
     w_photo_open_ok := w_photo_open_ok w; w_photo_written := w_photo_written w;
     w_wifi_connect := w_wifi_connect w; w_ntp_sync := w_ntp_sync w;
     w_uploads := w_uploads w |}.

(** The example state with a heartbeat clip due. *)
Definition heartbeat_due_state : State :=
  upd_audio (a_heartbeat true 0) (example_state example_card).

(** The example state with a photo clip due for a photo of epoch 900. *)
Definition photo_clip_due_state : State :=
  upd_audio (a_photo_clip true 900) (example_state example_card).

(** * Properties *)

(** ** Strings *)

Lemma app_String c s t : String c s +:+ t = String c (s +:+ t).
Proof. reflexivity. Qed.

Lemma app_empty_l s : "" +:+ s = s.
Proof. reflexivity. Qed.

Lemma app_assoc_str a b c : (a +:+ b) +:+ c = a +:+ (b +:+ c).
Proof. induction a as [|x a IH]; [done|]. by rewrite !app_String, IH. Qed.

Lemma app_length_str a b :
  String.length (a +:+ b) = (String.length a + String.length b)%nat.
Proof. induction a as [|x a IH]; [done|]. rewrite app_String. simpl. by rewrite IH. Qed.

Lemma strip_prefix_app pre s : strip_prefix pre (pre +:+ s) = Some s.
Proof.
  induction pre as [|c pre IH]; [done|].
  rewrite app_String. simpl. by rewrite Ascii.eqb_refl.
Qed.

Lemma strip_prefix_Some pre s r : strip_prefix pre s = Some r → s = pre +:+ r.
Proof.
  revert s. induction pre as [|c pre IH]; intros s; simpl.
  - by intros [= ->].
  - destruct s as [|b s]; [done|].
    destruct (Ascii.eqb_spec c b) as [->|]; [|done].
    intros H%IH. by rewrite app_String, H.
Qed.

Lemma endsWith_app a suffix : endsWith (a +:+ suffix) suffix = true.
Proof.
  induction a as [|c a IH].
  - rewrite app_empty_l.
    destruct suffix as [|c s]; [done|].
    cbn [endsWith]. by rewrite String.eqb_refl.
  - rewrite app_String. cbn [endsWith].
    destruct (String.eqb _ _); [done|]. apply IH.
Qed.


(** ** Decimal printing *)


Lemma string_of_uint_digits u : all_digits (NilEmpty.string_of_uint u) = true.
Proof. induction u; simpl; try done; apply IHu. Qed.

Lemma string_of_uint_nonempty u :
  u ≠ Decimal.Nil → isEmpty (NilEmpty.string_of_uint u) = false.
Proof. by destruct u. Qed.

Lemma span_digits_app d c r :
  all_digits d = true → is_digit c = false →
  span_digits (d +:+ String c r) = (d, String c r).
Proof.
  intros Hd Hc. induction d as [|x d IH].
  - rewrite app_empty_l. simpl. by rewrite Hc.
  - rewrite app_String. simpl in *. unfold all_digits in Hd. simpl in Hd.
    apply andb_true_iff in Hd as [-> Hd]. by rewrite (IH Hd).
Qed.

Lemma parse_digits_print u c r :
  u ≠ Decimal.Nil → is_digit c = false →
  parse_digits (NilEmpty.string_of_uint u +:+ String c r) = Some (u, String c r).
Proof.
  intros Hu Hc. unfold parse_digits.
  rewrite span_digits_app by auto using string_of_uint_digits.
  by rewrite string_of_uint_nonempty, NilEmpty.usu.
Qed.

Lemma digits_no_minus u s c :
  u ≠ Decimal.Nil → NilEmpty.string_of_uint u = String c s → Ascii.eqb c "-" = false.
Proof. destruct u; simpl; try done; by intros _ [= <- _]. Qed.

Lemma parse_int_print z c r :
  is_digit c = false →
  parse_int (String_of z +:+ String c r) = Some (z, String c r).
Proof.
  intros Hc. unfold String_of.
  assert (Hz : Z.of_int (Z.to_int z) = z) by apply DecimalZ.of_to.
  destruct (Z.to_int z) as [u|u] eqn:Hu; simpl NilEmpty.string_of_int.
  - assert (Hnil : u ≠ Decimal.Nil).
    { destruct z; simpl in Hu; try discriminate; injection Hu as <-;
        [done | apply DecimalPos.Unsigned.to_uint_nonnil]. }
    destruct (NilEmpty.string_of_uint u) as [|x s] eqn:Hs.
    { by apply string_of_uint_nonempty in Hnil; rewrite Hs in Hnil. }
    rewrite app_String. unfold parse_int.
    rewrite (digits_no_minus u s x Hnil Hs).
    rewrite <- app_String, <- Hs, parse_digits_print by done. by rewrite Hz.
  - assert (Hnil : u ≠ Decimal.Nil).
    { destruct z; simpl in Hu; try discriminate. injection Hu as <-.
      apply DecimalPos.Unsigned.to_uint_nonnil. }
    rewrite app_String. unfold parse_int. simpl Ascii.eqb.
    rewrite parse_digits_print by done. by rewrite Hz.
Qed.

Lemma String_of_first z :
  ∃ c s, String_of z = String c s ∧ is_ws c = false ∧ Ascii.eqb c dquote = false.
Proof.
  unfold String_of. destruct (Z.to_int z) as [u|u] eqn:Hu; simpl.
  - assert (Hnil : u ≠ Decimal.Nil).
    { destruct z; simpl in Hu; try discriminate; injection Hu as <-;
        [done | apply DecimalPos.Unsigned.to_uint_nonnil]. }
    destruct u; try done; eauto.
  - eauto.
Qed.

Lemma String_of_inj a b : String_of a = String_of b → a = b.
Proof.
  unfold String_of. intros H.
  apply (f_equal NilEmpty.int_of_string) in H.
  rewrite !NilEmpty.isi in H. injection H as H.
  by apply DecimalZ.to_int_inj.
Qed.



(** ** Parsing what [write_manifest_atomic] prints *)


Lemma parse_quoted_plain s rest :
  plain s = true →
  parse_quoted (s +:+ String dquote rest) = Some (s, rest).
Proof.
  unfold plain. induction s as [|c s IH]; intros H.
  - by rewrite app_empty_l.
  - rewrite app_String. simpl in *.
    apply andb_true_iff in H as [H1 H2].
    apply negb_true_iff, orb_false_iff in H1 as [H1 H1'].
    apply negb_true_iff, orb_false_iff in H2 as [H2 H2'].
    rewrite H1, H2, IH; [done|]. by rewrite H1', H2'.
Qed.

Lemma plain_literal_filepath : plain "filepath" = true.
Proof. reflexivity. Qed.

(** One string member followed by a comma. *)
Lemma parse_members_str fuel key v rest :
  plain key = true → plain v = true →
  parse_members (S fuel)
    (DQ +:+ key +:+ DQ +:+ ":" +:+ DQ +:+ v +:+ DQ +:+ "," +:+ rest)
  = match parse_members fuel rest with
    | Some d => Some ((key, JStr v) :: d)
    | None => None
    end.
Proof.
  intros Hk Hv. unfold DQ. rewrite ?app_String, ?app_empty_l.
  cbn [parse_members skip_ws]. change (is_ws dquote) with false. cbn iota.
  rewrite Ascii.eqb_refl, parse_quoted_plain by done.
  rewrite ?app_String, ?app_empty_l. cbn [skip_ws].
  change (is_ws ":") with false. cbn iota.
  change (Ascii.eqb ":" ":") with true. cbn iota.
  cbn [skip_ws]. change (is_ws dquote) with false. cbn iota.
  unfold parse_value. rewrite Ascii.eqb_refl, parse_quoted_plain by done.
  rewrite ?app_String, ?app_empty_l. cbn [skip_ws].
  change (is_ws ",") with false. cbn iota.
  change (Ascii.eqb "," ",") with true. by cbn iota.
Qed.

(** One integer member followed by a comma. *)
Lemma parse_members_int fuel key z rest :
  plain key = true →
  parse_members (S fuel)
    (DQ +:+ key +:+ DQ +:+ ":" +:+ String_of z +:+ "," +:+ rest)
  = match parse_members fuel rest with
    | Some d => Some ((key, JInt z) :: d)
    | None => None
    end.
Proof.
  intros Hk. unfold DQ. rewrite ?app_String, ?app_empty_l.
  cbn [parse_members skip_ws]. change (is_ws dquote) with false. cbn iota.
  rewrite Ascii.eqb_refl, parse_quoted_plain by done.
  rewrite ?app_String, ?app_empty_l. cbn [skip_ws].
  change (is_ws ":") with false. cbn iota.
  change (Ascii.eqb ":" ":") with true. cbn iota.
  destruct (String_of_first z) as (c & s & Hcs & Hws & Hq).
  assert (Hskip : skip_ws (String_of z +:+ String "," rest)
                  = String_of z +:+ String "," rest).
  { rewrite Hcs, app_String. simpl. by rewrite Hws. }
  rewrite Hskip. unfold parse_value.
  rewrite Hcs, app_String, Hq, <- app_String, <- Hcs.
  rewrite parse_int_print by done. cbn [skip_ws].
  change (is_ws ",") with false. cbn iota.
  change (Ascii.eqb "," ",") with true. by cbn iota.
Qed.

(** The last member, an integer followed by the closing brace. *)
Lemma parse_members_int_last fuel key z rest :
  plain key = true →
  parse_members (S fuel)
    (DQ +:+ key +:+ DQ +:+ ":" +:+ String_of z +:+ "}" +:+ rest)
  = Some [(key, JInt z)].
Proof.
  intros Hk. unfold DQ. rewrite ?app_String, ?app_empty_l.
  cbn [parse_members skip_ws]. change (is_ws dquote) with false. cbn iota.
  rewrite Ascii.eqb_refl, parse_quoted_plain by done.
  rewrite ?app_String, ?app_empty_l. cbn [skip_ws].
  change (is_ws ":") with false. cbn iota.
  change (Ascii.eqb ":" ":") with true. cbn iota.
  destruct (String_of_first z) as (c & s & Hcs & Hws & Hq).
  assert (Hskip : skip_ws (String_of z +:+ String "}" rest)
                  = String_of z +:+ String "}" rest).
  { rewrite Hcs, app_String. simpl. by rewrite Hws. }
  rewrite Hskip. unfold parse_value.
  rewrite Hcs, app_String, Hq, <- app_String, <- Hcs.
  rewrite parse_int_print by done. cbn [skip_ws].
  change (is_ws "}") with false. cbn iota.
  change (Ascii.eqb "}" ",") with false. cbn iota.
  change (Ascii.eqb "}" "}") with true. by cbn iota.
Qed.

Lemma parse_members_fuel f f' s d :
  parse_members f s = Some d → (f <= f')%nat → parse_members f' s = Some d.
Proof.
  revert f' s d. induction f as [|f IH]; intros f' s d; [done|].
  intros H Hle. destruct f' as [|f']; [lia|].
  simpl in *.
  repeat match goal with
         | H : context [match ?x with _ => _ end] |- _ =>
             match x with
             | parse_members _ _ => fail 1
             | _ => destruct x eqn:?; try done
             end
         end.
  destruct (parse_members f _) as [d'|] eqn:Hd; [|done].
  by rewrite (IH f' _ d' Hd) by lia.
Qed.


Lemma deserializeJson_manifest_payload sq fp ce stt ity cty ua la :
  plain fp = true → plain stt = true → plain ity = true → plain cty = true →
  deserializeJson (manifest_payload sq fp ce stt ity cty ua la)
  = Some (manifest_doc sq fp ce stt ity cty ua la).
Proof.
  intros Hfp Hst Hity Hcty. unfold manifest_payload. cbv zeta.
  rewrite !app_assoc_str.
  set (body := DQ +:+ _).
  unfold deserializeJson. rewrite app_String, app_empty_l.
  cbn [skip_ws]. change (is_ws "{") with false. cbn iota.
  change (Ascii.eqb "{" "{") with true. cbn iota.
  assert (Hskip : ∃ r, skip_ws body = String dquote r).
  { subst body. unfold DQ. rewrite app_String. simpl. eauto. }
  destruct Hskip as [r ->]. change (Ascii.eqb dquote "}") with false. cbn iota.
  apply (parse_members_fuel 8); last first.
  { subst body. rewrite !app_length_str. simpl. lia. }
  subst body.
  rewrite parse_members_str by done.
  rewrite parse_members_int by done.
  rewrite parse_members_int by done.
  rewrite parse_members_str by done.
  rewrite parse_members_str by done.
  rewrite parse_members_str by done.
  rewrite parse_members_int by done.
  assert (Hlast : ∀ z, String_of z +:+ "}" = String_of z +:+ "}" +:+ "").
  { intros z. done. }
  rewrite Hlast, parse_members_int_last by done.
  done.
Qed.

(** ** write_manifest_atomic on the card *)

Lemma tmp_path_ne p : p +:+ ".tmp" ≠ p.
Proof.
  intros H. apply (f_equal String.length) in H.
  rewrite app_length_str in H. simpl in H. lia.
Qed.

Lemma manifest_final_path_not_root sq : manifest_final_path sq ≠ "/manifests".
Proof. unfold manifest_final_path. by rewrite !app_String. Qed.

Lemma manifest_payload_nonempty sq fp ce stt ity cty ua la :
  (Z.of_nat (String.length (manifest_payload sq fp ce stt ity cty ua la)) =? 0) = false.
Proof.
  unfold manifest_payload. cbv zeta. rewrite !app_assoc_str, app_String.
  cbn [String.length]. apply Z.eqb_neq. lia.
Qed.


Lemma with_manifests_dir_files c : sd_files (with_manifests_dir c) = sd_files c.
Proof. unfold with_manifests_dir. by destruct (negb _). Qed.

Lemma with_manifests_dir_is_dir c p :
  p ≠ "/manifests" → SD_is_dir (with_manifests_dir c) p = SD_is_dir c p.
Proof.
  intros Hp. unfold with_manifests_dir, SD_is_dir.
  destruct (negb _); [|done]. simpl.
  apply bool_decide_ext. rewrite elem_of_union, elem_of_singleton. tauto.
Qed.

(** The outcome of [write_manifest_atomic] on a mounted card: it fails only
    when a directory sits at the final path; otherwise the payload is at the
    final path, nothing is left at the temporary path and every other file
    is as it was. *)
Lemma write_manifest_atomic_mounted st sq fp ce stt ity cty ua la :
  sd_ok st = true →
  let final := manifest_final_path sq in
  let payload := manifest_payload sq fp ce stt ity cty ua la in
  let c := with_manifests_dir (SD_MMC st) in
  write_manifest_atomic st sq fp ce stt ity cty ua la
  = if SD_is_dir (SD_MMC st) final
    then (false, set_SD_MMC (with_files c (delete (final +:+ ".tmp")
                                             (delete final (sd_files (SD_MMC st))))) st)
    else (true, set_SD_MMC (with_files c (<[final := payload]>
                                            (delete (final +:+ ".tmp")
                                               (sd_files (SD_MMC st))))) st).
Proof.
  intros Hsd final payload c. unfold write_manifest_atomic.
  rewrite Hsd. cbn [negb]. cbv zeta.
  rewrite manifest_payload_nonempty.
  fold final. fold payload. fold (with_manifests_dir (SD_MMC st)). fold c.
  assert (Hne : final +:+ ".tmp" ≠ final) by apply tmp_path_ne.
  assert (Hdir : SD_is_dir c final = SD_is_dir (SD_MMC st) final).
  { apply with_manifests_dir_is_dir, manifest_final_path_not_root. }
  assert (Hf : sd_files c = sd_files (SD_MMC st)) by apply with_manifests_dir_files.
  set (c2 := SD_write c (final +:+ ".tmp") payload).
  assert (Hex : SD_exists c2 final
                = SD_is_file (SD_MMC st) final || SD_is_dir (SD_MMC st) final).
  { unfold SD_exists. f_equal; [|by rewrite <- Hdir].
    unfold SD_is_file, c2. simpl. rewrite lookup_insert_ne, Hf; done. }
  set (c3 := if SD_exists c2 final then SD_remove c2 final else c2).
  assert (Hc3 : sd_files c3
                = <[final +:+ ".tmp" := payload]> (delete final (sd_files (SD_MMC st)))).
  { subst c3. destruct (SD_exists c2 final) eqn:He; simpl.
    - rewrite Hf. by rewrite delete_insert_ne.
    - rewrite Hf. f_equal. symmetry. apply delete_id.
      assert (He' : SD_is_file (SD_MMC st) final = false).
      { symmetry in Hex. by apply orb_false_iff in Hex as [? _]. }
      unfold SD_is_file in He'. apply bool_decide_eq_false in He'.
      by apply eq_None_not_Some. }
  assert (Hc3d : SD_is_dir c3 final = SD_is_dir (SD_MMC st) final).
  { subst c3. by destruct (SD_exists c2 final). }
  assert (Hc3o : with_files c3 = with_files c).
  { subst c3. by destruct (SD_exists c2 final). }
  unfold SD_rename. rewrite Hc3, lookup_insert_eq.
  unfold SD_exists at 1. rewrite Hc3d.
  replace (SD_is_file c3 final) with false; last first.
  { unfold SD_is_file. rewrite Hc3, lookup_insert_ne, lookup_delete_eq by done.
    symmetry. apply bool_decide_eq_false. by intros [? ?]. }
  cbn [orb]. destruct (SD_is_dir (SD_MMC st) final).
  - unfold SD_remove. rewrite Hc3, Hc3o. do 3 f_equal.
    by rewrite delete_insert_eq.
  - rewrite Hc3o. do 3 f_equal.
    rewrite delete_insert_eq. apply map_eq. intros p.
    destruct (decide (p = final)) as [->|Hp].
    { by rewrite !lookup_insert_eq. }
    rewrite !lookup_insert_ne by done.
    destruct (decide (p = final +:+ ".tmp")) as [->|Hp'].
    { by rewrite !lookup_delete_eq. }
    by rewrite !lookup_delete_ne.
Qed.

Lemma write_manifest_atomic_unmounted st sq fp ce stt ity cty ua la :
  sd_ok st = false →
  write_manifest_atomic st sq fp ce stt ity cty ua la = (false, st).
Proof. intros H. unfold write_manifest_atomic. by rewrite H. Qed.

(** ** load_manifest of a printed manifest *)

Ltac pow2 :=
  unfold INT_MIN, INT_MAX in *;
  change (2 ^ 31) with 2147483648 in *;
  change (2 ^ 32) with 4294967296 in *.


Lemma or_int0_in_range z : int_range z → or_int0 (Some (JInt z)) = z.
Proof.
  unfold int_range, or_int0. intros [H1 H2].
  destruct (Z.leb_spec INT_MIN z), (Z.leb_spec z INT_MAX); simpl; lia.
Qed.

Lemma or_int0_range v : int_range (or_int0 v).
Proof.
  unfold int_range, or_int0, INT_MIN, INT_MAX.
  destruct v as [[s|z]|]; try lia.
  destruct (Z.leb_spec (- 2 ^ 31) z), (Z.leb_spec z (2 ^ 31 - 1)); simpl; lia.
Qed.

Lemma to_uint32_small z : 0 <= z < 2 ^ 32 → to_uint32 z = z.
Proof. intros H. unfold to_uint32, wrap. by apply Z.mod_small. Qed.

Lemma to_uint32_range z : 0 <= to_uint32 z < 2 ^ 32.
Proof. unfold to_uint32, wrap. by apply Z.mod_pos_bound. Qed.


Lemma load_manifest_payload c path sq fp ce stt ity cty ua la :
  sd_files c !! path = Some (manifest_payload sq fp ce stt ity cty ua la) →
  plain fp = true → plain stt = true → plain ity = true → plain cty = true →
  load_manifest c path = Some (loaded_item path sq fp ce ity cty ua la, stt).
Proof.
  intros Hfile Hfp Hst Hity Hcty. unfold load_manifest.
  rewrite Hfile, deserializeJson_manifest_payload by done.
  reflexivity.
Qed.

Lemma load_manifest_other c c' path :
  sd_files c' !! path = sd_files c !! path →
  load_manifest c' path = load_manifest c path.
Proof. intros H. unfold load_manifest. by rewrite H. Qed.




(** ** The order of the scans *)

Lemma older_irrefl a : ¬ older a a.
Proof. unfold older. lia. Qed.

Lemma older_trans a b c : older a b → older b c → older a c.
Proof. unfold older. lia. Qed.


Lemma is_better_older sc x :
  scan_found sc = true →
  scan_best_epoch sc = captured_epoch (scan_out sc) →
  scan_best_seq sc = seq (scan_out sc) →
  0 <= captured_epoch x → 0 <= captured_epoch (scan_out sc) →
  is_better sc x = true ↔ older x (scan_out sc).
Proof.
  intros Hf He Hs Hx Hb. unfold is_better, older. rewrite Hf, He, Hs. cbn [negb].
  destruct (Z.gtb_spec (captured_epoch x) 0),
    (Z.gtb_spec (captured_epoch (scan_out sc)) 0),
    (Z.eqb_spec (captured_epoch (scan_out sc)) 0),
    (Z.eqb_spec (captured_epoch x) 0),
    (Z.ltb_spec (captured_epoch x) (captured_epoch (scan_out sc))),
    (Z.ltb_spec (seq x) (seq (scan_out sc)));
    cbn [andb]; split; intros; try done; try lia.
Qed.

Lemma scan_inv_step seen sc x :
  scan_inv seen sc →
  (∀ y, y ∈ seen → 0 <= captured_epoch y) → 0 <= captured_epoch x →
  scan_inv (seen ++ [x]) (take_if_better sc x).
Proof.
  unfold scan_inv, take_if_better. intros Hinv Hseen Hx.
  destruct (scan_found sc) eqn:Hf.
  - destruct Hinv as (Hin & He & Hs & Hmin).
    pose proof (is_better_older sc x Hf He Hs Hx (Hseen _ Hin)) as Hb.
    destruct (is_better sc x) eqn:Hbetter; cbn.
    + split_and!; [apply elem_of_app; right; apply list_elem_of_singleton; done|done|done|].
      intros y [Hy| ->%list_elem_of_singleton]%elem_of_app.
      * intros Hyx. apply (Hmin y Hy). eapply older_trans; [done|]. by apply Hb.
      * apply older_irrefl.
    + rewrite Hf. split_and!; [apply elem_of_app; by left|done|done|].
      intros y [Hy| ->%list_elem_of_singleton]%elem_of_app; [by apply Hmin|].
      intros Hyx. apply Hb in Hyx. congruence.
  - destruct Hinv as [-> _]. unfold is_better. rewrite Hf. cbn.
    split_and!; [by apply list_elem_of_singleton|done|done|].
    intros y ->%list_elem_of_singleton. apply older_irrefl.
Qed.

Lemma scan_inv_foldl items seen sc :
  scan_inv seen sc →
  (∀ y, y ∈ seen ++ items → 0 <= captured_epoch y) →
  scan_inv (seen ++ items) (foldl take_if_better sc items).
Proof.
  revert seen sc. induction items as [|x items IH]; intros seen sc Hinv Hpos.
  - by rewrite app_nil_r.
  - cbn [foldl]. replace (seen ++ x :: items) with ((seen ++ [x]) ++ items)
      by (by rewrite <- app_assoc).
    apply IH.
    + apply scan_inv_step; [done| |].
      * intros y Hy. apply Hpos, elem_of_app. by left.
      * apply Hpos, elem_of_app. right. apply list_elem_of_here.
    + intros y Hy. apply Hpos. by rewrite <- app_assoc in Hy.
Qed.

(** The result of a scan over [items]: nothing is found exactly when there
    is no item; what is found is an item that no item is older than. *)
Lemma scan_result items :
  (∀ y, y ∈ items → 0 <= captured_epoch y) →
  let sc := foldl take_if_better scan_start items in
  if scan_found sc then
    scan_out sc ∈ items ∧ ∀ x, x ∈ items → ¬ older x (scan_out sc)
  else items = [] ∧ scan_out sc = empty_item.
Proof.
  intros Hpos sc.
  pose proof (scan_inv_foldl items [] scan_start) as H.
  rewrite app_nil_l in H. specialize (H (conj eq_refl eq_refl) Hpos).
  unfold scan_inv in H. fold sc in H. destruct (scan_found sc); [|done].
  by destruct H as (? & _ & _ & ?).
Qed.

(** ** The scan of find_oldest_uploaded *)

Lemma uploaded_scan c names sc :
  foldl (uploaded_step c) sc names
  = foldl take_if_better sc (omap uploaded_of (omap (manifest_at c) names)).
Proof.
  revert sc. induction names as [|n names IH]; intros sc; [done|].
  cbn [foldl]. rewrite IH. clear IH.
  assert (Hstep : uploaded_step c sc n
                  = match manifest_at c n with
                    | Some m => match uploaded_of m with
                                | Some item => take_if_better sc item
                                | None => sc
                                end
                    | None => sc
                    end).
  { unfold uploaded_step, manifest_at, uploaded_of.
    destruct (endsWith n ".json"); cbn [negb]; [|done].
    destruct (load_manifest c _) as [[item status]|]; [|done].
    cbn [fst snd]. by destruct (String.eqb status "UPLOADED"). }
  rewrite Hstep. cbn [omap list_omap].
  destruct (manifest_at c n) as [m|]; [|done].
  cbn [omap list_omap]. by destruct (uploaded_of m).
Qed.

Lemma find_oldest_uploaded_scan st :
  sd_ok st = true → SD_is_dir (SD_MMC st) "/manifests" = true →
  find_oldest_uploaded st
  = let sc := foldl take_if_better scan_start (uploaded_items (SD_MMC st)) in
    (scan_found sc, scan_out sc).
Proof.
  intros Hsd Hdir. unfold find_oldest_uploaded. rewrite Hsd, Hdir. cbn [negb].
  by rewrite uploaded_scan.
Qed.

Lemma elem_of_manifests c m :
  m ∈ manifests c ↔
  ∃ name, name ∈ SD_list c "/manifests" ∧ manifest_at c name = Some m.
Proof. unfold manifests. by rewrite list_elem_of_omap. Qed.

Lemma elem_of_uploaded_items c item :
  item ∈ uploaded_items c ↔ (item, "UPLOADED") ∈ manifests c.
Proof.
  unfold uploaded_items. rewrite list_elem_of_omap. split.
  - intros ([i s] & Hin & Hup). unfold uploaded_of in Hup. cbn in Hup.
    destruct (String.eqb_spec s "UPLOADED") as [->|]; [|done].
    by injection Hup as ->.
  - intros Hin. exists (item, "UPLOADED"). by split.
Qed.

Lemma uploaded_items_stamped c item :
  stamped c → item ∈ uploaded_items c → 0 <= captured_epoch item.
Proof.
  intros Hst (name & _ & Hm)%elem_of_uploaded_items%elem_of_manifests.
  by eapply Hst.
Qed.

(** [find_oldest_uploaded] on a mounted card with its manifests folder. *)
Lemma find_oldest_uploaded_spec st :
  sd_ok st = true → SD_is_dir (SD_MMC st) "/manifests" = true →
  stamped (SD_MMC st) →
  match find_oldest_uploaded st with
  | (true, out) =>
      out ∈ uploaded_items (SD_MMC st)
      ∧ ∀ x, x ∈ uploaded_items (SD_MMC st) → ¬ older x out
  | (false, out) => uploaded_items (SD_MMC st) = [] ∧ out = empty_item
  end.
Proof.
  intros Hsd Hdir Hst. rewrite find_oldest_uploaded_scan by done. cbv zeta.
  apply scan_result. intros y Hy. by eapply uploaded_items_stamped.
Qed.

(** ** Manifest files and their names *)

Lemma endsWith_tmp n : endsWith (n +:+ ".tmp") ".json" = false.
Proof.
  induction n as [|c n IH].
  - reflexivity.
  - rewrite app_String. cbn [endsWith]. rewrite IH.
    destruct (String.eqb_spec (String c (n +:+ ".tmp")) ".json") as [H|]; [|done].
    exfalso. injection H as -> H.
    destruct n as [|c1 [|c2 n]]; try done.
    apply (f_equal String.length) in H. rewrite !app_String in H.
    cbn [String.length] in H. rewrite app_length_str in H. simpl in H. lia.
Qed.

Lemma manifest_final_path_name sq :
  manifest_final_path sq = "/manifests/" +:+ (String_of sq +:+ ".json").
Proof. reflexivity. Qed.

Lemma manifests_path_inj a b : "/manifests/" +:+ a = "/manifests/" +:+ b → a = b.
Proof. apply (inj _). Qed.

(** A manifest read under a name other than the one being written is not
    affected by the write. *)
Lemma manifest_at_other_name c c' sq n :
  (∀ p, p ≠ manifest_final_path sq → p ≠ manifest_final_path sq +:+ ".tmp" →
        sd_files c' !! p = sd_files c !! p) →
  n ≠ String_of sq +:+ ".json" →
  manifest_at c' n = manifest_at c n.
Proof.
  intros Hother Hn. unfold manifest_at.
  destruct (endsWith n ".json") eqn:He; [|done].
  apply load_manifest_other, Hother.
  - rewrite manifest_final_path_name. by intros ?%manifests_path_inj.
  - rewrite manifest_final_path_name, app_assoc_str.
    intros ->%manifests_path_inj. by rewrite endsWith_tmp in He.
Qed.

(** What a write leaves of the card, whether it succeeds or not. *)
Lemma write_manifest_atomic_frame st sq fp ce stt ity cty ua la :
  let st' := (write_manifest_atomic st sq fp ce stt ity cty ua la).2 in
  st' = set_SD_MMC (SD_MMC st') st
  ∧ (∀ p, p ≠ manifest_final_path sq → p ≠ manifest_final_path sq +:+ ".tmp" →
          sd_files (SD_MMC st') !! p = sd_files (SD_MMC st) !! p)
  ∧ (∀ p, p ≠ "/manifests" → SD_is_dir (SD_MMC st') p = SD_is_dir (SD_MMC st) p)
  ∧ (SD_is_dir (SD_MMC st) "/manifests" = true →
     SD_is_dir (SD_MMC st') "/manifests" = true)
  ∧ sd_totalBytes (SD_MMC st') = sd_totalBytes (SD_MMC st)
  ∧ sd_usedBytes (SD_MMC st') = sd_usedBytes (SD_MMC st).
Proof.
  destruct (sd_ok st) eqn:Hsd.
  - rewrite write_manifest_atomic_mounted by done.
    assert (Hd : ∀ files p, p ≠ "/manifests" →
              SD_is_dir (with_files (with_manifests_dir (SD_MMC st)) files) p
              = SD_is_dir (SD_MMC st) p).
    { intros files p Hp.
      transitivity (SD_is_dir (with_manifests_dir (SD_MMC st)) p); [done|].
      by apply with_manifests_dir_is_dir. }
    assert (Hd' : ∀ files, SD_is_dir (SD_MMC st) "/manifests" = true →
              SD_is_dir (with_files (with_manifests_dir (SD_MMC st)) files) "/manifests"
              = true).
    { intros files H. unfold with_manifests_dir, SD_exists. rewrite H, orb_true_r. done. }
    assert (Ht : ∀ files,
              sd_totalBytes (with_files (with_manifests_dir (SD_MMC st)) files)
              = sd_totalBytes (SD_MMC st)
              ∧ sd_usedBytes (with_files (with_manifests_dir (SD_MMC st)) files)
                = sd_usedBytes (SD_MMC st)).
    { intros files. unfold with_manifests_dir. by destruct (negb _). }
    destruct (SD_is_dir (SD_MMC st) (manifest_final_path sq)); cbn [snd];
      (split_and!; [by destruct st| |by apply Hd|by apply Hd'|by apply Ht..]);
      intros p Hp Hp'; cbn.
    + by rewrite !lookup_delete_ne.
    + by rewrite lookup_insert_ne, lookup_delete_ne.
  - rewrite write_manifest_atomic_unmounted by done. cbn [snd].
    split_and!; try done. by destruct st.
Qed.

Lemma load_manifest_path c p item status :
  load_manifest c p = Some (item, status) → manifest_path item = p.
Proof.
  unfold load_manifest. destruct (sd_files c !! p); [|done].
  destruct (deserializeJson _); [|done]. by intros [= <- _].
Qed.

Lemma load_manifest_types_set c p item status :
  load_manifest c p = Some (item, status) →
  isEmpty (item_type item) = false ∧ isEmpty (content_type item) = false.
Proof.
  unfold load_manifest. destruct (sd_files c !! p); [|done].
  destruct (deserializeJson _) as [doc|]; [|done]. intros [= <- _].
  cbn [item_type content_type]. split.
  - destruct (isEmpty (or_str (doc_get doc "item_type"))) eqn:H; [|done].
    by destruct (endsWith _ _).
  - destruct (isEmpty (or_str (doc_get doc "content_type"))) eqn:H; [|done].
    by destruct (String.eqb _ "audio").
Qed.

Lemma load_manifest_ranges c p item status :
  load_manifest c p = Some (item, status) →
  0 <= seq item ∧ int_range (captured_epoch item)
  ∧ int_range (upload_attempts item) ∧ int_range (last_attempt_epoch item).
Proof.
  unfold load_manifest. destruct (sd_files c !! p); [|done].
  destruct (deserializeJson _) as [doc|]; [|done]. intros [= <- _]. cbn.
  split_and!; try apply or_int0_range. apply to_uint32_range.
Qed.

Lemma manifest_at_Some c n item status :
  manifest_at c n = Some (item, status) →
  endsWith n ".json" = true
  ∧ load_manifest c ("/manifests/" +:+ n) = Some (item, status).
Proof. unfold manifest_at. by destruct (endsWith n ".json"). Qed.


Lemma or_int0_to_uint32_nonneg z : 0 <= or_int0 (Some (JInt (to_uint32 z))).
Proof.
  unfold or_int0. pose proof (to_uint32_range z).
  destruct (_ && _); lia.
Qed.

(** Rewriting a manifest of a well-formed card, as the upload engine does:
    same item, new status, attempt count and attempt time. *)
Lemma rewrite_manifest st n item status status' ua la :
  sd_ok st = true → wf_card (SD_MMC st) →
  manifest_at (SD_MMC st) n = Some (item, status) →
  plain status' = true → 0 <= ua <= INT_MAX →
  let st' := (write_manifest_atomic st (seq item) (filepath item)
                (captured_epoch item) status' (item_type item)
                (content_type item) ua la).2 in
  manifest_at (SD_MMC st') n = Some (with_attempt item ua la, status')
  ∧ (∀ n', n' ≠ n → manifest_at (SD_MMC st') n' = manifest_at (SD_MMC st) n')
  ∧ wf_card (SD_MMC st').
Proof.
  intros Hsd Hwf Hm Hst' Hua st'.
  pose proof (wf_manifests _ Hwf _ _ _ Hm) as [Hn Hfp Hity Hcty Hsq Hce Hatt Hla].
  destruct (manifest_at_Some _ _ _ _ Hm) as [Hjson Hload].
  pose proof (load_manifest_path _ _ _ _ Hload) as Hpath.
  pose proof (load_manifest_types_set _ _ _ _ Hload) as [Hi Hc].
  pose proof (load_manifest_ranges _ _ _ _ Hload) as (Hsq0 & Hce' & _ & _).
  pose proof (write_manifest_atomic_frame st (seq item) (filepath item)
                (captured_epoch item) status' (item_type item)
                (content_type item) ua la) as (Hframe & Hother & Hdirs & _).
  fold st' in Hframe, Hother, Hdirs.
  assert (Hfinal : manifest_final_path (seq item) = "/manifests/" +:+ n).
  { by rewrite manifest_final_path_name, <- Hn. }
  assert (Hnew : manifest_at (SD_MMC st') n = Some (with_attempt item ua la, status')).
  { unfold manifest_at. rewrite Hjson.
    assert (Hfile : sd_files (SD_MMC st') !! ("/manifests/" +:+ n)
                    = Some (manifest_payload (seq item) (filepath item)
                              (captured_epoch item) status' (item_type item)
                              (content_type item) ua la)).
    { subst st'. rewrite write_manifest_atomic_mounted by done.
      rewrite (wf_no_dir _ Hwf). cbn [snd SD_MMC set_SD_MMC sd_files with_files].
      rewrite Hfinal. apply lookup_insert_eq. }
    rewrite (load_manifest_payload _ _ _ _ _ _ _ _ _ _ Hfile) by done.
    f_equal. f_equal. unfold loaded_item, with_attempt. rewrite Hi, Hc, Hpath.
    unfold int_range in *.
    rewrite (to_uint32_small (captured_epoch item)) by (pow2; lia).
    rewrite !or_int0_in_range by (unfold int_range; pow2; lia).
    by rewrite to_uint32_small by (pow2; lia). }
  assert (Hrest : ∀ n', n' ≠ n →
            manifest_at (SD_MMC st') n' = manifest_at (SD_MMC st) n').
  { intros n' Hn'. apply (manifest_at_other_name _ _ (seq item)); [done|].
    by rewrite <- Hn. }
  split_and!; [done|done|]. split.
  - intros n' item' status'' Hm'.
    destruct (decide (n' = n)) as [->|Hne].
    + rewrite Hnew in Hm'. injection Hm' as <- <-.
      split; unfold with_attempt;
        cbn [seq filepath item_type content_type captured_epoch
             upload_attempts last_attempt_epoch];
        try done; [lia|apply or_int0_to_uint32_nonneg].
    + rewrite Hrest in Hm' by done. by eapply wf_manifests.
  - intros sq. rewrite Hdirs by apply manifest_final_path_not_root.
    apply Hwf.
Qed.

(** ** The directory listing *)

Lemma NoDup_omap_inj {A B} (f : A → option B) (l : list A) :
  NoDup l →
  (∀ x y z, x ∈ l → y ∈ l → f x = Some z → f y = Some z → x = y) →
  NoDup (omap f l).
Proof.
  induction 1 as [|x l Hx Hl IH]; intros Hinj; [constructor|].
  cbn [omap list_omap]. destruct (f x) as [z|] eqn:Hfx.
  - constructor.
    + intros (y & Hy & Hfy)%list_elem_of_omap.
      assert (x = y) as <-; [|done].
      eapply Hinj; [left|by right|done|done].
    + apply IH. intros a b c Ha Hb. apply Hinj; by right.
  - apply IH. intros a b c Ha Hb. apply Hinj; by right.
Qed.

Lemma SD_list_NoDup c dir : NoDup (SD_list c dir).
Proof.
  unfold SD_list. apply NoDup_omap_inj; [apply NoDup_map_to_list|].
  intros [p1 c1] [p2 c2] name H1 H2 Hf1 Hf2. cbn [fst] in *.
  destruct (strip_prefix _ p1) as [n1|] eqn:Hp1; [|done].
  destruct (strip_prefix _ p2) as [n2|] eqn:Hp2; [|done].
  destruct (_ || _); [done|]. destruct (_ || _); [done|].
  injection Hf1 as ->. injection Hf2 as ->.
  apply strip_prefix_Some in Hp1 as ->. apply strip_prefix_Some in Hp2 as ->.
  apply elem_of_map_to_list in H1, H2. congruence.
Qed.

Lemma foldl_pending_step_fst now names st sc :
  ∃ c, (foldl (pending_step now) (st, sc) names).1 = set_SD_MMC c st.
Proof.
  revert st sc. induction names as [|n names IH]; intros st sc.
  - exists (SD_MMC st). by destruct st.
  - cbn [foldl].
    assert (Hstep : ∃ c sc', pending_step now (st, sc) n = (set_SD_MMC c st, sc')).
    { unfold pending_step.
      assert (Hid : ∃ c sc', (st, sc) = (set_SD_MMC c st, sc')).
      { exists (SD_MMC st), sc. by destruct st. }
      destruct (negb (endsWith n ".json")); [done|].
      destruct (load_manifest _ _) as [[item status]|]; [|done].
      destruct (negb (String.eqb status "PENDING")); [done|].
      destruct (UPLOAD_MAX_ATTEMPTS <=? upload_attempts item).
      - pose proof (write_manifest_atomic_frame st (seq item) (filepath item)
                      (captured_epoch item) "FAILED" (item_type item)
                      (content_type item) (upload_attempts item)
                      (last_attempt_epoch item)) as [Hf _].
        eexists _, sc. by rewrite Hf at 1.
      - destruct (in_backoff now item); [done|].
        exists (SD_MMC st), (take_if_better sc item). by destruct st. }
    destruct Hstep as (c & sc' & ->).
    destruct (IH (set_SD_MMC c st) sc') as [c' ->].
    by exists c'.
Qed.

(** ** The scan of find_oldest_pending *)

(** On a card whose manifests sit under their own names, the writes of the
    scan (over-limit items turned FAILED) touch only the entry being
    visited, so the scan chooses among the items that were eligible when it
    began. *)
Lemma pending_scan c0 now names st sc :
  names_match c0 → NoDup names →
  (∀ n, n ∈ names → manifest_at (SD_MMC st) n = manifest_at c0 n) →
  (foldl (pending_step now) (st, sc) names).2
  = foldl take_if_better sc (omap (pending_of now) (omap (manifest_at c0) names)).
Proof.
  intros Hnm. revert st sc.
  induction names as [|n names IH]; intros st sc Hnd Hsame; [done|].
  apply NoDup_cons in Hnd as [Hn Hnd].
  cbn [foldl]. unfold pending_step at 2.
  pose proof (Hsame n (list_elem_of_here _ _)) as Hmn.
  unfold manifest_at at 1 in Hmn.
  cbn [omap list_omap].
  destruct (endsWith n ".json") eqn:Hjson; cbn [negb].
  2:{ rewrite <- Hmn. apply IH; [done|]. intros; apply Hsame. by right. }
  rewrite Hmn.
  destruct (manifest_at c0 n) as [[item status]|] eqn:Hm.
  2:{ apply IH; [done|]. intros; apply Hsame. by right. }
  cbn [omap list_omap]. unfold pending_of at 1. cbn [fst snd].
  destruct (String.eqb status "PENDING") eqn:Hst; cbn [negb andb].
  2:{ apply IH; [done|]. intros; apply Hsame. by right. }
  rewrite Z.ltb_antisym.
  destruct (UPLOAD_MAX_ATTEMPTS <=? upload_attempts item) eqn:Hmax; cbn [negb andb].
  - apply IH; [done|]. intros n' Hn'.
    rewrite <- (Hsame n') by by right.
    pose proof (write_manifest_atomic_frame st (seq item) (filepath item)
                  (captured_epoch item) "FAILED" (item_type item)
                  (content_type item) (upload_attempts item)
                  (last_attempt_epoch item)) as (_ & Hother & _).
    apply (manifest_at_other_name _ _ (seq item)); [done|].
    rewrite <- (Hnm _ _ _ Hm). intros ->. done.
  - destruct (in_backoff now item); cbn [negb].
    + apply IH; [done|]. intros; apply Hsame. by right.
    + cbn [foldl]. apply IH; [done|]. intros; apply Hsame. by right.
Qed.

Lemma find_oldest_pending_scan st w :
  sd_ok st = true → SD_is_dir (SD_MMC st) "/manifests" = true →
  names_match (SD_MMC st) →
  (find_oldest_pending st w).1
  = let sc := foldl take_if_better scan_start
                (pending_items (now_epoch st w) (SD_MMC st)) in
    (scan_found sc, scan_out sc).
Proof.
  intros Hsd Hdir Hnm. unfold find_oldest_pending. rewrite Hsd, Hdir. cbn [negb].
  pose proof (pending_scan (SD_MMC st) (now_epoch st w)
                (SD_list (SD_MMC st) "/manifests") st scan_start Hnm
                (SD_list_NoDup _ _) (λ _ _, eq_refl)) as H.
  destruct (foldl _ _ _) as [st' sc]. cbn [fst snd] in *. by rewrite H.
Qed.

Lemma elem_of_pending_items now c item :
  item ∈ pending_items now c ↔
  (item, "PENDING") ∈ manifests c
  ∧ upload_attempts item < UPLOAD_MAX_ATTEMPTS
  ∧ in_backoff now item = false.
Proof.
  unfold pending_items. rewrite list_elem_of_omap. split.
  - intros ([i s] & Hin & Hp). unfold pending_of in Hp. cbn [fst snd] in Hp.
    destruct (String.eqb_spec s "PENDING") as [->|]; [|done].
    destruct (Z.ltb_spec (upload_attempts i) UPLOAD_MAX_ATTEMPTS); [|done].
    destruct (in_backoff now i) eqn:Hb; [done|].
    injection Hp as ->. done.
  - intros (Hin & Hlt & Hb). exists (item, "PENDING"). split; [done|].
    unfold pending_of. cbn [fst snd]. rewrite Hb.
    by destruct (Z.ltb_spec (upload_attempts item) UPLOAD_MAX_ATTEMPTS); [|lia].
Qed.

Lemma pending_items_stamped now c item :
  stamped c → item ∈ pending_items now c → 0 <= captured_epoch item.
Proof.
  intros Hst [(name & _ & Hm)%elem_of_manifests _]%elem_of_pending_items.
  by eapply Hst.
Qed.

(** [find_oldest_pending] on a mounted card with its manifests folder. *)
Lemma find_oldest_pending_spec st w :
  sd_ok st = true → SD_is_dir (SD_MMC st) "/manifests" = true →
  names_match (SD_MMC st) → stamped (SD_MMC st) →
  match (find_oldest_pending st w).1 with
  | (true, out) =>
      out ∈ pending_items (now_epoch st w) (SD_MMC st)
      ∧ ∀ x, x ∈ pending_items (now_epoch st w) (SD_MMC st) → ¬ older x out
  | (false, out) =>
      pending_items (now_epoch st w) (SD_MMC st) = [] ∧ out = empty_item
  end.
Proof.
  intros Hsd Hdir Hnm Hst. rewrite find_oldest_pending_scan by done. cbv zeta.
  apply scan_result. intros y Hy. by eapply pending_items_stamped.
Qed.

(** ** The backoff test *)

Lemma backoff_seconds_schedule :
  backoff_seconds 1 = 60 ∧ backoff_seconds 2 = 300
  ∧ ∀ n, 3 <= n → backoff_seconds n = 1800.
Proof.
  split_and!; [done|done|]. intros n Hn. unfold backoff_seconds.
  destruct (Z.leb_spec n 0), (Z.eqb_spec n 1), (Z.eqb_spec n 2); try lia. done.
Qed.

Lemma in_backoff_eligible now item :
  0 <= upload_attempts item →
  in_backoff now item = false ↔ eligible now item.
Proof.
  intros Hua. unfold in_backoff, eligible, backoff_seconds.
  unfold UPLOAD_BACKOFF_SEC_1, UPLOAD_BACKOFF_SEC_2, UPLOAD_BACKOFF_SEC_3.
  destruct (Z.leb_spec (upload_attempts item) 0),
    (Z.eqb_spec (upload_attempts item) 1),
    (Z.eqb_spec (upload_attempts item) 2); cbn [Z.gtb Z.compare andb];
    try lia;
    match goal with
    | |- context [?a <? ?b] => destruct (Z.ltb_spec a b)
    | _ => idtac
    end; split; intros; try done; try lia.
Qed.

(** ** Well-formed cards *)

Lemma wf_card_names_match c : wf_card c → names_match c.
Proof. intros Hwf n item status Hm. by destruct (wf_manifests _ Hwf _ _ _ Hm). Qed.

Lemma wf_card_stamped c : wf_card c → stamped c.
Proof. intros Hwf n item status Hm. by destruct (wf_manifests _ Hwf _ _ _ Hm). Qed.

Lemma with_attempt_same c n item status :
  wf_card c → manifest_at c n = Some (item, status) →
  with_attempt item (upload_attempts item) (last_attempt_epoch item) = item.
Proof.
  intros Hwf Hm. pose proof (wf_manifests _ Hwf _ _ _ Hm) as [].
  destruct (manifest_at_Some _ _ _ _ Hm) as [_ Hload].
  pose proof (load_manifest_ranges _ _ _ _ Hload) as (_ & _ & _ & Hla).
  unfold with_attempt, int_range in *.
  rewrite to_uint32_small by (pow2; lia).
  rewrite or_int0_in_range by (unfold int_range; pow2; lia).
  by destruct item.
Qed.


Lemma pending_step_cases now st sc n :
  (∃ sc', pending_step now (st, sc) n = (st, sc'))
  ∨ (∃ item,
       manifest_at (SD_MMC st) n = Some (item, "PENDING")
       ∧ UPLOAD_MAX_ATTEMPTS <= upload_attempts item
       ∧ pending_step now (st, sc) n
         = ((write_manifest_atomic st (seq item) (filepath item)
               (captured_epoch item) "FAILED" (item_type item)
               (content_type item) (upload_attempts item)
               (last_attempt_epoch item)).2, sc)).
Proof.
  unfold pending_step, manifest_at.
  destruct (endsWith n ".json") eqn:Hjson; cbn [negb]; [|by left; eexists].
  destruct (load_manifest _ _) as [[item status]|] eqn:Hload; [|by left; eexists].
  destruct (String.eqb_spec status "PENDING") as [->|]; cbn [negb];
    [|by left; eexists].
  destruct (Z.leb_spec UPLOAD_MAX_ATTEMPTS (upload_attempts item)) as [Hmax|].
  - right. by exists item.
  - left. destruct (in_backoff now item); by eexists.
Qed.

Lemma pending_scan_wf now names st sc :
  sd_ok st = true → wf_card (SD_MMC st) →
  wf_card (SD_MMC (foldl (pending_step now) (st, sc) names).1)
  ∧ swept (SD_MMC st) (SD_MMC (foldl (pending_step now) (st, sc) names).1).
Proof.
  revert st sc. induction names as [|n names IH]; intros st sc Hsd Hwf.
  - cbn. split; [done|]. intros m. by left.
  - cbn [foldl].
    destruct (pending_step_cases now st sc n)
      as [[sc' ->]|(item & Hm & Hmax & ->)]; [by apply IH|].
    destruct (manifest_at_Some _ _ _ _ Hm) as [_ Hload].
    pose proof (wf_manifests _ Hwf _ _ _ Hm) as [].
    pose proof (load_manifest_ranges _ _ _ _ Hload) as (_ & _ & Hua & _).
    destruct (rewrite_manifest st n item "PENDING" "FAILED"
                (upload_attempts item) (last_attempt_epoch item))
      as (Hnew & Hrest & Hwf1); [done|done|done|done|by destruct Hua|].
    rewrite (with_attempt_same _ _ _ _ Hwf Hm) in Hnew.
    pose proof (write_manifest_atomic_frame st (seq item) (filepath item)
                  (captured_epoch item) "FAILED" (item_type item)
                  (content_type item) (upload_attempts item)
                  (last_attempt_epoch item)) as [Hf _].
    set (st1 := (write_manifest_atomic _ _ _ _ _ _ _ _ _).2) in *.
    assert (Hsd1 : sd_ok st1 = true) by (rewrite Hf; by destruct st).
    destruct (IH st1 sc Hsd1 Hwf1) as [Hwf' Hsw]. split; [done|].
    intros m. destruct (decide (m = n)) as [->|Hne].
    + right. exists item. split_and!; [done|done|].
      destruct (Hsw n) as [->|(item' & Hp & _)]; [done|].
      rewrite Hnew in Hp. done.
    + rewrite <- (Hrest m Hne). apply Hsw.
Qed.

Lemma find_oldest_pending_frame st w :
  ∃ c, (find_oldest_pending st w).2 = set_SD_MMC c st.
Proof.
  unfold find_oldest_pending.
  assert (Hid : ∃ c, st = set_SD_MMC c st) by (exists (SD_MMC st); by destruct st).
  destruct (negb (sd_ok st)); [done|]. destruct (negb (SD_is_dir _ _)); [done|].
  destruct (foldl_pending_step_fst (now_epoch st w)
              (SD_list (SD_MMC st) "/manifests") st scan_start) as [c Hc].
  destruct (foldl _ _ _) as [st' sc]. cbn [fst snd] in *. by exists c.
Qed.

(** What [find_oldest_pending] does on a well-formed card. *)
Lemma find_oldest_pending_wf st w found item st1 :
  wf_card (SD_MMC st) →
  find_oldest_pending st w = (found, item, st1) →
  wf_card (SD_MMC st1) ∧ swept (SD_MMC st) (SD_MMC st1)
  ∧ (∃ c, st1 = set_SD_MMC c st)
  ∧ (found = true →
     sd_ok st = true
     ∧ ∃ n, manifest_at (SD_MMC st) n = Some (item, "PENDING")
            ∧ manifest_at (SD_MMC st1) n = Some (item, "PENDING")
            ∧ upload_attempts item < UPLOAD_MAX_ATTEMPTS
            ∧ in_backoff (now_epoch st w) item = false).
Proof.
  intros Hwf Hfind.
  pose proof (find_oldest_pending_frame st w) as Hframe. rewrite Hfind in Hframe.
  cbn [snd] in Hframe.
  assert (Hsame : ∀ n, manifest_at (SD_MMC st) n = manifest_at (SD_MMC st) n ∨
             ∃ item, manifest_at (SD_MMC st) n = Some (item, "PENDING")
                     ∧ UPLOAD_MAX_ATTEMPTS <= upload_attempts item
                     ∧ manifest_at (SD_MMC st) n = Some (item, "FAILED"))
    by (intros; by left).
  destruct (sd_ok st) eqn:Hsd.
  2:{ unfold find_oldest_pending in Hfind. rewrite Hsd in Hfind.
      injection Hfind as <- <- <-. done. }
  destruct (SD_is_dir (SD_MMC st) "/manifests") eqn:Hdir.
  2:{ unfold find_oldest_pending in Hfind. rewrite Hsd, Hdir in Hfind.
      injection Hfind as <- <- <-. done. }
  pose proof (find_oldest_pending_spec st w Hsd Hdir (wf_card_names_match _ Hwf)
                (wf_card_stamped _ Hwf)) as Hspec.
  pose proof (pending_scan_wf (now_epoch st w) (SD_list (SD_MMC st) "/manifests")
                st scan_start Hsd Hwf) as Hscan.
  assert (Hst1 : st1 = (foldl (pending_step (now_epoch st w)) (st, scan_start)
                          (SD_list (SD_MMC st) "/manifests")).1).
  { unfold find_oldest_pending in Hfind. rewrite Hsd, Hdir in Hfind.
    cbn [negb] in Hfind. destruct (foldl _ _ _) as [st' sc].
    by injection Hfind as _ _ <-. }
  rewrite <- Hst1 in Hscan. destruct Hscan as [Hwf1 Hsw].
  split_and!; [done|done|done|]. intros ->.
  rewrite Hfind in Hspec. cbn [fst] in Hspec. destruct Hspec as [Hin _].
  apply elem_of_pending_items in Hin as (Hin & Hlt & Hb).
  apply elem_of_manifests in Hin as (n & _ & Hm).
  split; [done|]. exists n. split_and!; try done.
  destruct (Hsw n) as [->|(item' & Hp & Hmax & _)]; [done|].
  rewrite Hm in Hp. injection Hp as <-. lia.
Qed.

(** [update_manifest_status] on the manifest of a well-formed card. *)
Lemma update_manifest_status_wf st n item item0 status status' ua la :
  sd_ok st = true → wf_card (SD_MMC st) →
  manifest_at (SD_MMC st) n = Some (item, status) →
  item = with_attempt item0 (upload_attempts item) (last_attempt_epoch item) →
  plain status' = true → 0 <= ua <= INT_MAX →
  let st' := update_manifest_status st item0 status' ua la in
  manifest_at (SD_MMC st') n = Some (with_attempt item0 ua la, status')
  ∧ (∀ n', n' ≠ n → manifest_at (SD_MMC st') n' = manifest_at (SD_MMC st) n')
  ∧ wf_card (SD_MMC st') ∧ sd_ok st' = true ∧ (∃ c, st' = set_SD_MMC c st).
Proof.
  intros Hsd Hwf Hm Hitem Hst Hua st'.
  destruct (rewrite_manifest st n item status status' ua la)
    as (Hnew & Hrest & Hwf'); [done..|].
  assert (Heq : st' = (write_manifest_atomic st (seq item) (filepath item)
                         (captured_epoch item) status' (item_type item)
                         (content_type item) ua la).2).
  { subst st'. unfold update_manifest_status. by rewrite Hitem. }
  rewrite <- Heq in Hnew, Hrest, Hwf'.
  pose proof (write_manifest_atomic_frame st (seq item) (filepath item)
                (captured_epoch item) status' (item_type item)
                (content_type item) ua la) as [Hf _].
  rewrite <- Heq in Hf.
  split_and!; [|done|done| |by eexists].
  - rewrite Hnew. by rewrite Hitem.
  - rewrite Hf. by destruct st.
Qed.

Lemma with_attempt_idem item ua la :
  with_attempt item ua la
  = with_attempt item (upload_attempts (with_attempt item ua la))
      (last_attempt_epoch (with_attempt item ua la)).
Proof.
  unfold with_attempt.
  cbn [manifest_path filepath item_type content_type seq captured_epoch
       upload_attempts last_attempt_epoch].
  f_equal.
  pose proof (or_int0_range (Some (JInt (to_uint32 la)))) as Hr.
  pose proof (or_int0_to_uint32_nonneg la) as Hn.
  set (x := or_int0 (Some (JInt (to_uint32 la)))) in *.
  unfold int_range in Hr.
  rewrite to_uint32_small by (pow2; lia).
  by rewrite or_int0_in_range by (unfold int_range; pow2; lia).
Qed.


(** One call of [upload_one_pending] on a well-formed card, with the card
    mounted and Wi-Fi up. *)
Lemma upload_one_pending_wf DEVICE_TOKEN st w net found item st1 :
  sd_ok st = true → wifi_ok st = true → wf_card (SD_MMC st) →
  find_oldest_pending st w = (found, item, st1) →
  let r := upload_one_pending DEVICE_TOKEN st w net in
  wf_card (SD_MMC r.2) ∧ sd_ok r.2 = true ∧ wifi_ok r.2 = true
  ∧ if found then
      ∃ n, manifest_at (SD_MMC st) n = Some (item, "PENDING")
           ∧ upload_attempts item < UPLOAD_MAX_ATTEMPTS
           ∧ manifest_at (SD_MMC r.2) n
             = Some (with_attempt item (upload_attempts item + 1) (now_epoch st w),
                     status_after r.1 item)
           ∧ ∀ n', n' ≠ n → manifest_at (SD_MMC r.2) n' = manifest_at (SD_MMC st1) n'
    else r = (false, st1).
Proof.
  intros Hsd Hwifi Hwf Hfind r.
  destruct (find_oldest_pending_wf st w found item st1 Hwf Hfind)
    as (Hwf1 & Hsw & [c1 Hc1] & Hfound).
  assert (Hsd1 : sd_ok st1 = true) by (rewrite Hc1; by destruct st).
  assert (Hwifi1 : wifi_ok st1 = true) by (rewrite Hc1; by destruct st).
  assert (Hnow : now_epoch st1 w = now_epoch st w) by (rewrite Hc1; by destruct st).
  subst r. unfold upload_one_pending. rewrite Hsd, Hwifi, Hfind. cbn [negb orb].
  destruct found; [|done].
  destruct Hfound as (_ & n & Hm & Hm1 & Hlt & Hb); [done|].
  pose proof (wf_manifests _ Hwf _ _ _ Hm) as [].
  assert (Hua : 0 <= upload_attempts item + 1 <= INT_MAX).
  { unfold UPLOAD_MAX_ATTEMPTS in Hlt. pow2. lia. }
  rewrite Hnow. set (now := now_epoch st w).
  set (ua := upload_attempts item + 1) in *.
  destruct (update_manifest_status_wf st1 n item item "PENDING" "PENDING" ua now)
    as (Hm2 & Hrest2 & Hwf2 & Hsd2 & [c2 Hc2]); try done.
  { symmetry. by eapply with_attempt_same. }
  set (st2 := update_manifest_status st1 item "PENDING" ua now) in *.
  assert (Hwifi2 : wifi_ok st2 = true) by (rewrite Hc2; by destruct st1).
  (* every way out rewrites the manifest once more *)
  assert (Hout : ∀ status', plain status' = true →
            let st3 := update_manifest_status st2 item status' ua now in
            wf_card (SD_MMC st3) ∧ sd_ok st3 = true ∧ wifi_ok st3 = true
            ∧ manifest_at (SD_MMC st3) n = Some (with_attempt item ua now, status')
            ∧ ∀ n', n' ≠ n → manifest_at (SD_MMC st3) n' = manifest_at (SD_MMC st1) n').
  { intros status' Hp st3.
    destruct (update_manifest_status_wf st2 n (with_attempt item ua now) item
                "PENDING" status' ua now)
      as (Hm3 & Hrest3 & Hwf3 & Hsd3 & [c3 Hc3]); try done.
    { apply with_attempt_idem. }
    fold st3 in Hm3, Hrest3, Hwf3, Hsd3, Hc3.
    split_and!; try done.
    - rewrite Hc3. by destruct st2.
    - intros n' Hn'. by rewrite Hrest3, Hrest2. }
  assert (Hfail : let st3 := record_failure st2 item now in
            wf_card (SD_MMC st3) ∧ sd_ok st3 = true ∧ wifi_ok st3 = true
            ∧ manifest_at (SD_MMC st3) n
              = Some (with_attempt item ua now, status_after false item)
            ∧ ∀ n', n' ≠ n → manifest_at (SD_MMC st3) n' = manifest_at (SD_MMC st1) n').
  { unfold record_failure, status_after. fold ua.
    destruct (UPLOAD_MAX_ATTEMPTS <=? ua); by apply Hout. }
  cbv zeta in Hfail. destruct Hfail as (Hf1 & Hf2 & Hf3 & Hf4 & Hf5).
  assert (Hgoal_fail :
    wf_card (SD_MMC (record_failure st2 item now))
    ∧ sd_ok (record_failure st2 item now) = true
    ∧ wifi_ok (record_failure st2 item now) = true
    ∧ ∃ n0, manifest_at (SD_MMC st) n0 = Some (item, "PENDING")
         ∧ upload_attempts item < UPLOAD_MAX_ATTEMPTS
         ∧ manifest_at (SD_MMC (record_failure st2 item now)) n0
           = Some (with_attempt item ua now, status_after false item)
         ∧ ∀ n', n' ≠ n0 →
             manifest_at (SD_MMC (record_failure st2 item now)) n'
             = manifest_at (SD_MMC st1) n').
  { split_and!; try done. by exists n. }
  destruct (request_upload_target _ _ _) as [[[[host port] path] key]|];
    [|exact Hgoal_fail].
  destruct (stream_upload st2 item net); cbn [negb]; [|exact Hgoal_fail].
  destruct (notify_ingest net); cbn [negb]; [|exact Hgoal_fail].
  cbn [fst snd].
  destruct (Hout "UPLOADED" eq_refl) as (Ho1 & Ho2 & Ho3 & Ho4 & Ho5).
  split_and!; try done. by exists n.
Qed.

(** ** Checking a given card *)

Lemma wf_itemb_sound name item : wf_itemb name item = true → wf_item name item.
Proof.
  unfold wf_itemb. rewrite !andb_true_iff.
  intros [[[[[[[Hn ?] ?] ?] ?%Z.leb_le] ?%Z.leb_le] ?%Z.leb_le] ?%Z.leb_le].
  apply String.eqb_eq in Hn. by split.
Qed.

Lemma wf_cardb_sound c : wf_cardb c = true → wf_card c.
Proof.
  unfold wf_cardb. rewrite andb_true_iff, !forallb_forall.
  intros [Hfiles Hdirs]. split.
  - intros name item status Hm.
    destruct (manifest_at_Some _ _ _ _ Hm) as [_ Hload].
    unfold load_manifest in Hload.
    destruct (sd_files c !! _) as [text|] eqn:Hfile; [|done].
    apply elem_of_map_to_list, list_elem_of_In, Hfiles in Hfile.
    cbn [fst] in Hfile. rewrite strip_prefix_app, Hm in Hfile.
    by apply wf_itemb_sound.
  - intros sq. apply bool_decide_eq_false. intros Hin.
    apply elem_of_elements, list_elem_of_In, Hdirs in Hin.
    by rewrite manifest_final_path_name, strip_prefix_app in Hin.
Qed.

(** ** C8: write then load *)




(** ** C9: free_percent *)

(** C9: [free_percent] never divides by zero: with [totalBytes] 0 it returns
    0 whatever [usedBytes] is; with [totalBytes] not 0 it returns
    [((total − used) × 100) / total] as C computes it on [uint64_t] and
    narrows it to [uint8_t]; on a report with [usedBytes ≤ totalBytes]
    (and [(total − used) × 100] within 64 bits) nothing wraps: this is
    the integer quotient [((total − used) × 100) / total], at most 100. *)
Theorem free_percent_of_spec :
  (∀ used, free_percent_of 0 used = 0)
  ∧ (∀ total used,
       0 < total < 2 ^ 64 → 0 <= used < 2 ^ 64 →
       free_percent_of total used
       = to_uint8 (to_uint64 (to_uint64 (total - used) * 100) / total))
  ∧ (∀ total used,
       0 < total < 2 ^ 64 → 0 <= used <= total →
       (total - used) * 100 < 2 ^ 64 →
       free_percent_of total used = ((total - used) * 100) / total
       ∧ 0 <= free_percent_of total used <= 100).
Proof.
  split; [done|]. split.
  { intros total used Ht Hu. unfold free_percent_of.
    assert (H1 : to_uint64 total = total)
      by (unfold to_uint64, wrap; apply Z.mod_small; lia).
    assert (H2 : to_uint64 used = used)
      by (unfold to_uint64, wrap; apply Z.mod_small; lia).
    rewrite H1, H2. destruct (Z.eqb_spec total 0); [lia|done]. }
  intros total used Ht Hu Hov.
  assert (Hq : 0 <= (total - used) * 100 / total <= 100).
  { split; [apply Z.div_pos; lia|].
    apply Z.div_le_upper_bound; [lia|]. nia. }
  assert (Heq : free_percent_of total used = (total - used) * 100 / total).
  { unfold free_percent_of, to_uint64, to_uint8, wrap.
    rewrite (Z.mod_small total), (Z.mod_small used) by lia.
    destruct (Z.eqb_spec total 0); [lia|].
    rewrite (Z.mod_small (total - used)) by lia.
    rewrite (Z.mod_small ((total - used) * 100)) by lia.
    apply Z.mod_small. change (2 ^ 8) with 256. lia. }
  by rewrite Heq.
Qed.

Lemma free_percent_of_spec_witness :
  free_percent_of 1000 896 = ((1000 - 896) * 100) / 1000
  ∧ 0 <= free_percent_of 1000 896 <= 100.
Proof.
  apply (proj2 (proj2 free_percent_of_spec) 1000 896); [split| |]; done.
Defined.

(** The percentage on the card of scenario 5. *)
Example free_percent_full_card : free_percent (SD_MMC full_card_state) = 10.
Proof. by vm_compute. Qed.

(** A report with more bytes used than the card has wraps around. *)
Example free_percent_of_inconsistent : free_percent_of 100 150 = 42.
Proof. by vm_compute. Qed.

(** ** C2: the oldest manifest *)


Lemma backlog_state_wf : wf_card (SD_MMC backlog_state).
Proof. apply wf_cardb_sound. by vm_compute. Qed.


(** At time 1100 photo 1 is in backoff and photo 0 is chosen; at time 2000
    photo 1, captured earlier, is chosen. *)
Example find_oldest_pending_backlog :
  seq (find_oldest_pending backlog_state (quiet_world 5000 1100)).1.2 = 0
  ∧ seq (find_oldest_pending backlog_state (quiet_world 5000 2000)).1.2 = 1.
Proof. by vm_compute. Qed.

(** ** C4: eligibility *)

Lemma take_if_better_found sc x :
  scan_found sc = true ∨ scan_found sc = false →
  scan_found (take_if_better sc x) = true.
Proof.
  unfold take_if_better, is_better. intros [H|H]; rewrite H; cbn [negb]; [|done].
  by repeat destruct (_ && _); try destruct (_ <? _).
Qed.

Lemma scan_found_foldl items sc :
  scan_found (foldl take_if_better sc items) = true ↔
  scan_found sc = true ∨ items ≠ [].
Proof.
  revert sc. induction items as [|x items IH]; intros sc.
  - cbn. split; [by left|]. by intros [|].
  - cbn [foldl]. rewrite IH. split; [by right|]. intros _. left.
    apply take_if_better_found. destruct (scan_found sc); auto.
Qed.

(** C4: on a mounted card whose manifests sit under their own names and
    carry non-negative attempt counts, a PENDING manifest with attempts left
    is among the items [find_oldest_pending] chooses from at time [now]
    exactly when [upload_attempts = 0] or
    [now − last_attempt_epoch ≥ backoff(upload_attempts)]; it finds an item
    exactly when such a manifest exists; and the backoff after 1, 2 and 3 or
    more attempts is 60, 300 and 1800 seconds. *)
Theorem pending_eligibility st w :
  sd_ok st = true → SD_is_dir (SD_MMC st) "/manifests" = true →
  names_match (SD_MMC st) →
  (∀ item, (item, "PENDING") ∈ manifests (SD_MMC st) → 0 <= upload_attempts item) →
  (∀ item,
     (item, "PENDING") ∈ manifests (SD_MMC st) →
     upload_attempts item < UPLOAD_MAX_ATTEMPTS →
     item ∈ pending_items (now_epoch st w) (SD_MMC st)
     ↔ eligible (now_epoch st w) item)
  ∧ ((find_oldest_pending st w).1.1 = true ↔
     ∃ item, (item, "PENDING") ∈ manifests (SD_MMC st)
             ∧ upload_attempts item < UPLOAD_MAX_ATTEMPTS
             ∧ eligible (now_epoch st w) item)
  ∧ (backoff_seconds 1 = 60 ∧ backoff_seconds 2 = 300
     ∧ ∀ n, 3 <= n → backoff_seconds n = 1800).
Proof.
  intros Hsd Hdir Hnm Hua.
  assert (Hiff : ∀ item,
            item ∈ pending_items (now_epoch st w) (SD_MMC st) ↔
            (item, "PENDING") ∈ manifests (SD_MMC st)
            ∧ upload_attempts item < UPLOAD_MAX_ATTEMPTS
            ∧ eligible (now_epoch st w) item).
  { intros item. rewrite elem_of_pending_items. split.
    - intros (Hin & Hlt & Hb). split_and!; [done|done|].
      by apply in_backoff_eligible; [apply Hua|].
    - intros (Hin & Hlt & He). split_and!; [done|done|].
      by apply in_backoff_eligible; [apply Hua|]. }
  split; [|split; [|apply backoff_seconds_schedule]].
  - intros item Hin Hlt. rewrite Hiff. tauto.
  - rewrite find_oldest_pending_scan by done. cbv zeta. cbn [fst].
    rewrite scan_found_foldl. split.
    + intros [?|Hne]; [done|].
      destruct (pending_items _ _) as [|item items] eqn:Hitems; [done|].
      exists item. apply Hiff. rewrite ?Hitems. left.
    + intros (item & Hitem). right. apply Hiff in Hitem.
      intros Hnil. rewrite Hnil in Hitem. by apply elem_of_nil in Hitem.
Qed.

Lemma pending_eligibility_witness :
  let st := backlog_state in
  let w := quiet_world 5000 1100 in
  (∀ item,
     (item, "PENDING") ∈ manifests (SD_MMC st) →
     upload_attempts item < UPLOAD_MAX_ATTEMPTS →
     item ∈ pending_items (now_epoch st w) (SD_MMC st)
     ↔ eligible (now_epoch st w) item)
  ∧ ((find_oldest_pending st w).1.1 = true ↔
     ∃ item, (item, "PENDING") ∈ manifests (SD_MMC st)
             ∧ upload_attempts item < UPLOAD_MAX_ATTEMPTS
             ∧ eligible (now_epoch st w) item)
  ∧ (backoff_seconds 1 = 60 ∧ backoff_seconds 2 = 300
     ∧ ∀ n, 3 <= n → backoff_seconds n = 1800).
Proof.
  apply (pending_eligibility backlog_state (quiet_world 5000 1100)).
  - reflexivity.
  - by vm_compute.
  - apply wf_card_names_match, wf_cardb_sound. by vm_compute.
  - intros item (n & _ & Hm)%elem_of_manifests.
    assert (Hwf : wf_card (SD_MMC backlog_state))
      by (apply wf_cardb_sound; by vm_compute).
    by destruct (wf_manifests _ Hwf _ _ _ Hm).
Defined.

(** ** C1: failed attempts *)






Lemma last_chance_state_wf : wf_card (SD_MMC last_chance_state).
Proof. apply wf_cardb_sound. by vm_compute. Qed.


(** Scenario 4 of the specification, on its last attempt: the manifest
    becomes FAILED with three attempts. *)
Example third_failure_is_final :
  let st' := (upload_one_pending "token" last_chance_state
                (quiet_world 5000 2000) no_network).2 in
  (λ m, (upload_attempts m.1, m.2)) <$> manifest_at (SD_MMC st') "1.json"
  = Some (3, "FAILED")
  ∧ (find_oldest_pending st' (quiet_world 9000000 9000)).1.1 = false.
Proof. by vm_compute. Qed.

(** ** C5: the device token *)

(** C5 fails on the code: with an empty device token [upload_one_pending]
    still selects the oldest pending manifest and counts an attempt on it
    (here photo 0 goes from 0 to 1 attempts, at time 1100); on its last
    chance the manifest becomes FAILED. *)
Theorem empty_token_counts_attempts :
  let w := quiet_world 5000 1100 in
  let r := upload_one_pending "" backlog_state w accepting_network in
  r.1 = false
  ∧ (λ m, (upload_attempts m.1, last_attempt_epoch m.1, m.2))
      <$> manifest_at (SD_MMC backlog_state) "0.json" = Some (0, 0, "PENDING")
  ∧ (λ m, (upload_attempts m.1, last_attempt_epoch m.1, m.2))
      <$> manifest_at (SD_MMC r.2) "0.json" = Some (1, 1100, "PENDING")
  ∧ (λ m, (upload_attempts m.1, m.2))
      <$> manifest_at
            (SD_MMC (upload_one_pending "" last_chance_state
                       (quiet_world 5000 2000) accepting_network).2) "1.json"
      = Some (3, "FAILED").
Proof. by vm_compute. Qed.

(** ** Removing files *)

Lemma remove_if_exists_files c p :
  sd_files (remove_if_exists c p) = delete p (sd_files c).
Proof.
  unfold remove_if_exists. destruct (SD_exists c p) eqn:He; [done|].
  symmetry. apply delete_id.
  apply orb_false_iff in He as [He _]. unfold SD_is_file in He.
  apply bool_decide_eq_false in He. by apply eq_None_not_Some.
Qed.

Lemma remove_if_exists_rest c p :
  sd_dirs (remove_if_exists c p) = sd_dirs c
  ∧ sd_totalBytes (remove_if_exists c p) = sd_totalBytes c
  ∧ sd_usedBytes (remove_if_exists c p) = sd_usedBytes c.
Proof. unfold remove_if_exists. by destruct (SD_exists c p). Qed.

Lemma elem_of_SD_list c dir name :
  name ∈ SD_list c dir ↔
  is_Some (sd_files c !! (dir +:+ "/" +:+ name))
  ∧ has_char "/" name = false ∧ isEmpty name = false.
Proof.
  unfold SD_list. rewrite list_elem_of_omap. split.
  - intros ([p text] & Hin%elem_of_map_to_list & Hf). cbn [fst] in Hf.
    destruct (strip_prefix _ p) as [n|] eqn:Hp; [|done].
    destruct (has_char "/" n || isEmpty n) eqn:Hn; [done|].
    injection Hf as ->. apply orb_false_iff in Hn as [? ?].
    apply strip_prefix_Some in Hp. rewrite app_assoc_str in Hp.
    subst p. by split_and!.
  - intros ([text Hfile] & H1 & H2). exists (dir +:+ "/" +:+ name, text).
    split; [by apply elem_of_map_to_list|]. cbn [fst].
    by rewrite <- app_assoc_str, strip_prefix_app, H1, H2.
Qed.


Lemma shrunk_manifest_at c c' n m :
  shrunk c c' → manifest_at c' n = Some m → manifest_at c n = Some m.
Proof.
  intros [_ Hsh]. unfold manifest_at. destruct (endsWith n ".json"); [|done].
  unfold load_manifest. destruct (Hsh ("/manifests/" +:+ n)) as [-> | ->]; done.
Qed.

Lemma shrunk_SD_list c c' dir n :
  shrunk c c' → n ∈ SD_list c' dir → n ∈ SD_list c dir.
Proof.
  intros [_ Hsh]. rewrite !elem_of_SD_list. intros ([text Hf] & ? & ?).
  split_and!; [|done|done].
  destruct (Hsh (dir +:+ "/" +:+ n)) as [Hq|Hq]; rewrite Hq in Hf;
    [by eexists|done].
Qed.

Lemma shrunk_uploaded_items c c' item :
  shrunk c c' → item ∈ uploaded_items c' → item ∈ uploaded_items c.
Proof.
  intros Hsh. rewrite !elem_of_uploaded_items, !elem_of_manifests.
  intros (n & Hn & Hm). exists n.
  split; [by eapply shrunk_SD_list|by eapply shrunk_manifest_at].
Qed.

Lemma shrunk_stamped c c' : shrunk c c' → stamped c → stamped c'.
Proof.
  intros Hsh Hst n item status Hm. eapply Hst. by eapply shrunk_manifest_at.
Qed.

(** ** One turn of the retention loop *)


Lemma without_item_files c item :
  sd_files (without_item c item)
  = delete (manifest_path item) (delete (filepath item) (sd_files c)).
Proof. unfold without_item. by rewrite !remove_if_exists_files. Qed.

Lemma without_item_shrunk c item : shrunk c (without_item c item).
Proof.
  split.
  - unfold without_item.
    destruct (remove_if_exists_rest (remove_if_exists c (filepath item))
                (manifest_path item)) as [-> _].
    by destruct (remove_if_exists_rest c (filepath item)) as [-> _].
  - intros p. rewrite without_item_files.
    destruct (decide (p = manifest_path item)) as [->|];
      [right; apply lookup_delete_eq|].
    rewrite lookup_delete_ne by done.
    destruct (decide (p = filepath item)) as [->|];
      [right; apply lookup_delete_eq|].
    left. by rewrite lookup_delete_ne.
Qed.

Lemma uploaded_item_file c item :
  item ∈ uploaded_items c → is_Some (sd_files c !! manifest_path item).
Proof.
  intros (n & _ & Hm)%elem_of_uploaded_items%elem_of_manifests.
  destruct (manifest_at_Some _ _ _ _ Hm) as [_ Hload].
  rewrite (load_manifest_path _ _ _ _ Hload).
  unfold load_manifest in Hload.
  destruct (sd_files c !! _); [by eexists|done].
Qed.

Lemma without_item_size c item :
  item ∈ uploaded_items c →
  (size (sd_files (without_item c item)) < size (sd_files c))%nat.
Proof.
  intros [text Hfile]%uploaded_item_file. rewrite without_item_files.
  assert (Hpos : (0 < size (sd_files c))%nat).
  { destruct (size (sd_files c)) eqn:Hs; [|lia].
    apply map_size_empty_inv in Hs. by rewrite Hs in Hfile. }
  rewrite (map_size_delete (manifest_path item)).
  destruct (decide (filepath item = manifest_path item)) as [->|Hne].
  - rewrite lookup_delete_eq. cbn [id].
    rewrite map_size_delete_Some by eauto. lia.
  - rewrite lookup_delete_ne, Hfile by done.
    pose proof (map_size_delete (filepath item) (sd_files c)) as Hs.
    destruct (sd_files c !! filepath item); cbn [id] in Hs; lia.
Qed.

(** ** The retention loop *)


Lemma swept_clean_refl st :
  SD_MIN_FREE_PERCENT <= free_percent (SD_MMC st)
  ∨ uploaded_items (SD_MMC st) = [] →
  swept_clean st st (free_percent (SD_MMC st)) [].
Proof.
  intros Hdone. split.
  - by destruct st.
  - done.
  - done.
  - intros p. by left.
  - by intros item ?%elem_of_nil.
  - constructor.
  - done.
  - by intros item x ?%elem_of_nil.
Qed.

Lemma retention_loop_spec fuel st deletions :
  sd_ok st = true → SD_is_dir (SD_MMC st) "/manifests" = true →
  stamped (SD_MMC st) →
  (size (sd_files (SD_MMC st)) < fuel)%nat →
  ∃ st' free_pct deleted,
    retention_loop fuel st (free_percent (SD_MMC st)) deletions
    = Some (st', free_pct, deletions ++ deleted)
    ∧ swept_clean st st' free_pct deleted.
Proof.
  revert st deletions.
  induction fuel as [|fuel IH]; intros st deletions Hsd Hdir Hst Hfuel; [lia|].
  cbn [retention_loop].
  destruct (Z.ltb_spec (free_percent (SD_MMC st)) SD_MIN_FREE_PERCENT) as [Hlow|Hok];
    cbn [negb].
  2:{ exists st, (free_percent (SD_MMC st)), []. rewrite app_nil_r.
      split; [done|]. apply swept_clean_refl. by left. }
  pose proof (find_oldest_uploaded_spec st Hsd Hdir Hst) as Hfind.
  destruct (find_oldest_uploaded st) as [[] item].
  2:{ destruct Hfind as [Hnone _].
      exists st, (free_percent (SD_MMC st)), []. rewrite app_nil_r.
      split; [done|]. apply swept_clean_refl. by right. }
  destruct Hfind as [Hin Hmin].
  fold (without_item (SD_MMC st) item).
  set (c1 := without_item (SD_MMC st) item).
  pose proof (without_item_shrunk (SD_MMC st) item) as Hsh. fold c1 in Hsh.
  destruct (IH (set_SD_MMC c1 st) (deletions ++ [item]))
    as (st' & pct & deleted & Hloop & Hclean).
  { by destruct st. }
  { cbn. unfold SD_is_dir in *. by destruct Hsh as [-> _]. }
  { cbn. by eapply shrunk_stamped. }
  { cbn. pose proof (without_item_size _ _ Hin) as Hlt. fold c1 in Hlt. lia. }
  cbn [SD_MMC set_SD_MMC] in Hloop. rewrite Hloop.
  exists st', pct, (item :: deleted).
  split; [by rewrite <- app_assoc|].
  destruct Hclean as [Hs Hp Hd Hf Hu Ho Hl Hm]. cbn [SD_MMC set_SD_MMC] in *.
  split.
  - rewrite Hs. by destruct st.
  - done.
  - done.
  - intros p. destruct (Hf p) as [Hsame|[Hgone (x & Hx & Hpx)]].
    + rewrite Hsame. subst c1. rewrite without_item_files.
      destruct (decide (p = manifest_path item)) as [->|Hn1].
      { right. split; [apply lookup_delete_eq|].
        exists item. split; [left|by right]. }
      rewrite lookup_delete_ne by done.
      destruct (decide (p = filepath item)) as [->|Hn2].
      { right. split; [apply lookup_delete_eq|].
        exists item. split; [left|by left]. }
      left. by rewrite lookup_delete_ne.
    + right. split; [done|]. exists x. split; [by right|done].
  - intros x [->|Hx]%elem_of_cons; [done|].
    eapply shrunk_uploaded_items; [exact Hsh|by apply Hu].
  - constructor; [done|]. apply (proj2 (Forall_forall _ _)). intros x Hx.
    apply Hmin. eapply shrunk_uploaded_items; [exact Hsh|]. by apply Hu.
  - intros x Hx. eapply shrunk_uploaded_items; [exact Hsh|]. by apply Hl.
  - intros d x [->|Hd']%elem_of_cons Hx; [|by apply Hm].
    apply Hmin. eapply shrunk_uploaded_items; [exact Hsh|]. by apply Hl.
Qed.

(** ** enforce_retention returns *)

Lemma scan_out_elem items sc seen :
  (scan_found sc = true → scan_out sc ∈ seen) →
  scan_found (foldl take_if_better sc items) = true →
  scan_out (foldl take_if_better sc items) ∈ seen ++ items.
Proof.
  revert sc seen. induction items as [|x items IH]; intros sc seen Hsc Hf.
  - rewrite app_nil_r. by apply Hsc.
  - cbn [foldl] in *.
    replace (seen ++ x :: items) with ((seen ++ [x]) ++ items)
      by (by rewrite <- app_assoc).
    apply IH; [|done]. intros _. unfold take_if_better.
    destruct (is_better sc x) eqn:Hb; cbn.
    + apply elem_of_app. right. by apply list_elem_of_singleton.
    + apply elem_of_app. left. apply Hsc.
      unfold is_better in Hb. by destruct (scan_found sc).
Qed.

Lemma find_oldest_uploaded_found st item :
  find_oldest_uploaded st = (true, item) → item ∈ uploaded_items (SD_MMC st).
Proof.
  unfold find_oldest_uploaded.
  destruct (negb (sd_ok st)); [done|].
  destruct (negb (SD_is_dir _ _)); [done|].
  rewrite uploaded_scan. intros [= Hf <-].
  by apply (scan_out_elem _ scan_start []).
Qed.

Lemma retention_loop_returns fuel st free_pct deletions :
  (size (sd_files (SD_MMC st)) < fuel)%nat →
  is_Some (retention_loop fuel st free_pct deletions).
Proof.
  revert st free_pct deletions.
  induction fuel as [|fuel IH]; intros st free_pct deletions Hfuel; [lia|].
  cbn [retention_loop]. destruct (negb (free_pct <? SD_MIN_FREE_PERCENT)); [done|].
  destruct (find_oldest_uploaded st) as [[] item] eqn:Hfind; [|done].
  apply IH. cbn [SD_MMC set_SD_MMC].
  pose proof (without_item_size _ _ (find_oldest_uploaded_found _ _ Hfind)) as Hlt.
  unfold without_item in Hlt. lia.
Qed.

(** [enforce_retention] returns on every state. *)
Lemma enforce_retention_returns st : is_Some (enforce_retention st).
Proof.
  unfold enforce_retention. destruct (negb (sd_ok st)); [done|].
  destruct (SD_MIN_FREE_PERCENT <=? _); [done|].
  destruct (retention_loop_returns (retention_fuel st) st
              (free_percent (SD_MMC st)) []) as [[[st' pct] dels] ->]; [|done].
  unfold retention_fuel. lia.
Qed.

(** ** C3: the retention sweep *)

(** C3: on a mounted card with its manifests folder and non-negative capture
    epochs, [enforce_retention] returns; when it has, either the free
    percentage is at least [SD_MIN_FREE_PERCENT] or no UPLOADED manifest is
    left; [capture_paused] holds exactly when the free percentage is below
    [SD_EMERGENCY_FREE_PERCENT]; every file is as it was or is gone, and a
    file that is gone is the artifact or the manifest of a deleted item;
    every deleted item was UPLOADED; and the items were deleted oldest
    first (no item is older than one deleted before it, and no UPLOADED
    item that is left is older than a deleted one). *)
Theorem enforce_retention_spec st :
  sd_ok st = true → SD_is_dir (SD_MMC st) "/manifests" = true →
  stamped (SD_MMC st) →
  ∃ st' deleted,
    enforce_retention st = Some (st', deleted)
    ∧ (SD_MIN_FREE_PERCENT <= free_percent (SD_MMC st')
       ∨ uploaded_items (SD_MMC st') = [])
    ∧ (capture_paused st' = true
       ↔ free_percent (SD_MMC st') < SD_EMERGENCY_FREE_PERCENT)
    ∧ (∀ p, sd_files (SD_MMC st') !! p = sd_files (SD_MMC st) !! p
            ∨ (sd_files (SD_MMC st') !! p = None
               ∧ ∃ item, item ∈ deleted
                         ∧ (p = filepath item ∨ p = manifest_path item)))
    ∧ (∀ item, item ∈ deleted → item ∈ uploaded_items (SD_MMC st))
    ∧ StronglySorted (λ a b, ¬ older b a) deleted
    ∧ (∀ item x, item ∈ deleted → x ∈ uploaded_items (SD_MMC st') →
                 ¬ older x item).
Proof.
  intros Hsd Hdir Hst. unfold enforce_retention. rewrite Hsd. cbn [negb].
  destruct (Z.leb_spec SD_MIN_FREE_PERCENT (free_percent (SD_MMC st))) as [Hok|Hlow].
  - exists (set_capture_paused false st), []. cbn [SD_MMC set_capture_paused capture_paused].
    split_and!;
      [done|by left| |by left|by intros ? ?%elem_of_nil|constructor
      |by intros ? ? ?%elem_of_nil].
    unfold SD_MIN_FREE_PERCENT, SD_EMERGENCY_FREE_PERCENT in *. split; [done|lia].
  - destruct (retention_loop_spec (retention_fuel st) st [] Hsd Hdir Hst)
      as (st' & pct & deleted & Hloop & [Hs Hp Hd Hf Hu Ho Hl Hm]).
    { unfold retention_fuel. lia. }
    rewrite Hloop. cbn [app].
    exists (set_capture_paused (pct <? SD_EMERGENCY_FREE_PERCENT) st'), deleted.
    cbn [SD_MMC set_capture_paused capture_paused]. rewrite <- Hp.
    split_and!; try done. apply Z.ltb_lt.
Qed.

Lemma enforce_retention_spec_witness :
  let st := full_card_state in
  ∃ st' deleted,
    enforce_retention st = Some (st', deleted)
    ∧ (SD_MIN_FREE_PERCENT <= free_percent (SD_MMC st')
       ∨ uploaded_items (SD_MMC st') = [])
    ∧ (capture_paused st' = true
       ↔ free_percent (SD_MMC st') < SD_EMERGENCY_FREE_PERCENT)
    ∧ (∀ p, sd_files (SD_MMC st') !! p = sd_files (SD_MMC st) !! p
            ∨ (sd_files (SD_MMC st') !! p = None
               ∧ ∃ item, item ∈ deleted
                         ∧ (p = filepath item ∨ p = manifest_path item)))
    ∧ (∀ item, item ∈ deleted → item ∈ uploaded_items (SD_MMC st))
    ∧ StronglySorted (λ a b, ¬ older b a) deleted
    ∧ (∀ item x, item ∈ deleted → x ∈ uploaded_items (SD_MMC st') →
                 ¬ older x item).
Proof.
  apply (enforce_retention_spec full_card_state).
  - reflexivity.
  - by vm_compute.
  - apply wf_card_stamped, wf_cardb_sound. by vm_compute.
Defined.

(** Scenario 5 of the specification: the photos of epochs 100 and 200 are
    deleted, in this order; then 15 percent are free and the sweep stops;
    the photo of epoch 300 and the pending photo stay. *)
Example enforce_retention_full_card :
  match enforce_retention full_card_state with
  | Some (st', deleted) =>
      map captured_epoch deleted = [100; 200]
      ∧ free_percent (SD_MMC st') = 15
      ∧ capture_paused st' = false
      ∧ map (λ m : PendingItem * string, (captured_epoch m.1, m.2))
          (manifests (SD_MMC st'))
        = [(300, "UPLOADED"); (150, "PENDING")]
  | None => False
  end.
Proof. by vm_compute. Qed.

(** ** What the storage and network code leaves of the other variables *)

Lemma write_manifest_atomic_card st sq fp ce stt ity cty ua la :
  ∃ c, (write_manifest_atomic st sq fp ce stt ity cty ua la).2 = set_SD_MMC c st.
Proof.
  destruct (write_manifest_atomic_frame st sq fp ce stt ity cty ua la) as [H _].
  eexists. exact H.
Qed.

(** A file on the card after [write_manifest_atomic] was there before, or
    is the manifest just written. *)
Lemma write_manifest_atomic_files st sq fp ce stt ity cty ua la p content :
  sd_files (SD_MMC (write_manifest_atomic st sq fp ce stt ity cty ua la).2) !! p
  = Some content →
  sd_files (SD_MMC st) !! p = Some content
  ∨ (p = manifest_final_path sq
     ∧ content = manifest_payload sq fp ce stt ity cty ua la).
Proof.
  destruct (sd_ok st) eqn:Hsd.
  - rewrite write_manifest_atomic_mounted by done.
    destruct (SD_is_dir _ _); cbn [snd SD_MMC set_SD_MMC sd_files with_files].
    + intros [_ [_ H]%lookup_delete_Some]%lookup_delete_Some. by left.
    + intros [[<- <-]|[_ [_ H]%lookup_delete_Some]]%lookup_insert_Some;
        [by right|by left].
  - rewrite write_manifest_atomic_unmounted by done. by left.
Qed.

Lemma upload_one_pending_card DEVICE_TOKEN st w net :
  ∃ c, (upload_one_pending DEVICE_TOKEN st w net).2 = set_SD_MMC c st.
Proof.
  assert (Hid : ∃ c, st = set_SD_MMC c st) by (exists (SD_MMC st); by destruct st).
  unfold upload_one_pending. destruct (_ || _); [done|].
  destruct (find_oldest_pending_frame st w) as [c Hc].
  destruct (find_oldest_pending st w) as [[found item] st1].
  cbn [snd] in Hc. subst st1. destruct found; [|by eexists].
  assert (Hup : ∀ c0 status ua la,
            ∃ c', update_manifest_status (set_SD_MMC c0 st) item status ua la
                  = set_SD_MMC c' st).
  { intros c0 status ua la. unfold update_manifest_status.
    destruct (write_manifest_atomic_card (set_SD_MMC c0 st) (seq item)
                (filepath item) (captured_epoch item) status (item_type item)
                (content_type item) ua la) as [c' ->]. by exists c'. }
  destruct (Hup c "PENDING" (upload_attempts item + 1)
              (now_epoch (set_SD_MMC c st) w)) as [c1 ->].
  assert (Hfail : ∃ c', record_failure (set_SD_MMC c1 st) item
                          (now_epoch (set_SD_MMC c st) w) = set_SD_MMC c' st).
  { unfold record_failure. destruct (_ <=? _); apply Hup. }
  destruct (request_upload_target _ _ _) as [[[[host port] path] key]|]; [|done].
  destruct (negb (stream_upload _ _ _)); [done|].
  destruct (negb (notify_ingest _)); [done|]. apply Hup.
Qed.

Lemma upload_batch_audio DEVICE_TOKEN st w :
  audio (upload_batch DEVICE_TOKEN st w) = audio st.
Proof.
  unfold upload_batch. generalize (w_uploads w) as nets.
  generalize UPLOAD_BATCH_SIZE as n. intros n. revert st.
  induction n as [|n IH]; intros st nets; [done|].
  cbn [upload_batch_from].
  destruct (upload_one_pending_card DEVICE_TOKEN st w (hd no_network nets))
    as [c Hc].
  destruct (upload_one_pending _ _ _ _) as [[] st']; cbn [snd] in Hc; subst st';
    [by rewrite IH|done].
Qed.

Lemma retention_loop_audio fuel st free_pct deletions r :
  retention_loop fuel st free_pct deletions = Some r → audio r.1.1 = audio st.
Proof.
  revert st free_pct deletions.
  induction fuel as [|fuel IH]; intros st free_pct deletions;
    cbn [retention_loop]; (destruct (negb _); [by intros [= <-]|]); [done|].
  destruct (find_oldest_uploaded st) as [[] item]; [|by intros [= <-]].
  by intros ->%IH.
Qed.

Lemma enforce_retention_audio st r :
  enforce_retention st = Some r → audio r.1 = audio st.
Proof.
  unfold enforce_retention. destruct (negb _); [by intros [= <-]|].
  destruct (_ <=? _); [by intros [= <-]|].
  destruct (retention_loop _ _ _ _) as [[[st' pct] dels]|] eqn:Hloop; [|done].
  intros [= <-]. by apply retention_loop_audio in Hloop.
Qed.

(** ** The phases of [loop()] and the audio variables *)

Lemma loop_wifi_audio st w : audio (loop_wifi st w) = audio st.
Proof. unfold loop_wifi. by destruct (_ && _). Qed.

Lemma loop_ntp_audio st w : audio (loop_ntp st w) = audio st.
Proof. unfold loop_ntp. by destruct (_ && _). Qed.

Lemma loop_tail_audio DEVICE_TOKEN st w :
  audio (loop_tail DEVICE_TOKEN st w) = audio st.
Proof.
  unfold loop_tail.
  assert (H1 : audio (loop_upload DEVICE_TOKEN st w) = audio st).
  { unfold loop_upload. destruct (_ && _); [|done]. apply upload_batch_audio. }
  assert (H2 : ∀ s, audio (loop_retention s w) = audio s).
  { intros s. unfold loop_retention. destruct (_ && _); [|done].
    destruct (enforce_retention s) as [[s' d]|] eqn:He; [|done].
    by apply enforce_retention_audio in He. }
  assert (H3 : ∀ s, audio (loop_telemetry s w) = audio s).
  { intros s. unfold loop_telemetry. by destruct (_ && _). }
  by rewrite H3, H2, H1.
Qed.

(** [capture_and_save] leaves the audio variables alone, or raises the
    photo-clip flag while audio is idle. *)
Lemma capture_and_save_audio st w :
  audio (capture_and_save st w).2 = audio st
  ∨ (audio_ok st = true ∧ audio_recording (audio st) = false
     ∧ (capture_and_save st w).1 = true
     ∧ audio (capture_and_save st w).2
       = a_photo_clip true (now_epoch st w) (audio st)).
Proof.
  unfold capture_and_save.
  destruct (_ || _); [by left|]. destruct (capture_paused st); [by left|].
  destruct (w_camera_fb w) as [fb_len|]; [|by left].
  cbn [get_next_seq]. cbv zeta.
  set (st1 := set_prefs_seq _ st).
  set (st2 := if negb (SD_exists (SD_MMC st1) (build_date_folder st1 w))
              then set_SD_MMC (SD_mkdir (SD_MMC st1) (build_date_folder st1 w)) st1
              else st1).
  assert (H2 : ∃ c, st2 = set_SD_MMC c st1).
  { unfold st2. destruct (negb _); [by eexists|].
    exists (SD_MMC st1). by destruct st. }
  destruct H2 as [c2 H2]. clearbody st2. subst st2.
  destruct (negb (w_photo_open_ok w)); [by left|].
  destruct (negb (_ =? _)); [by left|].
  match goal with
  | |- context [write_manifest_atomic ?s ?a ?b ?c ?d ?e ?f ?g ?h] =>
      destruct (write_manifest_atomic_card s a b c d e f g h) as [c3 ->]
  end.
  cbn [set_SD_MMC audio_ok audio SD_MMC set_prefs_seq st1].
  destruct (audio_ok st) eqn:Hok; [|by left].
  unfold AUDIO_PHOTO_CLIP_ENABLED. cbn [andb].
  destruct (audio_recording (audio st)) eqn:Hr; [by left|].
  right. done.
Qed.

Lemma loop_capture_audio st w :
  audio (loop_capture st w) = audio st
  ∨ (audio_ok st = true ∧ audio_recording (audio st) = false
     ∧ audio (loop_capture st w) = a_photo_clip true (now_epoch st w) (audio st)).
Proof.
  unfold loop_capture. destruct (_ <=? _); [|by left].
  destruct (capture_and_save_audio st w) as [H|(Hok & Hr & _ & H)];
    [by left|by right].
Qed.

Lemma loop_connect_capture_audio st w :
  audio (loop_connect_capture st w) = audio st
  ∨ (audio_recording (audio st) = false
     ∧ ∃ epoch, audio (loop_connect_capture st w)
                = a_photo_clip true epoch (audio st)).
Proof.
  unfold loop_connect_capture.
  destruct (loop_capture_audio (loop_ntp (loop_wifi st w) w) w)
    as [H|(_ & Hr & H)]; rewrite H, !loop_ntp_audio, !loop_wifi_audio in *;
    [by left|right; eauto].
Qed.

Lemma loop_heartbeat_audio st w :
  audio (loop_heartbeat st w) = audio st
  ∨ (audio_recording (audio st) = false
     ∧ audio_heartbeat_pending (audio st) = false
     ∧ AUDIO_HEARTBEAT_INTERVAL_MS
       <= ulong_sub (to_uint32 (w_millis w)) (last_audio_heartbeat (audio st))
     ∧ audio (loop_heartbeat st w)
       = a_heartbeat true (to_uint32 (w_millis w)) (audio st)).
Proof.
  unfold loop_heartbeat. destruct (_ && AUDIO_HEARTBEAT_ENABLED); [|by left].
  destruct (audio_recording (audio st)); [by left|].
  destruct (audio_heartbeat_pending (audio st)); [by left|].
  cbn [negb andb]. destruct (Z.leb_spec AUDIO_HEARTBEAT_INTERVAL_MS
    (ulong_sub (to_uint32 (w_millis w)) (last_audio_heartbeat (audio st))));
    [by right|by left].
Qed.

(** While a recording is going on, the rest of [loop()] leaves the audio
    variables alone. *)
Lemma loop_after_tick_recording DEVICE_TOKEN st w :
  audio_recording (audio st) = true →
  audio (loop_after_tick DEVICE_TOKEN st w) = audio st.
Proof.
  intros Hr. unfold loop_after_tick. rewrite loop_tail_audio.
  destruct (loop_connect_capture_audio st w) as [H1|[H1 _]]; [|congruence].
  destruct (loop_heartbeat_audio (loop_connect_capture st w) w)
    as [H2|[H2 _]]; congruence.
Qed.

(** The rest of [loop()] neither starts nor stops a recording. *)
Lemma loop_after_tick_keeps DEVICE_TOKEN st w :
  audio_recording (audio (loop_after_tick DEVICE_TOKEN st w))
  = audio_recording (audio st).
Proof.
  unfold loop_after_tick. rewrite loop_tail_audio.
  destruct (loop_heartbeat_audio (loop_connect_capture st w) w)
    as [->|(_ & _ & _ & ->)];
    destruct (loop_connect_capture_audio st w) as [->|(_ & e & ->)]; done.
Qed.

(** ** Starting and finishing a recording *)

Lemma write_manifest_atomic_set_audio a st sq fp ce stt ity cty ua la :
  write_manifest_atomic (set_audio a st) sq fp ce stt ity cty ua la
  = ((write_manifest_atomic st sq fp ce stt ity cty ua la).1,
     set_audio a (write_manifest_atomic st sq fp ce stt ity cty ua la).2).
Proof.
  unfold write_manifest_atomic. cbn [sd_ok set_audio SD_MMC].
  destruct (negb (sd_ok st)); [done|]. cbv zeta.
  destruct (_ =? 0); [done|]. by destruct (SD_rename _ _ _) as [[] ?].
Qed.

(** [finish_audio_recording] on a recording that is going on: the file is
    closed and the recording variables are reset; the clip is unlinked, or
    its manifest is written. *)
Lemma finish_audio_recording_shape st keep :
  audio_recording (audio st) = true →
  let path := audio_filepath (audio st) in
  let kept := if audio_samples_written (audio st) <? AUDIO_MIN_SEC * AUDIO_SAMPLE_RATE
              then false else keep in
  finish_audio_recording st keep
  = set_SD_MMC
      (if negb kept || isEmpty path then
         if negb (isEmpty path) && SD_exists (SD_MMC st) path
         then SD_remove (SD_MMC st) path else SD_MMC st
       else SD_MMC (write_manifest_atomic st (audio_seq (audio st)) path
                      (audio_start_epoch (audio st)) "PENDING" "audio"
                      "audio/wav" 0 0).2)
      (upd_audio (λ a, a_reset (a_file false "" a)) st).
Proof.
  intros Hr path kept. unfold finish_audio_recording. rewrite Hr. cbn [negb].
  cbv zeta. fold kept.
  assert (Hsame : ∀ s, audio_file (audio st) = false →
            upd_audio a_reset (set_SD_MMC s st)
            = set_SD_MMC s (upd_audio (λ a, a_reset (a_file false "" a)) st)).
  { intros s Hf. unfold upd_audio, a_reset, a_file, set_SD_MMC, set_audio.
    cbn. by rewrite Hf. }
  destruct (audio_file (audio st)) eqn:Hf.
  - cbn [upd_audio audio set_audio a_file audio_filepath audio_seq
         audio_start_epoch SD_MMC]. fold path.
    destruct (negb kept || isEmpty path).
    + by destruct (_ && _).
    + unfold upd_audio at 2. rewrite write_manifest_atomic_set_audio. cbn [snd].
      destruct (write_manifest_atomic_card st (audio_seq (audio st)) path
                  (audio_start_epoch (audio st)) "PENDING" "audio" "audio/wav"
                  0 0) as [c ->]. done.
  - fold path. destruct (negb kept || isEmpty path).
    + destruct (_ && _); [by rewrite Hsame|].
      rewrite <- Hsame by done. by destruct st.
    + destruct (write_manifest_atomic_card st (audio_seq (audio st)) path
                  (audio_start_epoch (audio st)) "PENDING" "audio" "audio/wav"
                  0 0) as [c ->]. by rewrite Hsame.
Qed.

(** Whatever the state, [finish_audio_recording] leaves no recording going
    on and keeps both pending flags. *)
Lemma finish_audio_recording_flags st keep :
  let st' := finish_audio_recording st keep in
  audio_recording (audio st') = false
  ∧ audio_photo_clip_pending (audio st') = audio_photo_clip_pending (audio st)
  ∧ audio_heartbeat_pending (audio st') = audio_heartbeat_pending (audio st).
Proof.
  destruct (audio_recording (audio st)) eqn:Hr.
  - by rewrite finish_audio_recording_shape.
  - unfold finish_audio_recording. by rewrite Hr.
Qed.

(** A file on the card after [finish_audio_recording] was there before, or
    is the manifest of the recording. *)
Lemma finish_audio_recording_files st keep p content :
  audio_recording (audio st) = true →
  sd_files (SD_MMC (finish_audio_recording st keep)) !! p = Some content →
  sd_files (SD_MMC st) !! p = Some content
  ∨ (p = manifest_final_path (audio_seq (audio st))
     ∧ content = recording_manifest st).
Proof.
  intros Hr. rewrite finish_audio_recording_shape by done.
  cbn [SD_MMC set_SD_MMC]. destruct (_ || _).
  - destruct (_ && _); [|by left]. cbn [SD_remove sd_files with_files].
    intros [_ H]%lookup_delete_Some. by left.
  - apply write_manifest_atomic_files.
Qed.

Lemma ensure_audio_folder_card st w folder :
  ∃ c, (ensure_audio_folder st w folder).2 = set_SD_MMC c st
       ∧ sd_files c = sd_files (SD_MMC st).
Proof.
  assert (Hid : ∃ c, st = set_SD_MMC c st ∧ sd_files c = sd_files (SD_MMC st)).
  { exists (SD_MMC st). by destruct st. }
  assert (Hmk : ∀ c path, sd_files c = sd_files (SD_MMC st) →
            ∃ c', (audio_mkdir w (set_SD_MMC c st) path).2 = set_SD_MMC c' st
                  ∧ sd_files c' = sd_files (SD_MMC st)).
  { intros c path Hc. unfold audio_mkdir. destruct (w_audio_mkdir_ok w); cbn [snd].
    - by exists (SD_mkdir c path).
    - by exists c. }
  assert (Hmk' : ∀ path,
            ∃ c', (audio_mkdir w st path).2 = set_SD_MMC c' st
                  ∧ sd_files c' = sd_files (SD_MMC st)).
  { intros path. unfold audio_mkdir. destruct (w_audio_mkdir_ok w); cbn [snd].
    - by exists (SD_mkdir (SD_MMC st) path).
    - done. }
  unfold ensure_audio_folder. destruct (negb (sd_ok st)); [done|].
  destruct (String.eqb _ _); [destruct (negb _); [apply Hmk'|done]|].
  destruct (String.prefix _ _); [|destruct (negb _); [apply Hmk'|done]].
  destruct (negb (SD_exists (SD_MMC st) "/audio")).
  - destruct (Hmk' "/audio") as (c & Hc & Hf).
    destruct (audio_mkdir w st "/audio") as [[] st1]; cbn [snd] in Hc; subst st1;
      [|by exists c].
    destruct (negb _); [by apply Hmk|by exists c].
  - destruct (negb _); [apply Hmk'|done].
Qed.

Lemma build_audio_path_nonempty st w name :
  isEmpty (build_audio_folder st w +:+ name) = false.
Proof. unfold build_audio_folder. by destruct (negb _). Qed.

(** [start_audio_recording] keeps both pending flags.  From an idle state:
    when it returns true a recording is going on, stamped with the adjusted
    start epoch; when it returns false none is, and no file has been added
    to the card. *)
Lemma start_audio_recording_spec st w count epoch force :
  let r := start_audio_recording st w count epoch force in
  audio_photo_clip_pending (audio r.2) = audio_photo_clip_pending (audio st)
  ∧ audio_heartbeat_pending (audio r.2) = audio_heartbeat_pending (audio st)
  ∧ (audio_recording (audio st) = false →
     if r.1 then
       audio_recording (audio r.2) = true
       ∧ audio_start_epoch (audio r.2)
         = adjust_start_epoch (if epoch >? 0 then epoch else now_epoch st w)
       ∧ audio_force_active (audio r.2) = (force >? 0)
     else
       audio_recording (audio r.2) = false
       ∧ ∀ p content, sd_files (SD_MMC r.2) !! p = Some content →
                      sd_files (SD_MMC st) !! p = Some content).
Proof.
  unfold start_audio_recording.
  destruct (_ || _); [done|].
  destruct (audio_recording (audio st)) eqn:Hr; [done|].
  cbn [get_next_seq]. cbv zeta.
  set (st1 := upd_audio _ _).
  destruct (ensure_audio_folder_card st1 w (build_audio_folder st1 w))
    as (c & Hc & Hfiles).
  destruct (ensure_audio_folder _ _ _) as [[] st2]; cbn [snd] in Hc; subst st2.
  2:{ cbn. rewrite Hr, Hfiles. done. }
  destruct (negb (w_audio_open_ok w)).
  { cbn. rewrite Hfiles. done. }
  set (path := build_audio_folder _ _ +:+ build_audio_filename _ _ _).
  unfold write_audio_frame.
  cbn [upd_audio audio set_audio a_recording a_vad_under a_samples_written
       a_file audio_file negb].
  destruct (negb (w_audio_write_ok w)).
  - cbn [fst snd].
    match goal with
    | |- context [finish_audio_recording ?s false] => set (st3 := s)
    end.
    pose proof (finish_audio_recording_flags st3 false) as (Hf1 & Hf2 & Hf3).
    cbv zeta in Hf1, Hf2, Hf3. rewrite Hf1, Hf2, Hf3.
    split_and!; [done|done|]. intros _. split; [done|].
    intros p content. rewrite finish_audio_recording_shape by done.
    replace (if audio_samples_written _ <? _ then false else false) with false
      by (by destruct (_ <? _)).
    change (audio_filepath (audio st3)) with path.
    change (SD_MMC st3) with (SD_write c path "").
    cbn [negb orb SD_MMC set_SD_MMC].
    assert (Hpath : isEmpty path = false) by apply build_audio_path_nonempty.
    rewrite Hpath.
    assert (Hex : SD_exists (SD_write c path "") path = true).
    { unfold SD_exists, SD_is_file, SD_write. cbn [sd_files with_files].
      rewrite lookup_insert_eq. by rewrite bool_decide_eq_true_2. }
    cbn [negb andb]. rewrite Hex. cbn [SD_remove SD_write sd_files with_files].
    intros [Hne H]%lookup_delete_Some.
    rewrite lookup_insert_ne, Hfiles in H by done. exact H.
  - cbn. done.
Qed.

(** ** audio_tick *)

(** On an idle state with a forced start pending, [audio_tick] is the
    forced start, attempted once the flag has been cleared. *)
Lemma audio_tick_forced st w :
  frame_read st w = true → audio_recording (audio st) = false →
  audio_photo_clip_pending (audio st) || audio_heartbeat_pending (audio st) = true →
  audio_tick st w = (forced_start st w).2.
Proof.
  unfold frame_read, audio_tick, forced_start.
  intros [[-> ->]%andb_true_iff ->%negb_true_iff]%andb_true_iff -> Hp.
  cbn [negb]. destruct (audio_photo_clip_pending (audio st)); [done|].
  cbn [orb] in Hp. by rewrite Hp.
Qed.

Lemma preroll_push_audio st count :
  audio_recording (audio (preroll_push st count)) = audio_recording (audio st)
  ∧ audio_force_active (audio (preroll_push st count)) = audio_force_active (audio st)
  ∧ audio_photo_clip_pending (audio (preroll_push st count))
    = audio_photo_clip_pending (audio st)
  ∧ audio_heartbeat_pending (audio (preroll_push st count))
    = audio_heartbeat_pending (audio st).
Proof. unfold preroll_push. by destruct (_ || _). Qed.

(** The idle branch with no forced start pending: the flags stay as they
    are, and a recording it starts is not a forced one. *)
Lemma audio_tick_vad_idle_spec st w count :
  audio_recording (audio st) = false →
  let st' := audio_tick_vad_idle st w count in
  audio_photo_clip_pending (audio st') = audio_photo_clip_pending (audio st)
  ∧ audio_heartbeat_pending (audio st') = audio_heartbeat_pending (audio st)
  ∧ forced_recording st' = false.
Proof.
  intros Hr. unfold audio_tick_vad_idle. cbv zeta.
  destruct (preroll_push_audio st count) as (Hp1 & _ & Hp3 & Hp4).
  rewrite Hr in Hp1.
  set (st1 := if w_rms_over_start w then _ else _).
  assert (H1 : audio_recording (audio st1) = false
               ∧ audio_photo_clip_pending (audio st1)
                 = audio_photo_clip_pending (audio st)
               ∧ audio_heartbeat_pending (audio st1)
                 = audio_heartbeat_pending (audio st)).
  { unfold st1. by destruct (w_rms_over_start w). }
  destruct H1 as (Hr1 & <- & <-). clearbody st1.
  unfold forced_recording.
  destruct (_ <=? _); [|by rewrite Hr1].
  pose proof (start_audio_recording_spec st1 w count (now_epoch st1 w) 0)
    as (Hs1 & Hs2 & Hs3).
  cbv zeta in Hs1, Hs2, Hs3. specialize (Hs3 Hr1).
  destruct (start_audio_recording _ _ _ _ _) as [[] st2]; cbn [fst snd] in *.
  - destruct Hs3 as (_ & _ & Hf). cbn. rewrite Hf. by rewrite andb_false_r.
  - destruct Hs3 as [-> _]. done.
Qed.

(** The recording branch: the recording goes on with its seq, path, start
    epoch and kind unchanged, or it has ended and every file on the card
    was there before or is the manifest of this recording. *)
Lemma audio_tick_recording_spec st w count :
  audio_recording (audio st) = true →
  let st' := audio_tick_recording st w count in
  audio_photo_clip_pending (audio st') = audio_photo_clip_pending (audio st)
  ∧ audio_heartbeat_pending (audio st') = audio_heartbeat_pending (audio st)
  ∧ ((audio_recording (audio st') = true
      ∧ audio_seq (audio st') = audio_seq (audio st)
      ∧ audio_filepath (audio st') = audio_filepath (audio st)
      ∧ audio_start_epoch (audio st') = audio_start_epoch (audio st)
      ∧ audio_force_active (audio st') = audio_force_active (audio st))
     ∨ (audio_recording (audio st') = false
        ∧ ∀ p content,
            sd_files (SD_MMC st') !! p = Some content →
            sd_files (SD_MMC st) !! p = Some content
            ∨ (p = manifest_final_path (audio_seq (audio st))
               ∧ content = recording_manifest st))).
Proof.
  intros Hr.
  assert (Hfin : ∀ s keep,
            audio_recording (audio s) = true → SD_MMC s = SD_MMC st →
            audio_photo_clip_pending (audio s) = audio_photo_clip_pending (audio st) →
            audio_heartbeat_pending (audio s) = audio_heartbeat_pending (audio st) →
            audio_seq (audio s) = audio_seq (audio st) →
            recording_manifest s = recording_manifest st →
            let st' := finish_audio_recording s keep in
            audio_photo_clip_pending (audio st') = audio_photo_clip_pending (audio st)
            ∧ audio_heartbeat_pending (audio st') = audio_heartbeat_pending (audio st)
            ∧ ((audio_recording (audio st') = true
                ∧ audio_seq (audio st') = audio_seq (audio st)
                ∧ audio_filepath (audio st') = audio_filepath (audio st)
                ∧ audio_start_epoch (audio st') = audio_start_epoch (audio st)
                ∧ audio_force_active (audio st') = audio_force_active (audio st))
               ∨ (audio_recording (audio st') = false
                  ∧ ∀ p content,
                      sd_files (SD_MMC st') !! p = Some content →
                      sd_files (SD_MMC st) !! p = Some content
                      ∨ (p = manifest_final_path (audio_seq (audio st))
                         ∧ content = recording_manifest st)))).
  { intros s keep Hrs Hcard Hp Hh Hseq Hman.
    pose proof (finish_audio_recording_flags s keep) as (Hf1 & Hf2 & Hf3).
    cbv zeta in *. rewrite Hf2, Hf3. split_and!; [done|done|]. right.
    split; [done|]. intros p content Hfile.
    apply finish_audio_recording_files in Hfile; [|done].
    by rewrite Hcard, Hseq, Hman in Hfile. }
  unfold audio_tick_recording, write_audio_frame.
  destruct (negb (audio_file (audio st))); [by apply Hfin|].
  destruct (negb (w_audio_write_ok w)); [by apply Hfin|].
  set (st1 := upd_audio _ st).
  destruct (audio_force_active (audio st1)) eqn:Hfa.
  - destruct (_ && _); [by apply Hfin|]. split_and!; [done|done|]. by left.
  - set (st2 := if w_rms_under_stop w then _ else _).
    assert (H2 : audio st2 = a_vad_under (vad_under_count (audio st2)) (audio st1)
                 ∧ SD_MMC st2 = SD_MMC st).
    { unfold st2. by destruct (w_rms_under_stop w). }
    destruct H2 as [Ha Hc]. clearbody st2.
    destruct (_ || _).
    + apply Hfin; try done; try (by rewrite Ha).
      unfold recording_manifest. by rewrite Ha.
    + rewrite Ha. split_and!; [done|done|]. by left.
Qed.

(** [audio_tick] raises neither pending flag. *)
Lemma audio_tick_flags st w :
  (audio_photo_clip_pending (audio st) = false →
   audio_photo_clip_pending (audio (audio_tick st w)) = false)
  ∧ (audio_heartbeat_pending (audio st) = false →
     audio_heartbeat_pending (audio (audio_tick st w)) = false).
Proof.
  unfold audio_tick. destruct (negb (audio_ok st)); [done|].
  destruct (negb (w_i2s_ok w)); [done|]. cbv zeta.
  destruct (_ =? 0); [done|].
  destruct (audio_recording (audio st)) eqn:Hr; cbn [negb].
  - pose proof (audio_tick_recording_spec st w (w_bytes_read w / 2) Hr)
      as (-> & -> & _). done.
  - destruct (audio_photo_clip_pending (audio st)) eqn:Hp.
    + match goal with
      | |- context [start_audio_recording ?s ?w ?n ?e ?f] =>
          pose proof (start_audio_recording_spec s w n e f) as (-> & -> & _)
      end. done.
    + destruct (audio_heartbeat_pending (audio st)) eqn:Hh.
      * match goal with
        | |- context [start_audio_recording ?s ?w ?n ?e ?f] =>
            pose proof (start_audio_recording_spec s w n e f) as (-> & -> & _)
        end. cbn. by rewrite Hp.
      * pose proof (audio_tick_vad_idle_spec st w (w_bytes_read w / 2) Hr)
          as (-> & -> & _). by rewrite Hp, Hh.
Qed.

(** With no forced start pending and no forced recording going on,
    [audio_tick] begins no forced recording. *)
Lemma audio_tick_unforced st w :
  forced_recording st = false →
  audio_photo_clip_pending (audio st) = false →
  audio_heartbeat_pending (audio st) = false →
  forced_recording (audio_tick st w) = false.
Proof.
  intros Hf Hp Hh. unfold audio_tick. destruct (negb (audio_ok st)); [done|].
  destruct (negb (w_i2s_ok w)); [done|]. cbv zeta.
  destruct (_ =? 0); [done|].
  destruct (audio_recording (audio st)) eqn:Hr; cbn [negb].
  - pose proof (audio_tick_recording_spec st w (w_bytes_read w / 2) Hr)
      as (_ & _ & [(_ & _ & _ & _ & Hfa)|[Hr' _]]);
      unfold forced_recording in *; [|by rewrite Hr'].
    rewrite Hfa. rewrite Hr in Hf. cbn [andb] in Hf. rewrite Hf.
    apply andb_false_r.
  - rewrite Hp, Hh.
    by pose proof (audio_tick_vad_idle_spec st w (w_bytes_read w / 2) Hr)
      as (_ & _ & ?).
Qed.

Lemma audio_ticks_flags ws st :
  (audio_photo_clip_pending (audio st) = false →
   audio_photo_clip_pending (audio (audio_ticks st ws)) = false)
  ∧ (audio_heartbeat_pending (audio st) = false →
     audio_heartbeat_pending (audio (audio_ticks st ws)) = false).
Proof.
  revert st. induction ws as [|w ws IH]; intros st; [done|].
  unfold audio_ticks in *. cbn [foldl].
  destruct (audio_tick_flags st w) as [H1 H2].
  destruct (IH (audio_tick st w)) as [H3 H4]. split; auto.
Qed.

Lemma audio_ticks_unforced ws st :
  forced_recording st = false →
  audio_photo_clip_pending (audio st) = false →
  audio_heartbeat_pending (audio st) = false →
  forced_recording (audio_ticks st ws) = false.
Proof.
  revert st. induction ws as [|w ws IH]; intros st Hf Hp Hh; [done|].
  unfold audio_ticks in *. cbn [foldl].
  destruct (audio_tick_flags st w) as [H1 H2].
  apply IH; [by apply audio_tick_unforced|auto..].
Qed.

(** [audio_tick] on a recording that is going on. *)
Lemma audio_tick_on_recording st w :
  audio_recording (audio st) = true →
  let st' := audio_tick st w in
  (audio_recording (audio st') = true
   ∧ audio_seq (audio st') = audio_seq (audio st)
   ∧ audio_filepath (audio st') = audio_filepath (audio st)
   ∧ audio_start_epoch (audio st') = audio_start_epoch (audio st)
   ∧ audio_force_active (audio st') = audio_force_active (audio st))
  ∨ (audio_recording (audio st') = false
     ∧ ∀ p content,
         sd_files (SD_MMC st') !! p = Some content →
         sd_files (SD_MMC st) !! p = Some content
         ∨ (p = manifest_final_path (audio_seq (audio st))
            ∧ content = recording_manifest st)).
Proof.
  intros Hr. unfold audio_tick. destruct (negb (audio_ok st)); [by left|].
  destruct (negb (w_i2s_ok w)); [by left|]. cbv zeta.
  destruct (_ =? 0); [by left|]. rewrite Hr. cbn [negb].
  by pose proof (audio_tick_recording_spec st w (w_bytes_read w / 2) Hr)
    as (_ & _ & ?).
Qed.

Lemma loop_recording DEVICE_TOKEN st w :
  audio_recording (audio (loop DEVICE_TOKEN st w))
  = audio_recording (audio (audio_tick st w)).
Proof. apply loop_after_tick_keeps. Qed.

Lemma keeps_recording_run DEVICE_TOKEN st0 ws st :
  keeps_recording DEVICE_TOKEN st0 st →
  recording_throughout DEVICE_TOKEN st ws = true →
  keeps_recording DEVICE_TOKEN st0 (foldl (loop DEVICE_TOKEN) st ws).
Proof.
  revert st. induction ws as [|w ws IH]; intros st Hk Hrun; [done|].
  cbn [foldl recording_throughout] in *.
  apply andb_true_iff in Hrun as [_ Hrun]. apply IH; [|done].
  constructor; [done|]. destruct ws; cbn in Hrun; [done|].
  by apply andb_true_iff in Hrun as [? _].
Qed.

Lemma adjust_start_epoch_spec epoch :
  adjust_start_epoch epoch = if 1 <? epoch then epoch - 1 else epoch.
Proof.
  unfold adjust_start_epoch, AUDIO_PREROLL_MS.
  change (1000 / 1000) with 1. cbn [Z.eqb]. by rewrite Z.gtb_ltb.
Qed.

(** ** C6: raising the pending flags *)

(** C6 as stated fails: after [setup()] and a pass in which the audio file
    of the boot photo's clip cannot be opened, a pass at 300000 ms takes a
    photo, which raises the photo-clip flag, and then raises the heartbeat
    flag although that photo clip is pending. *)
Lemma heartbeat_raised_over_photo_clip :
  let st := loop "token" booted_state (open_failure (quiet_world 2000 1000)) in
  let w := quiet_world 300000 1300 in
  let before := loop_connect_capture (audio_tick st w) w in
  reachable "token" st
  ∧ audio_recording (audio before) = false
  ∧ audio_photo_clip_pending (audio before) = true
  ∧ audio_heartbeat_pending (audio before) = false
  ∧ audio_heartbeat_pending (audio (loop_heartbeat before w)) = true
  ∧ audio_photo_clip_pending (audio (loop "token" st w)) = true
  ∧ audio_heartbeat_pending (audio (loop "token" st w)) = true.
Proof.
  split; [|by vm_compute].
  apply reachable_loop, reachable_setup. lia.
Qed.

(** C6, as amended: in a pass of [loop()] from any state, [audio_tick]
    raises neither flag, and the Wi-Fi and NTP steps leave the audio
    variables alone; the photo capture raises the photo-clip flag only
    when audio is not recording and leaves the heartbeat flag alone; the
    heartbeat check raises the heartbeat flag only when audio is not
    recording and no heartbeat is pending yet (a photo clip may be
    pending), and leaves the photo-clip flag alone; upload, retention and
    telemetry leave the audio variables alone. *)
Theorem pending_flags_raised_when_idle DEVICE_TOKEN st w :
  let s1 := audio_tick st w in
  let s2 := loop_ntp (loop_wifi s1 w) w in
  let s3 := loop_capture s2 w in
  let s4 := loop_heartbeat s3 w in
  loop DEVICE_TOKEN st w = loop_tail DEVICE_TOKEN s4 w
  ∧ (audio_photo_clip_pending (audio st) = false →
     audio_photo_clip_pending (audio s1) = false)
  ∧ (audio_heartbeat_pending (audio st) = false →
     audio_heartbeat_pending (audio s1) = false)
  ∧ audio s2 = audio s1
  ∧ (audio_photo_clip_pending (audio s2) = false →
     audio_photo_clip_pending (audio s3) = true →
     audio_recording (audio s2) = false)
  ∧ audio_heartbeat_pending (audio s3) = audio_heartbeat_pending (audio s2)
  ∧ audio_photo_clip_pending (audio s4) = audio_photo_clip_pending (audio s3)
  ∧ (audio_heartbeat_pending (audio s3) = false →
     audio_heartbeat_pending (audio s4) = true →
     audio_recording (audio s3) = false)
  ∧ audio (loop DEVICE_TOKEN st w) = audio s4.
Proof.
  intros s1 s2 s3 s4.
  destruct (audio_tick_flags st w) as [Ht1 Ht2].
  split_and!; [done|done|done| | | | | |].
  - unfold s2. by rewrite loop_ntp_audio, loop_wifi_audio.
  - intros Hp Hp'. unfold s3 in Hp'.
    destruct (loop_capture_audio s2 w) as [H|(_ & Hr & _)]; [|done].
    rewrite H in Hp'. congruence.
  - unfold s3. by destruct (loop_capture_audio s2 w) as [->|(_ & _ & ->)].
  - unfold s4. by destruct (loop_heartbeat_audio s3 w) as [->|(_ & _ & _ & ->)].
  - intros Hh Hh'. unfold s4 in Hh'.
    destruct (loop_heartbeat_audio s3 w) as [H|(Hr & _)]; [|done].
    rewrite H in Hh'. congruence.
  - apply (loop_tail_audio DEVICE_TOKEN s4 w).
Qed.

Lemma pending_flags_raised_when_idle_witness :
  let st := loop "token" booted_state (open_failure (quiet_world 2000 1000)) in
  let w := quiet_world 300000 1300 in
  let s1 := audio_tick st w in
  let s2 := loop_ntp (loop_wifi s1 w) w in
  let s3 := loop_capture s2 w in
  let s4 := loop_heartbeat s3 w in
  (audio_photo_clip_pending (audio s2) = false
   ∧ audio_photo_clip_pending (audio s3) = true
   ∧ audio_heartbeat_pending (audio s3) = false
   ∧ audio_heartbeat_pending (audio s4) = true)
  ∧ (loop "token" st w = loop_tail "token" s4 w
     ∧ (audio_photo_clip_pending (audio st) = false →
        audio_photo_clip_pending (audio s1) = false)
     ∧ (audio_heartbeat_pending (audio st) = false →
        audio_heartbeat_pending (audio s1) = false)
     ∧ audio s2 = audio s1
     ∧ (audio_photo_clip_pending (audio s2) = false →
        audio_photo_clip_pending (audio s3) = true →
        audio_recording (audio s2) = false)
     ∧ audio_heartbeat_pending (audio s3) = audio_heartbeat_pending (audio s2)
     ∧ audio_photo_clip_pending (audio s4) = audio_photo_clip_pending (audio s3)
     ∧ (audio_heartbeat_pending (audio s3) = false →
        audio_heartbeat_pending (audio s4) = true →
        audio_recording (audio s3) = false)
     ∧ audio (loop "token" st w) = audio s4).
Proof.
  split.
  - vm_compute. done.
  - apply (pending_flags_raised_when_idle "token"
             (loop "token" booted_state (open_failure (quiet_world 2000 1000)))
             (quiet_world 300000 1300)).
Defined.

(** ** C7: the epoch of a heartbeat clip *)

Lemma audio_tick_no_frame st w : frame_read st w = false → audio_tick st w = st.
Proof.
  unfold frame_read, audio_tick. destruct (audio_ok st); [|done].
  destruct (w_i2s_ok w); [|done]. cbn. by intros ->%negb_false_iff.
Qed.

Lemma keeps_recording_same DEVICE_TOKEN st st' :
  keeps_recording DEVICE_TOKEN st st' →
  audio_recording (audio st) = true
  ∧ audio_recording (audio st') = true
  ∧ audio_seq (audio st') = audio_seq (audio st)
  ∧ audio_filepath (audio st') = audio_filepath (audio st)
  ∧ audio_start_epoch (audio st') = audio_start_epoch (audio st)
  ∧ audio_force_active (audio st') = audio_force_active (audio st).
Proof.
  induction 1 as [Hr|st' w Hk (Hr0 & Hr & Hs & Hf & He & Ha) Hr'];
    [done|].
  rewrite loop_recording in Hr'. unfold loop.
  rewrite loop_after_tick_recording by done.
  destruct (audio_tick_on_recording st' w Hr)
    as [(_ & -> & -> & -> & ->)|[Hr'' _]]; [done|congruence].
Qed.

(** C7 as stated fails: a heartbeat clip triggered at epoch 1000 gets a
    manifest whose [captured_at_epoch] is 999; the preroll second has been
    taken off. *)
Lemma heartbeat_epoch_is_adjusted :
  let st := heartbeat_due_state in
  let w := quiet_world 0 1000 in
  let st' := foldl (loop "token") st (replicate 150 w) in
  (audio_recording (audio st) = false
   ∧ audio_photo_clip_pending (audio st) = false
   ∧ audio_heartbeat_pending (audio st) = true
   ∧ now_epoch st w = 1000)
  ∧ forced_recording (loop "token" st w) = true
  ∧ audio_start_epoch (audio (loop "token" st w)) = 999
  ∧ (λ m, (item_type m.1, captured_epoch m.1, m.2))
      <$> manifest_at (SD_MMC st') "10.json"
    = Some ("audio", 999, "PENDING").
Proof. by vm_compute. Qed.

(** C7, as amended: when a pass of [loop()] from an idle state with the
    heartbeat flag raised and no photo clip pending starts a recording, this
    recording is a forced one whose start epoch is
    [adjust_start_epoch] of the epoch current at that pass, that is, this
    epoch less the preroll seconds whenever it exceeds them.  It keeps this
    start epoch for as long as it goes on, and in the tick that ends it
    every file on the card was there before or is the manifest of the
    recording, printed with this adjusted epoch as [captured_at_epoch]. *)
Theorem heartbeat_manifest_epoch DEVICE_TOKEN st w st1 w1 :
  audio_recording (audio st) = false →
  audio_photo_clip_pending (audio st) = false →
  audio_heartbeat_pending (audio st) = true →
  keeps_recording DEVICE_TOKEN (loop DEVICE_TOKEN st w) st1 →
  audio_recording (audio (audio_tick st1 w1)) = false →
  let now := now_epoch st w in
  let preroll_sec := AUDIO_PREROLL_MS / 1000 in
  let epoch := adjust_start_epoch now in
  (preroll_sec < now → epoch = now - preroll_sec)
  ∧ forced_recording st1 = true
  ∧ audio_start_epoch (audio st1) = epoch
  ∧ ∀ p content,
      sd_files (SD_MMC (audio_tick st1 w1)) !! p = Some content →
      sd_files (SD_MMC st1) !! p = Some content
      ∨ (p = manifest_final_path (audio_seq (audio st1))
         ∧ content = manifest_payload (audio_seq (audio st1))
                       (audio_filepath (audio st1)) epoch
                       "PENDING" "audio" "audio/wav" 0 0).
Proof.
  intros Hr Hp Hh Hk Hend now preroll_sec epoch.
  destruct (keeps_recording_same _ _ _ Hk) as (Hr0 & Hr1 & Hs & Hf & He & Ha).
  rewrite loop_recording in Hr0.
  assert (Hstart : audio_start_epoch (audio (audio_tick st w)) = epoch
                   ∧ audio_force_active (audio (audio_tick st w)) = true).
  { destruct (frame_read st w) eqn:Hfr;
      [|rewrite audio_tick_no_frame in Hr0 by done; congruence].
    rewrite audio_tick_forced in * by (by rewrite ?Hh, ?orb_true_r).
    unfold forced_start in *. rewrite Hp in *.
    match goal with
    | |- context [start_audio_recording ?s ?w ?n ?e ?f] =>
        pose proof (start_audio_recording_spec s w n e f) as (_ & _ & Hs3)
    end.
    cbv zeta in Hs3. specialize (Hs3 Hr).
    destruct (start_audio_recording _ _ _ _ _) as [[] st2]; cbn [fst snd] in *;
      [|destruct Hs3; congruence].
    destruct Hs3 as (_ & -> & ->). split; [|done].
    unfold epoch, now. by destruct (_ >? 0). }
  destruct Hstart as [Hepoch Hforce].
  unfold loop in He, Ha.
  rewrite loop_after_tick_recording in He, Ha by done.
  rewrite Hepoch in He. rewrite Hforce in Ha.
  split_and!.
  - intros Hlt. unfold epoch. rewrite adjust_start_epoch_spec.
    unfold preroll_sec, AUDIO_PREROLL_MS in *. change (1000 / 1000) with 1 in *.
    destruct (Z.ltb_spec 1 now); lia.
  - unfold forced_recording. by rewrite Hr1, Ha.
  - done.
  - intros p content Hfile.
    destruct (audio_tick_on_recording st1 w1 Hr1) as [[Hr' _]|[_ Hfiles]];
      [congruence|].
    destruct (Hfiles p content Hfile) as [?|[-> ->]]; [by left|right].
    split; [done|]. unfold recording_manifest. by rewrite He.
Qed.

Lemma heartbeat_manifest_epoch_witness :
  let st := heartbeat_due_state in
  let w := quiet_world 0 1000 in
  let st1 := foldl (loop "token") (loop "token" st w) (replicate 148 w) in
  (sd_files (SD_MMC (audio_tick st1 w)) !! manifest_final_path 10
   = Some (manifest_payload 10 "/audio/20260101/120000_000010.wav" 999
             "PENDING" "audio" "audio/wav" 0 0))
  ∧ ((AUDIO_PREROLL_MS / 1000 < now_epoch st w →
      adjust_start_epoch (now_epoch st w)
      = now_epoch st w - AUDIO_PREROLL_MS / 1000)
     ∧ forced_recording st1 = true
     ∧ audio_start_epoch (audio st1) = adjust_start_epoch (now_epoch st w)
     ∧ ∀ p content,
         sd_files (SD_MMC (audio_tick st1 w)) !! p = Some content →
         sd_files (SD_MMC st1) !! p = Some content
         ∨ (p = manifest_final_path (audio_seq (audio st1))
            ∧ content = manifest_payload (audio_seq (audio st1))
                          (audio_filepath (audio st1))
                          (adjust_start_epoch (now_epoch st w))
                          "PENDING" "audio" "audio/wav" 0 0)).
Proof.
  split.
  - vm_compute. reflexivity.
  - apply (heartbeat_manifest_epoch "token" heartbeat_due_state
             (quiet_world 0 1000)
             (foldl (loop "token")
                (loop "token" heartbeat_due_state (quiet_world 0 1000))
                (replicate 148 (quiet_world 0 1000)))
             (quiet_world 0 1000)).
    + reflexivity.
    + reflexivity.
    + reflexivity.
    + apply keeps_recording_run.
      * apply keeps_recording_now. vm_compute. reflexivity.
      * vm_compute. reflexivity.
    + vm_compute. reflexivity.
Defined.

(** ** C10: a forced start that fails *)

(** The causes of failure the sketch reports: the card is not mounted,
    capture is paused, the audio folder is missing and cannot be made, or
    the audio file cannot be opened. *)
Lemma forced_start_fails st w :
  audio_recording (audio st) = false →
  negb (sd_ok st) || capture_paused st
  || (negb (w_audio_mkdir_ok w)
      && negb (SD_exists (SD_MMC st) (build_audio_folder st w)))
  || negb (w_audio_open_ok w) = true →
  (forced_start st w).1 = false.
Proof.
  intros Hr Hcause.
  assert (H : ∀ s count epoch force,
            audio_recording (audio s) = false → sd_ok s = sd_ok st →
            capture_paused s = capture_paused st → SD_MMC s = SD_MMC st →
            ntp_synced s = ntp_synced st →
            (start_audio_recording s w count epoch force).1 = false).
  { intros s count epoch force Hrs Hsd Hcp Hcard Hntp.
    unfold start_audio_recording. rewrite Hsd, Hcp, Hrs.
    destruct (negb (sd_ok st)) eqn:Hsd'; [done|].
    destruct (capture_paused st); [done|]. cbn [orb] in *.
    cbn [get_next_seq]. cbv zeta.
    set (s1 := upd_audio _ _).
    assert (Hfolder : build_audio_folder s1 w = build_audio_folder st w).
    { unfold build_audio_folder. cbn. by rewrite Hntp. }
    rewrite !Hfolder.
    destruct (negb (w_audio_open_ok w)).
    { by destruct (ensure_audio_folder _ _ _) as [[] ?]. }
    rewrite orb_false_r in Hcause.
    apply andb_true_iff in Hcause as [Hmk Hex].
    apply negb_true_iff in Hmk.
    assert (Hmkdir : ∀ s' path, (audio_mkdir w s' path).1 = false).
    { intros s' path. unfold audio_mkdir. by rewrite Hmk. }
    assert (Hens : (ensure_audio_folder s1 w (build_audio_folder st w)).1 = false).
    { unfold ensure_audio_folder.
      change (sd_ok s1) with (sd_ok s). change (SD_MMC s1) with (SD_MMC s).
      rewrite Hsd, Hsd', Hcard, Hex.
      destruct (String.eqb _ _); [apply Hmkdir|].
      destruct (String.prefix _ _); [|apply Hmkdir].
      destruct (negb (SD_exists (SD_MMC st) "/audio")).
      - pose proof (Hmkdir s1 "/audio") as Hm.
        by destruct (audio_mkdir w s1 "/audio") as [[] ?].
      - change (SD_MMC s1) with (SD_MMC s). rewrite Hcard, Hex. apply Hmkdir. }
    by destruct (ensure_audio_folder _ _ _) as [[] ?]. }
  unfold forced_start. by destruct (audio_photo_clip_pending (audio st)); apply H.
Qed.

(** C10: in a tick that reads a frame on an idle state with a forced start
    pending, [audio_tick] is [start_audio_recording] attempted from the
    state in which the flag served (photo clip first, heartbeat otherwise)
    is already cleared, and no run of later ticks raises this flag again.
    The start fails when the card is not mounted, capture is paused, the
    audio folder cannot be made or the audio file cannot be opened; when it
    fails, for these or any other cause, no recording is going on after the
    tick, every file on the card was there before the tick (no clip and no
    manifest has been created), and, unless the other flag is pending,
    no run of later ticks starts a forced recording. *)
Theorem failed_forced_start_is_dropped st w :
  frame_read st w = true →
  audio_recording (audio st) = false →
  audio_photo_clip_pending (audio st) || audio_heartbeat_pending (audio st) = true →
  let photo := audio_photo_clip_pending (audio st) in
  let st' := audio_tick st w in
  st' = (forced_start st w).2
  ∧ served_flag photo st' = false
  ∧ (∀ ws, served_flag photo (audio_ticks st' ws) = false)
  ∧ (negb (sd_ok st) || capture_paused st
     || (negb (w_audio_mkdir_ok w)
         && negb (SD_exists (SD_MMC st) (build_audio_folder st w)))
     || negb (w_audio_open_ok w) = true →
     (forced_start st w).1 = false)
  ∧ ((forced_start st w).1 = false →
     audio_recording (audio st') = false
     ∧ (∀ p content, sd_files (SD_MMC st') !! p = Some content →
                     sd_files (SD_MMC st) !! p = Some content)
     ∧ (served_flag (negb photo) st = false →
        ∀ ws, forced_recording (audio_ticks st' ws) = false)).
Proof.
  intros Hfr Hr Hpending photo st'.
  assert (Htick : st' = (forced_start st w).2) by (by apply audio_tick_forced).
  assert (Hflags :
            served_flag photo st' = false
            ∧ audio_photo_clip_pending (audio st')
              = (if photo then false else audio_photo_clip_pending (audio st))
            ∧ audio_heartbeat_pending (audio st')
              = (if photo then audio_heartbeat_pending (audio st) else false)
            ∧ ((forced_start st w).1 = false →
               audio_recording (audio st') = false
               ∧ ∀ p content, sd_files (SD_MMC st') !! p = Some content →
                              sd_files (SD_MMC st) !! p = Some content)).
  { rewrite Htick. unfold forced_start, served_flag, photo.
    destruct (audio_photo_clip_pending (audio st)) eqn:Hp;
      match goal with
      | |- context [start_audio_recording ?s ?w ?n ?e ?f] =>
          pose proof (start_audio_recording_spec s w n e f) as (H1 & H2 & H3);
          cbv zeta in H1, H2, H3; specialize (H3 Hr);
          destruct (start_audio_recording s w n e f) as [[] st2];
          cbn [fst snd] in *
      end; rewrite H1, H2; cbn; rewrite ?Hp; split_and!; done. }
  destruct Hflags as (Hserved & Hp' & Hh' & Hfail).
  split_and!; [done|done| | |].
  - intros ws. destruct (audio_ticks_flags ws st') as [H1 H2].
    unfold served_flag in *. destruct photo; auto.
  - by apply forced_start_fails.
  - intros Hf. destruct (Hfail Hf) as [Hrec Hfiles].
    split_and!; [done|done|]. intros Hother ws.
    apply audio_ticks_unforced.
    + unfold forced_recording. by rewrite Hrec.
    + rewrite Hp'. unfold served_flag, photo in *.
      by destruct (audio_photo_clip_pending (audio st)).
    + rewrite Hh'. unfold served_flag, photo in *.
      by destruct (audio_photo_clip_pending (audio st)).
Qed.

Lemma failed_forced_start_is_dropped_witness :
  let st := photo_clip_due_state in
  let w := open_failure (quiet_world 0 1000) in
  let st' := audio_tick st w in
  ((forced_start st w).1 = false ∧ served_flag false st = false)
  ∧ (st' = (forced_start st w).2
     ∧ served_flag true st' = false
     ∧ (∀ ws, served_flag true (audio_ticks st' ws) = false)
     ∧ (negb (sd_ok st) || capture_paused st
        || (negb (w_audio_mkdir_ok w)
            && negb (SD_exists (SD_MMC st) (build_audio_folder st w)))
        || negb (w_audio_open_ok w) = true →
        (forced_start st w).1 = false)
     ∧ ((forced_start st w).1 = false →
        audio_recording (audio st') = false
        ∧ (∀ p content, sd_files (SD_MMC st') !! p = Some content →
                        sd_files (SD_MMC st) !! p = Some content)
        ∧ (served_flag (negb true) st = false →
           ∀ ws, forced_recording (audio_ticks st' ws) = false))).
Proof.
  split.
  - vm_compute. done.
  - apply (failed_forced_start_is_dropped photo_clip_due_state
             (open_failure (quiet_world 0 1000))).
    + reflexivity.
    + reflexivity.
    + reflexivity.
Defined.

(** A photo clip whose file cannot be opened: the flag is consumed, the card
    is as it was, and the quiet ticks that follow record nothing. *)
Example photo_clip_open_failure :
  let st := photo_clip_due_state in
  let st' := audio_tick st (open_failure (quiet_world 0 1000)) in
  let later := audio_ticks st' (replicate 20 (quiet_world 0 1001)) in
  audio_photo_clip_pending (audio st') = false
  ∧ audio_recording (audio st') = false
  ∧ sd_files (SD_MMC st') = sd_files (SD_MMC st)
  ∧ audio_recording (audio later) = false
  ∧ sd_files (SD_MMC later) = sd_files (SD_MMC st).
Proof. by vm_compute. Qed.

(** ** Little-endian stores *)

Lemma land_255 z : Z.land z 255 = z mod 256.
Proof. change 255 with (Z.ones 8). by rewrite Z.land_ones. Qed.

Lemma byte_of_shift z k : 0 <= k → Z.land (Z.shiftr z k) 255 = (z / 2 ^ k) mod 256.
Proof. intros Hk. by rewrite land_255, Z.shiftr_div_pow2. Qed.

Lemma le_value_write_le16 v : le_value (write_le16 v) = to_uint16 v.
Proof.
  unfold write_le16, le_value, to_uint16, wrap. cbn [foldr].
  rewrite land_255, byte_of_shift by lia.
  change (2 ^ 16) with (256 * 256). change (2 ^ 8) with 256.
  rewrite (Z.rem_mul_r v 256 256) by lia. lia.
Qed.

Lemma le_value_write_le32 v : le_value (write_le32 v) = to_uint32 v.
Proof.
  unfold write_le32, le_value, to_uint32, wrap. cbn [foldr].
  rewrite land_255, !byte_of_shift by lia.
  change (2 ^ 32) with (256 * (256 * (256 * 256))).
  change (2 ^ 8) with 256. change (2 ^ 16) with (256 * 256).
  change (2 ^ 24) with (256 * 256 * 256).
  rewrite (Z.rem_mul_r v 256 (256 * (256 * 256))) by lia.
  rewrite (Z.rem_mul_r (v / 256) 256 (256 * 256)) by lia.
  rewrite (Z.rem_mul_r (v / 256 / 256) 256 256) by lia.
  rewrite !Z.div_div by lia. lia.
Qed.

Lemma write_le16_bytes v : Forall (λ b, 0 <= b < 256) (write_le16 v).
Proof.
  unfold write_le16. rewrite land_255, byte_of_shift by lia.
  repeat constructor; apply Z.mod_pos_bound; lia.
Qed.

Lemma write_le32_bytes v : Forall (λ b, 0 <= b < 256) (write_le32 v).
Proof.
  unfold write_le32. rewrite land_255, !byte_of_shift by lia.
  repeat constructor; apply Z.mod_pos_bound; lia.
Qed.

(** [write_le16] and [write_le32] store the value's low 16 and 32 bits,
    least significant byte first: read back as a little-endian number, the
    two or four bytes give the value modulo [2^16] or [2^32], and each is a
    byte. *)
Theorem write_le_decodes v :
  (length (write_le16 v) = 2%nat ∧ Forall (λ b, 0 <= b < 256) (write_le16 v)
   ∧ le_value (write_le16 v) = to_uint16 v)
  ∧ (length (write_le32 v) = 4%nat ∧ Forall (λ b, 0 <= b < 256) (write_le32 v)
     ∧ le_value (write_le32 v) = to_uint32 v).
Proof.
  split; (split; [done|split]).
  - apply write_le16_bytes.
  - apply le_value_write_le16.
  - apply write_le32_bytes.
  - apply le_value_write_le32.
Qed.

(** ** The WAV header *)

(** The stores of [write_wav_header] tile the 44 bytes: no byte is left at
    its [memset] value and none is written twice. *)
Lemma write_wav_header_layout data_bytes :
  write_wav_header data_bytes
  = bytes_of "RIFF" ++ write_le32 (to_uint32 (36 + data_bytes))
    ++ bytes_of "WAVE" ++ bytes_of "fmt " ++ write_le32 16
    ++ write_le16 1 ++ write_le16 1 ++ write_le32 AUDIO_SAMPLE_RATE
    ++ write_le32 (AUDIO_SAMPLE_RATE * 1 * 16 / 8)
    ++ write_le16 2 ++ write_le16 16 ++ bytes_of "data"
    ++ write_le32 data_bytes.
Proof. reflexivity. Qed.

(** [write_wav_header] writes a canonical 44-byte PCM header: the tags RIFF,
    WAVE, "fmt " and data at offsets 0, 8, 12 and 36; format 1 (PCM), one
    channel, 16 bits, [AUDIO_SAMPLE_RATE], and a byte rate and block size
    that agree with them; the data size at offset 40 is [data_bytes] and the
    RIFF size at offset 4 is [36 + data_bytes] in 32 bits, that is the file
    size less 8 as long as this does not pass [2^32]. *)
Theorem write_wav_header_fields data_bytes :
  0 <= data_bytes < 2 ^ 32 →
  let h := write_wav_header data_bytes in
  length h = 44%nat
  ∧ Forall (λ b, 0 <= b < 256) h
  ∧ field 0 4 h = bytes_of "RIFF" ∧ field 8 4 h = bytes_of "WAVE"
  ∧ field 12 4 h = bytes_of "fmt " ∧ field 36 4 h = bytes_of "data"
  ∧ le_value (field 16 4 h) = 16
  ∧ le_value (field 20 2 h) = 1
  ∧ le_value (field 22 2 h) = 1
  ∧ le_value (field 24 4 h) = AUDIO_SAMPLE_RATE
  ∧ le_value (field 34 2 h) = 16
  ∧ le_value (field 32 2 h)
    = le_value (field 22 2 h) * le_value (field 34 2 h) / 8
  ∧ le_value (field 28 4 h)
    = le_value (field 24 4 h) * le_value (field 32 2 h)
  ∧ le_value (field 40 4 h) = data_bytes
  ∧ le_value (field 4 4 h) = to_uint32 (36 + data_bytes)
  ∧ (data_bytes + 36 < 2 ^ 32 →
     le_value (field 4 4 h) = Z.of_nat (length h) + data_bytes - 8).
Proof.
  intros Hd h. unfold h. rewrite write_wav_header_layout.
  assert (Hriff : le_value (write_le32 (to_uint32 (36 + data_bytes)))
                  = to_uint32 (36 + data_bytes)).
  { rewrite le_value_write_le32. apply to_uint32_small.
    unfold to_uint32, wrap. apply Z.mod_pos_bound. lia. }
  assert (Hdata : le_value (write_le32 data_bytes) = data_bytes).
  { rewrite le_value_write_le32. by apply to_uint32_small. }
  split_and!; try reflexivity.
  - repeat (apply Forall_app; split);
      try apply write_le32_bytes; try apply write_le16_bytes;
      repeat constructor; done.
  - exact Hdata.
  - exact Hriff.
  - intros Hfit. etrans; [exact Hriff|]. rewrite to_uint32_small by lia.
    match goal with
    | |- context [length ?l] => change (length l) with 44%nat
    end. lia.
Qed.

Lemma write_wav_header_fields_witness :
  let h := write_wav_header 96000 in
  h = [82; 73; 70; 70; 36; 119; 1; 0; 87; 65; 86; 69; 102; 109; 116; 32; 16;
       0; 0; 0; 1; 0; 1; 0; 128; 62; 0; 0; 0; 125; 0; 0; 2; 0; 16; 0; 100;
       97; 116; 97; 0; 119; 1; 0]
  ∧ le_value (field 40 4 h) = 96000
  ∧ le_value (field 4 4 h) = 96036.
Proof.
  split; [by vm_compute|].
  pose proof (write_wav_header_fields 96000) as H.
  destruct H as (_ & _ & _ & _ & _ & _ & _ & _ & _ & _ & _ & _ & _ & Hd & _ & Hr);
    [done|].
  split; [exact Hd|]. rewrite Hr; done.
Defined.

(** The header [finish_audio_recording] writes when it closes the file
    declares two bytes for every sample written, as long as the clip has
    fewer than [2^31] samples. *)
Theorem finish_wav_header_data_size st :
  0 <= audio_samples_written (audio st) < 2 ^ 31 →
  le_value (field 40 4 (finish_wav_header st))
  = 2 * audio_samples_written (audio st)
  ∧ le_value (field 4 4 (finish_wav_header st))
    = 36 + 2 * audio_samples_written (audio st)
      - (if 2 * audio_samples_written (audio st) + 36 <? 2 ^ 32 then 0 else 2 ^ 32).
Proof.
  intros Hs. unfold finish_wav_header.
  set (n := audio_samples_written (audio st)) in *.
  assert (Hd : to_uint32 (n * 2) = 2 * n).
  { rewrite to_uint32_small; lia. }
  rewrite Hd.
  destruct (write_wav_header_fields (2 * n))
    as (_ & _ & _ & _ & _ & _ & _ & _ & _ & _ & _ & _ & _ & Hdata & Hriff & _);
    [lia|].
  split; [exact Hdata|]. rewrite Hriff. unfold to_uint32, wrap.
  destruct (Z.ltb_spec (2 * n + 36) (2 ^ 32)).
  - rewrite Z.mod_small; lia.
  - replace (36 + 2 * n) with ((36 + 2 * n - 2 ^ 32) + 1 * 2 ^ 32) by lia.
    rewrite Z.mod_add by lia. rewrite Z.mod_small; lia.
Qed.

Lemma finish_wav_header_data_size_witness :
  let st := upd_audio (a_samples_written 64000) heartbeat_due_state in
  le_value (field 40 4 (finish_wav_header st)) = 2 * 64000
  ∧ le_value (field 4 4 (finish_wav_header st))
    = 36 + 2 * 64000 - (if 2 * 64000 + 36 <? 2 ^ 32 then 0 else 2 ^ 32).
Proof.
  apply (finish_wav_header_data_size
           (upd_audio (a_samples_written 64000) heartbeat_due_state)).
  vm_compute. split; [discriminate|reflexivity].
Defined.

(** ** compute_rms *)

Lemma sum_squares_bound samples :
  Forall int16 samples →
  0 <= sum_squares samples <= Z.of_nat (length samples) * 2 ^ 30.
Proof.
  induction 1 as [|s samples Hs _ IH]; [done|].
  cbn [sum_squares foldr length]. fold (sum_squares samples).
  unfold int16 in Hs. change (2 ^ 15) with 32768 in Hs.
  change (2 ^ 30) with 1073741824 in *. nia.
Qed.

Lemma square_uint64 s : int16 s → to_uint64 (to_uint64 s * to_uint64 s) = s * s.
Proof.
  intros Hs. unfold to_uint64, wrap. rewrite <- Z.mul_mod by done.
  apply Z.mod_small. unfold int16 in Hs. change (2 ^ 15) with 32768 in Hs.
  change (2 ^ 64) with 18446744073709551616. nia.
Qed.

(** The accumulator of [compute_rms] is the exact sum of the squares of the
    samples, negative ones included: on a frame of 16-bit samples that is
    shorter than [2^34] samples nothing wraps around. *)
Theorem compute_rms_sum_exact samples :
  Forall int16 samples → Z.of_nat (length samples) < 2 ^ 34 →
  compute_rms_sum samples = sum_squares samples.
Proof.
  intros Hs Hlen. unfold compute_rms_sum.
  assert (Hgen : ∀ acc,
            0 <= acc →
            acc + sum_squares samples < 2 ^ 64 →
            foldl (λ sum s, to_uint64 (sum + to_uint64 (to_uint64 s * to_uint64 s)))
                  acc samples
            = acc + sum_squares samples).
  { clear Hlen. induction Hs as [|s samples Hs Hall IH]; intros acc Hacc Hfit.
    - cbn. lia.
    - cbn [foldl sum_squares foldr] in *. fold (sum_squares samples) in *.
      pose proof (sum_squares_bound samples Hall) as Hb.
      assert (0 <= s * s) by nia.
      rewrite square_uint64 by done.
      assert (Hsmall : to_uint64 (acc + s * s) = acc + s * s).
      { unfold to_uint64, wrap. apply Z.mod_small. lia. }
      rewrite Hsmall, IH by lia. lia. }
  rewrite Hgen; [lia|lia|].
  pose proof (sum_squares_bound samples Hs) as Hb.
  change (2 ^ 34) with 17179869184 in Hlen.
  change (2 ^ 30) with 1073741824 in Hb.
  change (2 ^ 64) with 18446744073709551616. nia.
Qed.

Lemma compute_rms_sum_exact_witness :
  compute_rms_sum [-32768; 3; -1; 32767] = sum_squares [-32768; 3; -1; 32767].
Proof.
  apply (compute_rms_sum_exact [-32768; 3; -1; 32767]).
  - repeat (constructor; [vm_compute; split; [discriminate|reflexivity]|]).
    constructor.
  - vm_compute. reflexivity.
Defined.

(** ** The status line *)

Lemma app_empty_r_str s : s +:+ "" = s.
Proof. induction s as [|c s IH]; [done|]. by rewrite app_String, IH. Qed.




Lemma strchr_None c s : has_char c s = false → strchr s c = None.
Proof.
  induction s as [|a s IH]; [done|]. cbn [has_char strchr].
  intros [-> Hs]%orb_false_iff. by apply IH.
Qed.

Lemma has_char_c_str c s : has_char c s = false → has_char c (c_str s) = false.
Proof.
  induction s as [|a s IH]; [done|]. cbn [has_char c_str].
  intros [Ha Hs]%orb_false_iff. destruct (Ascii.eqb a "000"); [done|].
  cbn [has_char]. by rewrite Ha, IH.
Qed.

Lemma has_char_readBytesUntil c t n s :
  has_char c s = false → has_char c (readBytesUntil t n s) = false.
Proof.
  revert s. induction n as [|n IH]; intros s; [done|].
  destruct s as [|a s]; [done|]. cbn [has_char readBytesUntil].
  intros [Ha Hs]%orb_false_iff. destruct (Ascii.eqb a t); [done|].
  cbn [has_char]. by rewrite Ha, IH.
Qed.






(** An answer whose first line, as far as it is read (95 bytes at most),
    holds no blank gives -1; so does an answer that never arrives. *)
Theorem read_http_status_code_no_blank stream :
  has_char " " (readBytesUntil "010" 95 stream) = false →
  read_http_status_code stream = -1.
Proof.
  intros H. unfold read_http_status_code.
  by rewrite strchr_None by (by apply has_char_c_str).
Qed.

Lemma read_http_status_code_no_blank_witness :
  read_http_status_code "" = -1
  ∧ read_http_status_code ("HTTP/1.1" +:+ String "010" "200 OK") = -1.
Proof.
  split; apply read_http_status_code_no_blank; reflexivity.
Defined.



(** ** The file name of an upload *)

Lemma lastIndexOf_from_spec ch s i last :
  lastIndexOf_from ch s i last
  = if has_char ch s then lastIndexOf_from ch s i last else last.
Proof.
  revert i last. induction s as [|c s IH]; intros i last; [done|].
  cbn [has_char lastIndexOf_from].
  destruct (Ascii.eqb c ch); [done|]. cbn [orb]. apply IH.
Qed.

(** From position [i] on, [s] splits at its last [ch]. *)
Lemma lastIndexOf_from_split ch s i last :
  has_char ch s = true →
  ∃ a b, s = a +:+ String ch b ∧ has_char ch b = false
         ∧ lastIndexOf_from ch s i last = i + Z.of_nat (String.length a).
Proof.
  revert i last. induction s as [|c s IH]; intros i last; [done|].
  cbn [has_char lastIndexOf_from]. intros Hc.
  destruct (has_char ch s) eqn:Hs.
  - destruct (IH (i + 1) (if Ascii.eqb c ch then i else last) eq_refl)
      as (a & b & -> & Hb & ->).
    exists (String c a), b. split_and!; [done|done|].
    cbn [String.length]. lia.
  - rewrite lastIndexOf_from_spec, Hs.
    destruct (Ascii.eqb_spec c ch) as [->|]; [|done].
    exists "", s. split_and!; [done|done|]. cbn [String.length]. lia.
Qed.

Lemma string_drop_app a b : string_drop (String.length a) (a +:+ b) = b.
Proof. induction a as [|c a IH]; [by destruct b|]. by rewrite app_String. Qed.

(** The file name sent with an upload is the part of the path after its
    last slash, and the whole path when it has none: it holds no slash, and
    the path is a folder prefix (empty, or ending in a slash) followed by
    it. *)
Theorem upload_filename_spec item :
  has_char "/" (upload_filename item) = false
  ∧ ∃ folder,
      filepath item = folder +:+ upload_filename item
      ∧ (folder = "" ∨ endsWith folder "/" = true).
Proof.
  unfold upload_filename, lastIndexOf, substring.
  destruct (has_char "/" (filepath item)) eqn:Hs.
  - destruct (lastIndexOf_from_split "/" (filepath item) 0 (-1) Hs)
      as (a & b & Hfp & Hb & ->).
    rewrite Hfp, app_length_str. cbn [String.length].
    destruct (Z.leb_spec
                (Z.of_nat (String.length a + S (String.length b)))
                (0 + Z.of_nat (String.length a) + 1)) as [Hle|Hlt].
    + assert (b = "") as -> by (destruct b; [done|cbn in Hle; lia]).
      split; [done|]. exists (a +:+ "/"). split; [by rewrite app_empty_r_str|].
      right. apply endsWith_app.
    + replace (Z.to_nat (0 + Z.of_nat (String.length a) + 1))
        with (String.length (a +:+ "/"))
        by (rewrite app_length_str; cbn [String.length]; lia).
      replace (a +:+ String "/" b) with ((a +:+ "/") +:+ b)
        by (by rewrite app_assoc_str).
      rewrite string_drop_app. split; [done|].
      exists (a +:+ "/"). split; [done|]. right. apply endsWith_app.
  - rewrite lastIndexOf_from_spec, Hs. change (-1 + 1) with 0.
    destruct (Z.leb_spec (Z.of_nat (String.length (filepath item))) 0) as [Hle|Hlt].
    + assert (filepath item = "") as -> by (destruct (filepath item); [done|cbn in Hle; lia]).
      split; [done|]. by exists ""; split; [|left].
    + change (Z.to_nat 0) with 0%nat.
      assert (Hd : string_drop 0 (filepath item) = filepath item)
        by (by destruct (filepath item)).
      rewrite Hd. split; [done|]. exists "". split; [done|by left].
Qed.

(** ** The preroll ring *)

Section Ring.

Variable capacity : Z.
Hypothesis capacity_pos : 0 < capacity.

Lemma preroll_push_sample_index p x :
  0 <= ring_index p < capacity →
  ring_index (preroll_push_sample capacity p x) = (ring_index p + 1) mod capacity
  ∧ ring_filled (preroll_push_sample capacity p x)
    = ring_filled p || (capacity <=? ring_index p + 1)
  ∧ (length <$> ring (preroll_push_sample capacity p x)) = (length <$> ring p).
Proof.
  intros Hi. unfold preroll_push_sample.
  assert (Hlen : (length <$> ((λ b, <[Z.to_nat (ring_index p):=x]> b) <$> ring p))
                 = (length <$> ring p)).
  { destruct (ring p) as [b|]; [|done]. cbn. by rewrite length_insert. }
  destruct (Z.leb_spec capacity (ring_index p + 1)); cbn [ring_index ring_filled ring].
  - replace (ring_index p + 1) with capacity by lia.
    rewrite Z.mod_same by lia. by rewrite orb_true_r.
  - rewrite Z.mod_small by lia. by rewrite orb_false_r.
Qed.

Lemma foldl_push_index samples p :
  0 <= ring_index p < capacity →
  let p' := foldl (preroll_push_sample capacity) p samples in
  ring_index p' = (ring_index p + Z.of_nat (length samples)) mod capacity
  ∧ ring_filled p'
    = ring_filled p || (capacity <=? ring_index p + Z.of_nat (length samples))
  ∧ (length <$> ring p') = (length <$> ring p).
Proof.
  revert p. induction samples as [|x samples IH]; intros p Hi.
  - cbn [foldl length]. rewrite Z.add_0_r, Z.mod_small by lia.
    split_and!; [done| |done].
    destruct (Z.leb_spec capacity (ring_index p)); [lia|by rewrite orb_false_r].
  - cbn [foldl]. destruct (preroll_push_sample_index p x Hi) as (Hx & Hf & Hl).
    assert (Hi' : 0 <= ring_index (preroll_push_sample capacity p x) < capacity).
    { rewrite Hx. apply Z.mod_pos_bound. lia. }
    destruct (IH _ Hi') as (-> & -> & ->). rewrite Hx, Hf, Hl.
    split_and!; [| |done].
    + rewrite Z.add_mod_idemp_l by lia. f_equal. cbn [length]. lia.
    + cbn [length]. rewrite <- orb_assoc. f_equal.
      destruct (Z.leb_spec capacity (ring_index p + 1)).
      * replace (ring_index p + 1) with capacity by lia. cbn [orb].
        symmetry. apply Z.leb_le. lia.
      * rewrite Z.mod_small by lia. cbn [orb]. f_equal. lia.
Qed.

(** After [preroll_push] of [n] samples into an allocated ring, the write
    index has advanced by [n] modulo the capacity, the ring counts as
    filled if it did before or the index has passed the end, and the buffer
    has the length it had. *)
Theorem ring_push_index p samples :
  is_Some (ring p) → 0 <= ring_index p < capacity →
  let p' := ring_push capacity p samples in
  ring_index p' = (ring_index p + Z.of_nat (length samples)) mod capacity
  ∧ ring_filled p'
    = ring_filled p || (capacity <=? ring_index p + Z.of_nat (length samples))
  ∧ (length <$> ring p') = (length <$> ring p).
Proof.
  intros [b Hb] Hi. unfold ring_push. rewrite Hb.
  destruct (Z.eqb_spec capacity 0); [lia|]. rewrite <- Hb.
  by apply foldl_push_index.
Qed.

Lemma ring_holds_fresh : ring_holds capacity (fresh_ring capacity) [].
Proof.
  exists (replicate (Z.to_nat capacity) 0). cbn.
  split; [done|]. split; [by rewrite length_replicate|]. split; [lia|done].
Qed.

Lemma last_samples_snoc n h x :
  (0 < n)%nat → (n <= length h)%nat →
  last_samples n (h ++ [x]) = drop 1 (last_samples n h) ++ [x].
Proof.
  intros Hn Hh. unfold last_samples. rewrite length_app. cbn [length].
  rewrite drop_drop. rewrite drop_app_le by lia. do 2 f_equal. lia.
Qed.

Lemma ring_holds_push p h x :
  ring_holds capacity p h →
  ring_holds capacity (preroll_push_sample capacity p x) (h ++ [x]).
Proof.
  intros (b & Hb & Hlen & Hi & Hh). unfold ring_holds.
  set (i := Z.to_nat (ring_index p)) in *.
  set (n := Z.to_nat capacity) in *.
  assert (Hin : (i < n)%nat) by lia.
  assert (Hx : <[i:=x]> b !! i = Some x)
    by (apply list_lookup_insert_eq; lia).
  assert (Htk : take (S i) (<[i:=x]> b) = take i b ++ [x]).
  { rewrite (take_S_r _ _ _ Hx). by rewrite take_insert_ge by lia. }
  assert (Hdr : drop (S i) (<[i:=x]> b) = drop (S i) b)
    by (apply drop_insert_lt; lia).
  assert (Hrot : ring_filled p = true →
            drop (S i) b ++ take i b ++ [x] = last_samples n (h ++ [x])).
  { intros Hf. rewrite Hf in Hh. destruct Hh as [Hl Hh].
    rewrite last_samples_snoc by lia. rewrite <- Hh.
    rewrite drop_app_le by (rewrite length_drop; lia).
    rewrite drop_drop. replace (i + 1)%nat with (S i) by lia.
    by rewrite app_assoc. }
  unfold preroll_push_sample. rewrite Hb. cbn [fmap option_fmap option_map].
  fold i. exists (<[i:=x]> b).
  destruct (Z.leb_spec capacity (ring_index p + 1)) as [Hwrap|Hstay];
    cbn [ring ring_index ring_filled].
  - (* the index wraps to 0 *)
    assert (Hlast : S i = n) by lia.
    assert (Hfull : <[i:=x]> b = take i b ++ [x]).
    { rewrite <- Htk. symmetry. apply take_ge. rewrite length_insert. lia. }
    split; [done|]. split; [by rewrite length_insert|]. split; [lia|]. split.
    + rewrite length_app. cbn [length].
      destruct (ring_filled p); [lia|]. destruct Hh as [Hl _]. lia.
    + change (Z.to_nat 0) with 0%nat. rewrite drop_0, take_0, app_nil_r.
      rewrite Hfull. destruct (ring_filled p) eqn:Hf.
      * rewrite <- Hrot by done. by rewrite (drop_ge b (S i)) by lia.
      * destruct Hh as [Hl ->]. unfold last_samples.
        rewrite length_app. cbn [length].
        replace (length h + 1 - n)%nat with 0%nat by lia. done.
  - (* the index moves on *)
    replace (Z.to_nat (ring_index p + 1)) with (S i) by lia.
    split; [done|]. split; [by rewrite length_insert|]. split; [lia|].
    rewrite Htk, Hdr. destruct (ring_filled p) eqn:Hf.
    + split; [|by apply Hrot]. destruct Hh as [Hl _]. rewrite length_app. lia.
    + destruct Hh as [Hl Hh]. split; [rewrite length_app; cbn [length]; lia|].
      by rewrite Hh.
Qed.

Lemma ring_holds_foldl samples p h :
  ring_holds capacity p h →
  ring_holds capacity (foldl (preroll_push_sample capacity) p samples) (h ++ samples).
Proof.
  revert p h. induction samples as [|x samples IH]; intros p h Hp.
  - by rewrite app_nil_r.
  - cbn [foldl]. replace (h ++ x :: samples) with ((h ++ [x]) ++ samples)
      by (by rewrite <- app_assoc).
    by apply IH, ring_holds_push.
Qed.

Lemma ring_write_holds p h :
  ring_holds capacity p h →
  ring_write capacity p = last_samples (Z.to_nat capacity) h.
Proof.
  intros (b & Hb & Hlen & Hi & Hh). unfold ring_write. rewrite Hb.
  destruct (Z.eqb_spec capacity 0); [lia|].
  destruct (ring_filled p).
  - destruct Hh as [Hl <-].
    destruct (Z.eqb_spec capacity 0); [lia|].
    destruct (Z.gtb_spec (capacity - ring_index p) 0); [|lia].
    replace (Z.to_nat (capacity - ring_index p))
      with (length (drop (Z.to_nat (ring_index p)) b))
      by (rewrite length_drop; lia).
    rewrite firstn_all. cbn [andb].
    destruct (Z.gtb_spec (ring_index p) 0); [done|].
    replace (ring_index p) with 0 by lia. by rewrite take_0, app_nil_r.
  - destruct Hh as [Hl Hh]. unfold last_samples.
    replace (length h - Z.to_nat capacity)%nat with 0%nat by lia.
    rewrite drop_0. cbn [andb].
    destruct (Z.eqb_spec (ring_index p) 0) as [H0|H0].
    + rewrite H0 in Hh. by rewrite take_0 in Hh.
    + destruct (Z.gtb_spec (ring_index p) 0); [|lia].
      by rewrite drop_0.
Qed.

(** Pushing in several calls is pushing the concatenation, and what
    [preroll_write] then copies out of a ring that started allocated and
    empty is the last [capacity] samples pushed (all of them when there
    were fewer), oldest first. *)
Theorem ring_write_recent xs ys :
  ring_push capacity (ring_push capacity (fresh_ring capacity) xs) ys
  = ring_push capacity (fresh_ring capacity) (xs ++ ys)
  ∧ ring_write capacity (ring_push capacity (fresh_ring capacity) xs)
    = last_samples (Z.to_nat capacity) xs
  ∧ Z.of_nat (length (ring_write capacity
                        (ring_push capacity (fresh_ring capacity) xs)))
    = Z.min (Z.of_nat (length xs)) capacity.
Proof.
  assert (Hpush : ∀ zs, ring_push capacity (fresh_ring capacity) zs
                        = foldl (preroll_push_sample capacity)
                            (fresh_ring capacity) zs).
  { intros zs. unfold ring_push. cbn [ring fresh_ring].
    by destruct (Z.eqb_spec capacity 0); [lia|]. }
  assert (Hw : ring_write capacity (ring_push capacity (fresh_ring capacity) xs)
               = last_samples (Z.to_nat capacity) xs).
  { rewrite Hpush. apply ring_write_holds.
    apply (ring_holds_foldl xs _ []), ring_holds_fresh. }
  split_and!.
  - rewrite (Hpush (xs ++ ys)), foldl_app, <- Hpush.
    destruct (ring_holds_foldl xs _ [] ring_holds_fresh) as (b & Hb & _).
    rewrite <- Hpush in Hb. unfold ring_push at 1. rewrite Hb.
    by destruct (Z.eqb_spec capacity 0); [lia|].
  - exact Hw.
  - rewrite Hw. unfold last_samples. rewrite length_drop. lia.
Qed.

End Ring.

Lemma ring_push_index_witness :
  let p := {| ring := Some [10; 20; 30; 40]; ring_index := 3; ring_filled := false |} in
  let p' := ring_push 4 p [1; 2; 3; 4; 5; 6] in
  ring_index p' = (3 + 6) mod 4
  ∧ ring_filled p' = false || (4 <=? 3 + 6)
  ∧ (length <$> ring p') = Some 4%nat.
Proof.
  apply (ring_push_index 4 ltac:(lia)
           {| ring := Some [10; 20; 30; 40]; ring_index := 3; ring_filled := false |}
           [1; 2; 3; 4; 5; 6]).
  - by eexists.
  - cbn. lia.
Defined.

Lemma ring_write_recent_witness :
  ring_write 4 (ring_push 4 (fresh_ring 4) [1; 2; 3; 4; 5; 6]) = [3; 4; 5; 6]
  ∧ Z.of_nat (length (preroll_write_samples
                        (preroll_push_samples (fresh_ring kAudioPrerollSamples)
                           [5; 6; 7])))
    = Z.min 3 kAudioPrerollSamples.
Proof.
  split.
  - apply (proj1 (proj2 (ring_write_recent 4 ltac:(lia) [1; 2; 3; 4; 5; 6] []))).
  - apply (proj2 (proj2 (ring_write_recent kAudioPrerollSamples ltac:(done)
                           [5; 6; 7] []))).
Defined.

(** ** Telemetry *)

Lemma count_scan c names count :
  foldl (count_step c) count names
  = count + Z.of_nat (length (omap pending_status (omap (manifest_at c) names))).
Proof.
  revert count. induction names as [|n names IH]; intros count.
  - cbn. lia.
  - cbn [foldl]. rewrite IH. clear IH.
    assert (Hstep : count_step c count n
                    = count + Z.of_nat (length (omap pending_status
                                                  (omap (manifest_at c) [n])))).
    { unfold count_step, manifest_at. cbn [omap list_omap].
      destruct (endsWith n ".json"); cbn [negb]; [|cbn; lia].
      destruct (load_manifest c _) as [[item status]|]; [|cbn; lia].
      cbn [omap list_omap]. unfold pending_status. cbn [snd fst].
      destruct (String.eqb status "PENDING"); cbn; lia. }
    rewrite Hstep. change (n :: names) with ([n] ++ names).
    rewrite !omap_app, length_app. lia.
Qed.

Lemma length_omap_le {A B C} (f : A → option B) (g : A → option C) l :
  (∀ x, is_Some (g x) → is_Some (f x)) →
  (length (omap g l) <= length (omap f l))%nat.
Proof.
  intros Hfg. induction l as [|x l IH]; [done|]. cbn [omap list_omap].
  destruct (g x) as [y|] eqn:Hg.
  - destruct (Hfg x) as [z ->]; [by rewrite Hg|]. cbn [length]. lia.
  - destruct (f x); cbn [length]; lia.
Qed.

(** [count_pending_manifests] is the number of manifests with status
    PENDING on a mounted card with its manifests folder, and 0 otherwise.
    It counts every PENDING manifest, those in backoff too, so it is at
    least the number of items [find_oldest_pending] chooses among. *)
Theorem count_pending_manifests_spec st :
  count_pending_manifests st
  = (if sd_ok st && SD_is_dir (SD_MMC st) "/manifests"
     then Z.of_nat (length (backlog (SD_MMC st))) else 0)
  ∧ ∀ now,
      (length (pending_items now (SD_MMC st)) <= length (backlog (SD_MMC st)))%nat.
Proof.
  split.
  - unfold count_pending_manifests. destruct (sd_ok st); [|done]. cbn [negb andb].
    destruct (SD_is_dir _ _); [|done]. cbn [negb].
    rewrite count_scan. unfold backlog, manifests. lia.
  - intros now. unfold pending_items, backlog. apply length_omap_le.
    intros [item status] [x Hx]. unfold pending_of, pending_status in *.
    cbn [fst snd] in *. destruct (String.eqb status "PENDING"); [by eexists|done].
Qed.

Lemma to_int_small z : 0 <= z < 2 ^ 31 → to_int z = z.
Proof.
  intros H. unfold to_int. rewrite Z.mod_small; [lia|].
  change (2 ^ 31) with 2147483648 in *. change (2 ^ 32) with 4294967296. lia.
Qed.

(** When [send_telemetry] posts, Wi-Fi is up and the device token is set.
    On a card of less than [2^51] bytes the document reports the used
    mebibytes, and as free mebibytes those of [total - used] when more is
    there than is used and 0 otherwise: never a negative or wrapped number,
    and together with the used ones never more than the card has.  The
    backlog is [count_pending_manifests]. *)
Theorem send_telemetry_storage DEVICE_TOKEN st w rssi t :
  send_telemetry DEVICE_TOKEN st w rssi = Some t →
  let total := sd_totalBytes (SD_MMC st) in
  let used := sd_usedBytes (SD_MMC st) (sd_files (SD_MMC st)) (sd_dirs (SD_MMC st)) in
  0 <= total < 2 ^ 51 → 0 <= used < 2 ^ 51 →
  wifi_ok st = true ∧ DEVICE_TOKEN ≠ ""
  ∧ sd_used_mb t = used / MiB
  ∧ sd_free_mb t = (if used <? total then (total - used) / MiB else 0)
  ∧ 0 <= sd_free_mb t
  ∧ (used <= total → sd_used_mb t + sd_free_mb t <= total / MiB)
  ∧ backlog_count t = count_pending_manifests st.
Proof.
  intros Hsend total used Ht Hu. unfold send_telemetry in Hsend.
  destruct (wifi_ok st); [|done]. cbn [negb orb] in Hsend.
  destruct (Z.eqb_spec (Z.of_nat (String.length DEVICE_TOKEN)) 0) as [|Htok];
    [done|].
  injection Hsend as <-.
  cbn [sd_used_mb sd_free_mb backlog_count]. fold total used.
  assert (H64 : ∀ z, 0 <= z < 2 ^ 51 → to_uint64 z = z).
  { intros z Hz. unfold to_uint64, wrap. apply Z.mod_small.
    change (2 ^ 51) with 2251799813685248 in Hz.
    change (2 ^ 64) with 18446744073709551616. lia. }
  rewrite !H64 by done. fold MiB.
  assert (Hmb : ∀ z, 0 <= z < 2 ^ 51 → 0 <= z / MiB < 2 ^ 31).
  { intros z Hz. unfold MiB. change (2 ^ 51) with 2251799813685248 in Hz.
    change (1024 * 1024) with 1048576. change (2 ^ 31) with 2147483648.
    split; [apply Z.div_pos; lia|].
    apply Z.div_lt_upper_bound; lia. }
  rewrite (to_int_small (used / MiB)) by by apply Hmb.
  rewrite Z.gtb_ltb.
  assert (Hfree : to_int ((if used <? total then total - used else 0) / MiB)
                  = if used <? total then (total - used) / MiB else 0).
  { destruct (Z.ltb_spec used total).
    - apply to_int_small, Hmb. lia.
    - done. }
  rewrite Hfree.
  split_and!; [done| |done|done| | |done].
  - intros ->. done.
  - destruct (Z.ltb_spec used total); [|done]. apply Z.div_pos; [lia|done].
  - intros Hle. destruct (Z.ltb_spec used total).
    + unfold MiB. change (1024 * 1024) with 1048576.
      pose proof (Z.div_mod used 1048576 ltac:(lia)).
      pose proof (Z.div_mod (total - used) 1048576 ltac:(lia)).
      pose proof (Z.div_mod total 1048576 ltac:(lia)).
      pose proof (Z.mod_pos_bound used 1048576 ltac:(lia)).
      pose proof (Z.mod_pos_bound (total - used) 1048576 ltac:(lia)).
      pose proof (Z.mod_pos_bound total 1048576 ltac:(lia)).
      lia.
    + replace total with used by lia. lia.
Qed.

Lemma send_telemetry_storage_witness :
  let st := backlog_state in
  let t := {| uptime_seconds := 5; sd_used_mb := 0; sd_free_mb := 0;
              backlog_count := 2; wifi_rssi := -60;
              firmware_version := FIRMWARE_VERSION |} in
  let total := sd_totalBytes (SD_MMC st) in
  let used := sd_usedBytes (SD_MMC st) (sd_files (SD_MMC st)) (sd_dirs (SD_MMC st)) in
  wifi_ok st = true ∧ "token" ≠ ""
  ∧ sd_used_mb t = used / MiB
  ∧ sd_free_mb t = (if used <? total then (total - used) / MiB else 0)
  ∧ 0 <= sd_free_mb t
  ∧ (used <= total → sd_used_mb t + sd_free_mb t <= total / MiB)
  ∧ backlog_count t = count_pending_manifests st.
Proof.
  apply (send_telemetry_storage "token" backlog_state (quiet_world 5000 100) (-60)).
  - vm_compute. reflexivity.
  - vm_compute. split; [discriminate|reflexivity].
  - vm_compute. split; [discriminate|reflexivity].
Defined.

(** ** Writing and loading manifests *)




(** What [load_manifest] returns is normalised: the item carries the path it
    was read from, which is a file of the card; its item type and content
    type are never empty (a manifest without them gets "audio" and
    "audio/wav" when its file path ends in [.wav], "photo" and "image/jpeg"
    otherwise); its seq is a 32-bit number and its three other numbers are
    [int] values. *)
Theorem load_manifest_normalised c path item status :
  load_manifest c path = Some (item, status) →
  manifest_path item = path
  ∧ is_Some (sd_files c !! path)
  ∧ isEmpty (item_type item) = false ∧ isEmpty (content_type item) = false
  ∧ 0 <= seq item < 2 ^ 32
  ∧ int_range (captured_epoch item) ∧ int_range (upload_attempts item)
  ∧ int_range (last_attempt_epoch item).
Proof.
  intros Hload.
  pose proof (load_manifest_path _ _ _ _ Hload) as Hpath.
  pose proof (load_manifest_types_set _ _ _ _ Hload) as [Hi Hc].
  assert (Hseq : 0 <= seq item < 2 ^ 32).
  { unfold load_manifest in Hload. destruct (sd_files c !! path); [|done].
    destruct (deserializeJson _); [|done]. injection Hload as <- _.
    apply to_uint32_range. }
  split; [done|]. split; [|split; [done|split; [done|split; [done|split_and!]]]].
  - unfold load_manifest in Hload. destruct (sd_files c !! path); [by eexists|done].
  - by pose proof (load_manifest_ranges _ _ _ _ Hload) as (_ & ? & _).
  - by pose proof (load_manifest_ranges _ _ _ _ Hload) as (_ & _ & ? & _).
  - by pose proof (load_manifest_ranges _ _ _ _ Hload) as (_ & _ & _ & ?).
Qed.

Lemma load_manifest_normalised_witness :
  let c := with_files example_card
             {[ "/manifests/7.json" :=
                  "{" +:+ DQ +:+ "filepath" +:+ DQ +:+ ":" +:+ DQ
                  +:+ "/audio/a.wav" +:+ DQ +:+ "," +:+ DQ +:+ "seq" +:+ DQ
                  +:+ ":7}" ]} in
  let item := {| manifest_path := "/manifests/7.json";
                 filepath := "/audio/a.wav"; item_type := "audio";
                 content_type := "audio/wav"; seq := 7; captured_epoch := 0;
                 upload_attempts := 0; last_attempt_epoch := 0 |} in
  load_manifest c "/manifests/7.json" = Some (item, "")
  ∧ (manifest_path item = "/manifests/7.json"
     ∧ is_Some (sd_files c !! "/manifests/7.json")
     ∧ isEmpty (item_type item) = false ∧ isEmpty (content_type item) = false
     ∧ 0 <= seq item < 2 ^ 32
     ∧ int_range (captured_epoch item) ∧ int_range (upload_attempts item)
     ∧ int_range (last_attempt_epoch item)).
Proof.
  intros c item.
  assert (Hload : load_manifest c "/manifests/7.json" = Some (item, ""))
    by (vm_compute; reflexivity).
  split; [exact Hload|].
  exact (load_manifest_normalised c "/manifests/7.json" item "" Hload).
Defined.

(** ** The sweep of find_oldest_pending *)







(** ** What an upload changes *)




(** A manifest that is not PENDING is left as it is by
    [upload_one_pending]. *)
Lemma upload_one_pending_keeps_settled DEVICE_TOKEN st w net n item status :
  wf_card (SD_MMC st) → status ≠ "PENDING" →
  manifest_at (SD_MMC st) n = Some (item, status) →
  let st' := (upload_one_pending DEVICE_TOKEN st w net).2 in
  wf_card (SD_MMC st') ∧ manifest_at (SD_MMC st') n = Some (item, status).
Proof.
  intros Hwf Hst Hm st'.
  destruct (negb (sd_ok st) || negb (wifi_ok st)) eqn:Hguard.
  { subst st'. unfold upload_one_pending. by rewrite Hguard. }
  apply orb_false_iff in Hguard as [Hsd%negb_false_iff Hwifi%negb_false_iff].
  destruct (find_oldest_pending st w) as [[found item0] st1] eqn:Hfind.
  destruct (find_oldest_pending_wf st w found item0 st1 Hwf Hfind)
    as (Hwf1 & Hsw & _ & _).
  assert (Hm1 : manifest_at (SD_MMC st1) n = Some (item, status)).
  { destruct (Hsw n) as [->|(item' & Hp & _)]; [done|].
    rewrite Hm in Hp. by injection Hp as _ ->. }
  destruct (upload_one_pending_wf DEVICE_TOKEN st w net found item0 st1
              Hsd Hwifi Hwf Hfind) as (Hwf' & _ & _ & Hcase).
  fold st' in Hwf'. split; [done|]. destruct found.
  - destruct Hcase as (n0 & Hm0 & _ & _ & Hrest). subst st'.
    rewrite Hrest; [done|]. intros ->. rewrite Hm in Hm0.
    by injection Hm0 as _ ->.
  - subst st'. by rewrite Hcase.
Qed.

Lemma upload_batch_from_settled k DEVICE_TOKEN st w nets n item status :
  wf_card (SD_MMC st) → status ≠ "PENDING" →
  manifest_at (SD_MMC st) n = Some (item, status) →
  let st' := upload_batch_from k DEVICE_TOKEN st w nets in
  wf_card (SD_MMC st') ∧ manifest_at (SD_MMC st') n = Some (item, status).
Proof.
  revert st nets. induction k as [|k IH]; intros st nets Hwf Hst Hm; [done|].
  cbn [upload_batch_from].
  destruct (upload_one_pending_keeps_settled DEVICE_TOKEN st w
              (hd no_network nets) n item status Hwf Hst Hm) as [Hwf' Hm'].
  destruct (upload_one_pending _ _ _ _) as [[] st1]; cbn [snd] in *;
    [by apply IH|done].
Qed.

(** [upload_batch] keeps a well-formed card well-formed and leaves every
    manifest whose status is not PENDING exactly as it is: what is
    UPLOADED is not uploaded again, what is FAILED is not tried again. *)
Theorem upload_batch_keeps_settled DEVICE_TOKEN st w n item status :
  wf_card (SD_MMC st) → status ≠ "PENDING" →
  manifest_at (SD_MMC st) n = Some (item, status) →
  let st' := upload_batch DEVICE_TOKEN st w in
  wf_card (SD_MMC st') ∧ manifest_at (SD_MMC st') n = Some (item, status).
Proof. intros. by apply upload_batch_from_settled. Qed.

Lemma upload_batch_keeps_settled_witness :
  let st := backlog_state in
  let w := quiet_world 5000 1100 in
  let st' := upload_batch "token" st w in
  ∃ item,
    manifest_at (SD_MMC st) "3.json" = Some (item, "UPLOADED")
    ∧ wf_card (SD_MMC st')
    ∧ manifest_at (SD_MMC st') "3.json" = Some (item, "UPLOADED").
Proof.
  eexists. split; [by vm_compute|].
  apply (upload_batch_keeps_settled "token" backlog_state (quiet_world 5000 1100)
           "3.json").
  - apply wf_cardb_sound. by vm_compute.
  - discriminate.
  - by vm_compute.
Defined.

(** ** Clips that are kept and clips that are dropped *)

(** [finish_audio_recording] on a recording of fewer than
    [AUDIO_MIN_SEC * AUDIO_SAMPLE_RATE] samples, whatever [keep] is: the
    clip is unlinked, no other file is touched (so no manifest is written)
    and the recording variables are reset.  On a longer recording with
    [keep] set and a file path, the files are those
    [write_manifest_atomic] leaves for a PENDING audio manifest carrying the
    recording's seq, path and start epoch, and the clip stays. *)
Theorem finish_audio_recording_min_length st keep :
  audio_recording (audio st) = true →
  let st' := finish_audio_recording st keep in
  let path := audio_filepath (audio st) in
  (audio_samples_written (audio st) < AUDIO_MIN_SEC * AUDIO_SAMPLE_RATE →
   sd_files (SD_MMC st')
   = if isEmpty path then sd_files (SD_MMC st)
     else delete path (sd_files (SD_MMC st)))
  ∧ (AUDIO_MIN_SEC * AUDIO_SAMPLE_RATE <= audio_samples_written (audio st) →
     keep = true → isEmpty path = false →
     SD_MMC st'
     = SD_MMC (write_manifest_atomic st (audio_seq (audio st)) path
                 (audio_start_epoch (audio st)) "PENDING" "audio" "audio/wav"
                 0 0).2)
  ∧ audio_recording (audio st') = false
  ∧ audio_samples_written (audio st') = 0
  ∧ audio_filepath (audio st') = ""
  ∧ audio_file (audio st') = false
  ∧ audio_force_active (audio st') = false.
Proof.
  intros Hr st' path. subst st'. rewrite finish_audio_recording_shape by done.
  fold path.
  cbn [SD_MMC set_SD_MMC audio upd_audio set_audio a_reset a_file
       audio_recording audio_samples_written audio_filepath audio_file
       audio_force_active].
  split_and!; try done.
  - intros Hshort.
    destruct (Z.ltb_spec (audio_samples_written (audio st))
                (AUDIO_MIN_SEC * AUDIO_SAMPLE_RATE)); [|lia].
    cbn [negb orb]. destruct (isEmpty path); [done|]. cbn [negb andb].
    apply (remove_if_exists_files (SD_MMC st) path).
  - intros Hlong -> Hpath.
    destruct (Z.ltb_spec (audio_samples_written (audio st))
                (AUDIO_MIN_SEC * AUDIO_SAMPLE_RATE)); [lia|].
    by rewrite Hpath.
Qed.

Lemma finish_audio_recording_min_length_witness :
  let st := loop "token" booted_state (quiet_world 2000 1000) in
  let st' := finish_audio_recording st true in
  let path := audio_filepath (audio st) in
  (audio_samples_written (audio st) < AUDIO_MIN_SEC * AUDIO_SAMPLE_RATE →
   sd_files (SD_MMC st')
   = if isEmpty path then sd_files (SD_MMC st)
     else delete path (sd_files (SD_MMC st)))
  ∧ (AUDIO_MIN_SEC * AUDIO_SAMPLE_RATE <= audio_samples_written (audio st) →
     true = true → isEmpty path = false →
     SD_MMC st'
     = SD_MMC (write_manifest_atomic st (audio_seq (audio st)) path
                 (audio_start_epoch (audio st)) "PENDING" "audio" "audio/wav"
                 0 0).2)
  ∧ audio_recording (audio st') = false
  ∧ audio_samples_written (audio st') = 0
  ∧ audio_filepath (audio st') = ""
  ∧ audio_file (audio st') = false
  ∧ audio_force_active (audio st') = false.
Proof.
  apply (finish_audio_recording_min_length
           (loop "token" booted_state (quiet_world 2000 1000)) true).
  by vm_compute.
Defined.

(** The boot photo's clip, finished after one frame while the ring holds
    nothing yet: 320 samples are too few, and the clip is unlinked. *)
Example short_clip_is_unlinked :
  let st := loop "token" booted_state (quiet_world 2000 1000) in
  let st' := finish_audio_recording st true in
  audio_samples_written (audio st) = 320
  ∧ is_Some (sd_files (SD_MMC st) !! audio_filepath (audio st))
  ∧ sd_files (SD_MMC st') !! audio_filepath (audio st) = None
  ∧ manifest_at (SD_MMC st') "1.json" = None.
Proof. vm_compute. split_and!; try done. by eexists. Qed.

(** ** Which forced start is served *)

(** With both flags raised on an idle state, the tick serves the photo
    clip: its flag is cleared, the heartbeat flag stays raised, and if a
    recording results it is the photo's, forced to stop after the preroll
    and [AUDIO_PHOTO_CLIP_POST_MS], and stamped with the adjusted photo
    epoch (the adjusted current epoch when the photo epoch is not
    positive). *)
Theorem photo_clip_served_first st w :
  frame_read st w = true → audio_recording (audio st) = false →
  audio_photo_clip_pending (audio st) = true →
  audio_heartbeat_pending (audio st) = true →
  let st' := audio_tick st w in
  audio_photo_clip_pending (audio st') = false
  ∧ audio_heartbeat_pending (audio st') = true
  ∧ (audio_recording (audio st') = true →
     audio_force_active (audio st') = true
     ∧ audio_start_epoch (audio st')
       = adjust_start_epoch
           (if audio_photo_clip_epoch (audio st) >? 0
            then audio_photo_clip_epoch (audio st) else now_epoch st w)).
Proof.
  intros Hfr Hr Hp Hh st'. subst st'.
  rewrite audio_tick_forced by (by rewrite ?Hp).
  unfold forced_start. rewrite Hp.
  match goal with
  | |- context [start_audio_recording ?s ?w ?n ?e ?f] =>
      pose proof (start_audio_recording_spec s w n e f) as (H1 & H2 & H3)
  end.
  cbv zeta in H1, H2, H3. specialize (H3 Hr). rewrite H1, H2.
  split_and!; [done|done|]. intros Hrec.
  destruct (start_audio_recording _ _ _ _ _) as [[] st2]; cbn [fst snd] in *;
    [|destruct H3; congruence].
  destruct H3 as (_ & -> & ->). done.
Qed.

Lemma photo_clip_served_first_witness :
  let st := upd_audio (a_heartbeat true 0) photo_clip_due_state in
  let w := quiet_world 0 1000 in
  let st' := audio_tick st w in
  audio_photo_clip_pending (audio st') = false
  ∧ audio_heartbeat_pending (audio st') = true
  ∧ (audio_recording (audio st') = true →
     audio_force_active (audio st') = true
     ∧ audio_start_epoch (audio st')
       = adjust_start_epoch
           (if audio_photo_clip_epoch (audio st) >? 0
            then audio_photo_clip_epoch (audio st) else now_epoch st w)).
Proof.
  apply (photo_clip_served_first
           (upd_audio (a_heartbeat true 0) photo_clip_due_state)
           (quiet_world 0 1000)); reflexivity.
Defined.

(** ** A pass of loop() during a recording *)

(** When a recording is going on after [audio_tick], the rest of the pass
    is the photo capture alone: no Wi-Fi or NTP retry, no heartbeat, no
    upload, no retention sweep, no telemetry, and none of their timers
    moves. *)
Theorem loop_while_recording DEVICE_TOKEN st w :
  audio_recording (audio (audio_tick st w)) = true →
  loop DEVICE_TOKEN st w = loop_capture (audio_tick st w) w.
Proof.
  intros Hr. unfold loop, loop_after_tick, loop_connect_capture.
  set (s := audio_tick st w) in *.
  assert (H1 : loop_wifi s w = s).
  { unfold loop_wifi. by rewrite Hr, andb_false_r. }
  rewrite H1.
  assert (H2 : loop_ntp s w = s).
  { unfold loop_ntp. by rewrite Hr, andb_false_r. }
  rewrite H2.
  assert (H3 : audio_recording (audio (loop_capture s w)) = true).
  { destruct (loop_capture_audio s w) as [->|(_ & ? & _)]; congruence. }
  set (s3 := loop_capture s w) in *.
  assert (H4 : loop_heartbeat s3 w = s3).
  { unfold loop_heartbeat. rewrite H3. by destruct (_ && _). }
  rewrite H4. unfold loop_tail.
  assert (H5 : loop_upload DEVICE_TOKEN s3 w = s3).
  { unfold loop_upload. by rewrite H3. }
  rewrite H5.
  assert (H6 : loop_retention s3 w = s3).
  { unfold loop_retention. by rewrite H3. }
  rewrite H6. unfold loop_telemetry. by rewrite H3.
Qed.

Lemma loop_while_recording_witness :
  let st := loop "token" heartbeat_due_state (quiet_world 0 1000) in
  let w := quiet_world 400000 1010 in
  loop "token" st w = loop_capture (audio_tick st w) w.
Proof.
  apply (loop_while_recording "token"
           (loop "token" heartbeat_due_state (quiet_world 0 1000))
           (quiet_world 400000 1010)).
  by vm_compute.
Defined.

(** ** Timers and the rollover of millis() *)

Lemma ulong_sub_elapsed t d :
  0 <= d < 2 ^ 32 → ulong_sub (to_uint32 (t + d)) (to_uint32 t) = d.
Proof.
  intros Hd. unfold ulong_sub, to_uint32, wrap.
  rewrite <- Zminus_mod. replace (t + d - t) with d by lia.
  by apply Z.mod_small.
Qed.

(** The interval tests of [loop()] measure the time that has really
    passed, also when [millis()] has wrapped round in between: if the last
    capture was at millisecond [t] and the pass runs [d] milliseconds
    later, with [d] below [2^32], the capture is attempted exactly when
    [d] has reached [CAPTURE_INTERVAL_MS], and the timer then holds the
    time of the pass. *)
Theorem loop_capture_interval st w t d :
  last_capture st = to_uint32 t → w_millis w = t + d → 0 <= d < 2 ^ 32 →
  loop_capture st w
  = if CAPTURE_INTERVAL_MS <=? d
    then set_last_capture (to_uint32 (t + d)) (capture_and_save st w).2
    else st.
Proof.
  intros Hl Hm Hd. unfold loop_capture.
  by rewrite Hl, Hm, ulong_sub_elapsed.
Qed.

Lemma loop_capture_interval_witness :
  let st := set_last_capture (2 ^ 32 - 10000) (example_state example_card) in
  let w := quiet_world (2 ^ 32 + 25000) 1000 in
  loop_capture st w
  = if CAPTURE_INTERVAL_MS <=? 35000
    then set_last_capture (to_uint32 (2 ^ 32 - 10000 + 35000))
           (capture_and_save st w).2
    else st.
Proof.
  apply (loop_capture_interval
           (set_last_capture (2 ^ 32 - 10000) (example_state example_card))
           (quiet_world (2 ^ 32 + 25000) 1000) (2 ^ 32 - 10000) 35000).
  - reflexivity.
  - reflexivity.
  - vm_compute. split; [discriminate|reflexivity].
Defined.

(** ** The backoff that is applied *)

(** A PENDING manifest with attempts left is kept waiting by the backoff
    only after one attempt, for less than [UPLOAD_BACKOFF_SEC_1], or after
    two, for less than [UPLOAD_BACKOFF_SEC_2]: the third delay of
    [backoff_seconds] is never applied, since three attempts make the
    manifest FAILED.  So once [UPLOAD_BACKOFF_SEC_2] seconds have passed
    since its last attempt, such a manifest is among the candidates of
    [find_oldest_pending]. *)
Theorem backoff_at_most_second_stage now c item :
  (item, "PENDING") ∈ manifests c →
  upload_attempts item < UPLOAD_MAX_ATTEMPTS →
  (in_backoff now item = true →
   (upload_attempts item = 1 ∧ now - last_attempt_epoch item < UPLOAD_BACKOFF_SEC_1)
   ∨ (upload_attempts item = 2
      ∧ now - last_attempt_epoch item < UPLOAD_BACKOFF_SEC_2))
  ∧ (UPLOAD_BACKOFF_SEC_2 <= now - last_attempt_epoch item →
     item ∈ pending_items now c).
Proof.
  intros Hin Hlt.
  assert (Hb : in_backoff now item = true →
            (upload_attempts item = 1
             ∧ now - last_attempt_epoch item < UPLOAD_BACKOFF_SEC_1)
            ∨ (upload_attempts item = 2
               ∧ now - last_attempt_epoch item < UPLOAD_BACKOFF_SEC_2)).
  { unfold in_backoff, backoff_seconds.
    unfold UPLOAD_MAX_ATTEMPTS, UPLOAD_BACKOFF_SEC_1, UPLOAD_BACKOFF_SEC_2,
      UPLOAD_BACKOFF_SEC_3 in *.
    destruct (Z.leb_spec (upload_attempts item) 0); [done|].
    destruct (Z.eqb_spec (upload_attempts item) 1).
    - cbn [Z.gtb Z.compare andb]. intros ?%Z.ltb_lt. by left.
    - destruct (Z.eqb_spec (upload_attempts item) 2); [|lia].
      cbn [Z.gtb Z.compare andb]. intros ?%Z.ltb_lt. by right. }
  split; [done|]. intros Hwait.
  apply elem_of_pending_items. split_and!; [done|done|].
  destruct (in_backoff now item) eqn:Hib; [|done].
  unfold UPLOAD_BACKOFF_SEC_1, UPLOAD_BACKOFF_SEC_2 in *.
  destruct (Hb eq_refl) as [[_ ?]|[_ ?]]; lia.
Qed.

Lemma backoff_at_most_second_stage_witness :
  let c := SD_MMC backlog_state in
  let item := (find_oldest_pending backlog_state (quiet_world 5000 2000)).1.2 in
  upload_attempts item = 2
  ∧ (in_backoff 1100 item = true →
     (upload_attempts item = 1 ∧ 1100 - last_attempt_epoch item < UPLOAD_BACKOFF_SEC_1)
     ∨ (upload_attempts item = 2
        ∧ 1100 - last_attempt_epoch item < UPLOAD_BACKOFF_SEC_2))
  ∧ (UPLOAD_BACKOFF_SEC_2 <= 1100 - last_attempt_epoch item →
     item ∈ pending_items 1100 c).
Proof.
  split; [by vm_compute|].
  apply (backoff_at_most_second_stage 1100 (SD_MMC backlog_state)).
  - apply elem_of_manifests. exists "1.json". split.
    + apply elem_of_SD_list. split_and!; [vm_compute; by eexists|done|done].
    + by vm_compute.
  - by vm_compute.
Defined.

(** ** What a pass of loop() leaves alone *)

Lemma media_only_refl st : media_only st st.
Proof. by repeat split. Qed.

Lemma media_only_trans a b c : media_only a b → media_only b c → media_only a c.
Proof. unfold media_only. intros Hab Hbc. destruct_and!. repeat split; congruence. Qed.

Lemma media_only_card st c : media_only st (set_SD_MMC c st).
Proof. by repeat split. Qed.

Lemma media_only_audio st f : media_only st (upd_audio f st).
Proof. by repeat split. Qed.

Lemma same_ring_refl st : same_ring st st.
Proof. by repeat split. Qed.

Lemma same_ring_trans a b c : same_ring a b → same_ring b c → same_ring a c.
Proof. unfold same_ring. intros Hab Hbc. destruct_and!. repeat split; congruence. Qed.

Lemma write_manifest_atomic_media st sq fp ce stt ity cty ua la :
  let st' := (write_manifest_atomic st sq fp ce stt ity cty ua la).2 in
  media_only st st' ∧ audio st' = audio st ∧ prefs_seq st' = prefs_seq st.
Proof.
  destruct (write_manifest_atomic_card st sq fp ce stt ity cty ua la) as [c Hc].
  cbv zeta. rewrite Hc. split; [apply media_only_card|done].
Qed.

Lemma finish_audio_recording_media st keep :
  let st' := finish_audio_recording st keep in
  media_only st st' ∧ same_ring st st' ∧ prefs_seq st' = prefs_seq st.
Proof.
  destruct (audio_recording (audio st)) eqn:Hr.
  - cbv zeta. rewrite finish_audio_recording_shape by done.
    split; [by repeat split|]. split; [by repeat split|done].
  - unfold finish_audio_recording. rewrite Hr. cbn [negb].
    split; [apply media_only_refl|]. split; [apply same_ring_refl|done].
Qed.

Lemma preroll_write_same a b : same_ring a b → preroll_write b = preroll_write a.
Proof. intros (H1 & H2 & H3). unfold preroll_write. by rewrite H1, H2, H3. Qed.

(** [start_audio_recording]: what it leaves alone; that it does nothing on
    an unmounted card or while capture is paused; and the sample count and
    stop mark of the recording it starts. *)
Lemma start_audio_recording_media st w count epoch force :
  let r := start_audio_recording st w count epoch force in
  media_only st r.2 ∧ same_ring st r.2
  ∧ (negb (sd_ok st) || capture_paused st = true → r = (false, st))
  ∧ (audio_recording (audio st) = false → r.1 = true →
     audio_samples_written (audio r.2) = preroll_write st + count
     ∧ audio_force_stop_samples (audio r.2) = force
     ∧ sd_ok st = true ∧ capture_paused st = false).
Proof.
  unfold start_audio_recording.
  destruct (negb (sd_ok st) || capture_paused st) eqn:Hguard.
  { split; [apply media_only_refl|]. split; [apply same_ring_refl|done]. }
  apply orb_false_iff in Hguard as [Hsd%negb_false_iff Hcp].
  destruct (audio_recording (audio st)) eqn:Hr.
  { split; [apply media_only_refl|]. split; [apply same_ring_refl|done]. }
  cbn [get_next_seq]. cbv zeta.
  set (st1 := upd_audio _ _).
  destruct (ensure_audio_folder_card st1 w (build_audio_folder st1 w))
    as (c & Hc & Hfiles).
  destruct (ensure_audio_folder _ _ _) as [[] st2]; cbn [snd] in Hc; subst st2.
  2:{ cbn [fst snd]. split; [by repeat split|]. split; [by repeat split|done]. }
  destruct (negb (w_audio_open_ok w)).
  { cbn [fst snd]. split; [by repeat split|]. split; [by repeat split|done]. }
  set (path := build_audio_folder _ _ +:+ build_audio_filename _ _ _).
  unfold write_audio_frame.
  cbn [upd_audio audio set_audio a_recording a_vad_under a_samples_written
       a_file audio_file negb].
  destruct (negb (w_audio_write_ok w)).
  - cbn [fst snd].
    match goal with
    | |- context [finish_audio_recording ?s false] => set (st3 := s)
    end.
    destruct (finish_audio_recording_media st3 false) as (Hm & Hs & _).
    split; [|split; [|done]].
    + eapply media_only_trans; [|exact Hm]. by repeat split.
    + eapply same_ring_trans; [|exact Hs]. by repeat split.
  - cbn [fst snd]. split; [by repeat split|]. split; [by repeat split|].
    split; [done|]. intros _ _. split_and!; try done.
Qed.

Lemma preroll_push_media st count :
  media_only st (preroll_push st count)
  ∧ prefs_seq (preroll_push st count) = prefs_seq st
  ∧ SD_MMC (preroll_push st count) = SD_MMC st
  ∧ audio_samples_written (audio (preroll_push st count))
    = audio_samples_written (audio st).
Proof.
  unfold preroll_push. destruct (_ || _); [|done].
  split; [apply media_only_refl|done].
Qed.

Lemma audio_tick_media st w : media_only st (audio_tick st w).
Proof.
  unfold audio_tick. destruct (negb (audio_ok st)); [apply media_only_refl|].
  destruct (negb (w_i2s_ok w)); [apply media_only_refl|]. cbv zeta.
  destruct (_ =? 0); [apply media_only_refl|].
  destruct (negb (audio_recording (audio st))).
  - destruct (audio_photo_clip_pending (audio st)).
    { eapply media_only_trans; [|apply start_audio_recording_media].
      apply media_only_audio. }
    destruct (audio_heartbeat_pending (audio st)).
    { eapply media_only_trans; [|apply start_audio_recording_media].
      apply media_only_audio. }
    unfold audio_tick_vad_idle. cbv zeta.
    destruct (preroll_push_media st (w_bytes_read w / 2)) as [Hp _].
    set (st1 := if w_rms_over_start w then _ else _).
    assert (H1 : media_only st st1).
    { unfold st1. destruct (w_rms_over_start w);
        (eapply media_only_trans; [exact Hp|apply media_only_audio]). }
    clearbody st1. destruct (_ <=? _); [|done].
    pose proof (start_audio_recording_media st1 w (w_bytes_read w / 2)
                  (now_epoch st1 w) 0) as [Hs _].
    destruct (start_audio_recording _ _ _ _ _) as [[] st2]; cbn [snd] in Hs.
    + eapply media_only_trans; [exact H1|].
      eapply media_only_trans; [exact Hs|apply media_only_audio].
    + by eapply media_only_trans.
  - unfold audio_tick_recording, write_audio_frame.
    assert (Hfin : ∀ s keep, media_only st s →
              media_only st (finish_audio_recording s keep)).
    { intros s keep Hs. eapply media_only_trans; [exact Hs|].
      apply finish_audio_recording_media. }
    destruct (negb (audio_file (audio st))); [apply Hfin, media_only_refl|].
    destruct (negb (w_audio_write_ok w)); [apply Hfin, media_only_refl|].
    set (st1 := upd_audio _ st).
    assert (H1 : media_only st st1) by apply media_only_audio.
    destruct (audio_force_active (audio st1)).
    + destruct (_ && _); [by apply Hfin|done].
    + set (st2 := if w_rms_under_stop w then _ else _).
      assert (H2 : media_only st st2).
      { unfold st2. destruct (w_rms_under_stop w);
          (eapply media_only_trans; [exact H1|apply media_only_audio]). }
      destruct (_ || _); [by apply Hfin|done].
Qed.

Lemma capture_and_save_media st w :
  media_only st (capture_and_save st w).2
  ∧ (negb (sd_ok st) || negb (camera_ok st) || capture_paused st = true →
     capture_and_save st w = (false, st)).
Proof.
  unfold capture_and_save.
  destruct (negb (sd_ok st) || negb (camera_ok st)); cbn [orb];
    [split; [apply media_only_refl|done]|].
  destruct (capture_paused st); [split; [apply media_only_refl|done]|].
  split; [|done].
  destruct (w_camera_fb w) as [fb_len|]; [|apply media_only_refl].
  cbn [get_next_seq]. cbv zeta.
  set (st1 := set_prefs_seq _ st).
  set (st2 := if negb (SD_exists (SD_MMC st1) (build_date_folder st1 w))
              then set_SD_MMC (SD_mkdir (SD_MMC st1) (build_date_folder st1 w)) st1
              else st1).
  assert (H2 : media_only st st2).
  { unfold st2. by destruct (negb _); repeat split. }
  clearbody st2.
  destruct (negb (w_photo_open_ok w)); [done|].
  destruct (negb (_ =? _)); [by repeat split; apply H2|].
  match goal with
  | |- context [write_manifest_atomic ?s ?a ?b ?c ?d ?e ?f ?g ?h] =>
      destruct (write_manifest_atomic_card s a b c d e f g h) as [c3 ->]
  end.
  cbn [snd]. destruct (_ && _); by repeat split; apply H2.
Qed.

Lemma upload_batch_card DEVICE_TOKEN st w :
  ∃ c, upload_batch DEVICE_TOKEN st w = set_SD_MMC c st.
Proof.
  unfold upload_batch. generalize (w_uploads w) as nets.
  generalize UPLOAD_BATCH_SIZE as n. intros n. revert st.
  induction n as [|n IH]; intros st nets.
  - exists (SD_MMC st). by destruct st.
  - cbn [upload_batch_from].
    destruct (upload_one_pending_card DEVICE_TOKEN st w (hd no_network nets))
      as [c Hc].
    destruct (upload_one_pending _ _ _ _) as [[] st']; cbn [snd] in Hc; subst st';
      [|by exists c].
    destruct (IH (set_SD_MMC c st) (tl nets)) as [c' ->]. by exists c'.
Qed.

Lemma retention_loop_card fuel st free_pct deletions r :
  retention_loop fuel st free_pct deletions = Some r →
  ∃ c, r.1.1 = set_SD_MMC c st.
Proof.
  revert st free_pct deletions.
  induction fuel as [|fuel IH]; intros st free_pct deletions;
    cbn [retention_loop];
    (destruct (negb _); [intros [= <-]; exists (SD_MMC st); by destruct st|]);
    [done|].
  destruct (find_oldest_uploaded st) as [[] item];
    [|intros [= <-]; exists (SD_MMC st); by destruct st].
  intros [c ->]%IH. by eexists.
Qed.

Lemma enforce_retention_card st r :
  enforce_retention st = Some r →
  ∃ c b, r.1 = set_capture_paused b (set_SD_MMC c st).
Proof.
  unfold enforce_retention.
  destruct (negb _).
  { intros [= <-]. exists (SD_MMC st), (capture_paused st). by destruct st. }
  destruct (_ <=? _).
  { intros [= <-]. exists (SD_MMC st), false. by destruct st. }
  destruct (retention_loop _ _ _ _) as [[[st' pct] dels]|] eqn:Hloop; [|done].
  intros [= <-]. apply retention_loop_card in Hloop as [c Hc].
  cbn [fst] in *. subst st'. by eexists _, _.
Qed.

(** A pass of [loop()] never changes [sd_ok], [camera_ok] or [audio_ok]: a
    card, camera or microphone that failed in [setup()] is not tried again,
    and one that worked is never marked as lost.  It never clears
    [wifi_ok] or [ntp_synced] either: a lost connection is not noticed. *)
Theorem loop_keeps_devices DEVICE_TOKEN st w :
  let st' := loop DEVICE_TOKEN st w in
  sd_ok st' = sd_ok st ∧ camera_ok st' = camera_ok st
  ∧ audio_ok st' = audio_ok st
  ∧ (wifi_ok st = true → wifi_ok st' = true)
  ∧ (ntp_synced st = true → ntp_synced st' = true).
Proof.
  intros st'. subst st'. unfold loop, loop_after_tick, loop_connect_capture.
  pose proof (audio_tick_media st w) as H0.
  set (s0 := audio_tick st w) in *.
  assert (H1 : sd_ok (loop_wifi s0 w) = sd_ok s0
               ∧ camera_ok (loop_wifi s0 w) = camera_ok s0
               ∧ audio_ok (loop_wifi s0 w) = audio_ok s0
               ∧ (wifi_ok s0 = true → wifi_ok (loop_wifi s0 w) = true)
               ∧ ntp_synced (loop_wifi s0 w) = ntp_synced s0).
  { unfold loop_wifi. destruct (wifi_ok s0) eqn:Hw; [done|].
    by destruct (_ && _). }
  set (s1 := loop_wifi s0 w) in *.
  assert (H2 : sd_ok (loop_ntp s1 w) = sd_ok s1
               ∧ camera_ok (loop_ntp s1 w) = camera_ok s1
               ∧ audio_ok (loop_ntp s1 w) = audio_ok s1
               ∧ wifi_ok (loop_ntp s1 w) = wifi_ok s1
               ∧ (ntp_synced s1 = true → ntp_synced (loop_ntp s1 w) = true)).
  { unfold loop_ntp. destruct (ntp_synced s1) eqn:Hn.
    - by rewrite andb_false_r.
    - by destruct (_ && _). }
  set (s2 := loop_ntp s1 w) in *.
  assert (H3 : media_only s2 (capture_and_save s2 w).2)
    by apply capture_and_save_media.
  assert (H3' : sd_ok (loop_capture s2 w) = sd_ok s2
                ∧ camera_ok (loop_capture s2 w) = camera_ok s2
                ∧ audio_ok (loop_capture s2 w) = audio_ok s2
                ∧ wifi_ok (loop_capture s2 w) = wifi_ok s2
                ∧ ntp_synced (loop_capture s2 w) = ntp_synced s2).
  { unfold loop_capture. destruct (_ <=? _); [|done].
    unfold media_only in H3. destruct_and!. by repeat split. }
  set (s3 := loop_capture s2 w) in *.
  assert (H4 : media_only s3 (loop_heartbeat s3 w)).
  { unfold loop_heartbeat. destruct (_ && AUDIO_HEARTBEAT_ENABLED);
      [|apply media_only_refl].
    destruct (_ && _); [apply media_only_audio|apply media_only_refl]. }
  set (s4 := loop_heartbeat s3 w) in *.
  assert (H5 : sd_ok (loop_tail DEVICE_TOKEN s4 w) = sd_ok s4
               ∧ camera_ok (loop_tail DEVICE_TOKEN s4 w) = camera_ok s4
               ∧ audio_ok (loop_tail DEVICE_TOKEN s4 w) = audio_ok s4
               ∧ wifi_ok (loop_tail DEVICE_TOKEN s4 w) = wifi_ok s4
               ∧ ntp_synced (loop_tail DEVICE_TOKEN s4 w) = ntp_synced s4).
  { clearbody s4. clear. unfold loop_tail.
    assert (Hu : ∃ c t, loop_upload DEVICE_TOKEN s4 w
                        = set_last_upload t (set_SD_MMC c s4)).
    { unfold loop_upload. destruct (_ && _).
      - destruct (upload_batch_card DEVICE_TOKEN s4 w) as [c ->]. by eexists _, _.
      - exists (SD_MMC s4), (last_upload s4). by destruct s4. }
    destruct Hu as (c & t & ->).
    set (s5 := set_last_upload t (set_SD_MMC c s4)).
    assert (Hr : ∃ c' b t', loop_retention s5 w
                   = set_last_retention_check t'
                       (set_capture_paused b (set_SD_MMC c' s5))).
    { unfold loop_retention. destruct (_ && _).
      - destruct (enforce_retention s5) as [r|] eqn:He.
        + destruct (enforce_retention_card _ _ He) as (c' & b & Hr).
          destruct r as [s' d]. cbn [fst] in Hr. subst s'. by eexists _, _, _.
        + exists (SD_MMC s5), (capture_paused s5). eexists. by destruct s4.
      - exists (SD_MMC s5), (capture_paused s5), (last_retention_check s5).
        by destruct s4. }
    destruct Hr as (c' & b & t' & ->).
    unfold loop_telemetry. by destruct (_ && _). }
  destruct H0 as (A1 & A2 & A3 & A4 & A5 & _).
  destruct H1 as (B1 & B2 & B3 & B4 & B5).
  destruct H2 as (C1 & C2 & C3 & C4 & C5).
  destruct H3' as (D1 & D2 & D3 & D4 & D5).
  destruct H4 as (E1 & E2 & E3 & E4 & E5 & _).
  destruct H5 as (F1 & F2 & F3 & F4 & F5).
  split_and!.
  - by rewrite F1, E1, D1, C1, B1, A1.
  - by rewrite F2, E2, D2, C2, B2, A2.
  - by rewrite F3, E3, D3, C3, B3, A3.
  - intros Hw. rewrite F4, E4, D4, C4. apply B4. by rewrite A4.
  - intros Hn. rewrite F5, E5, D5. apply C5. by rewrite B5, A5.
Qed.

(** ** While capture is paused *)

Lemma loop_tail_prefs_seq DEVICE_TOKEN st w :
  prefs_seq (loop_tail DEVICE_TOKEN st w) = prefs_seq st.
Proof.
  unfold loop_tail.
  assert (Hu : prefs_seq (loop_upload DEVICE_TOKEN st w) = prefs_seq st).
  { unfold loop_upload. destruct (_ && _); [|done].
    by destruct (upload_batch_card DEVICE_TOKEN st w) as [c ->]. }
  assert (Hr : ∀ s, prefs_seq (loop_retention s w) = prefs_seq s).
  { intros s. unfold loop_retention. destruct (_ && _); [|done].
    destruct (enforce_retention s) as [r|] eqn:He; [|done].
    destruct (enforce_retention_card _ _ He) as (c' & b & Hr).
    destruct r as [s' d]. cbn [fst] in Hr. by subst s'. }
  assert (Ht : ∀ s, prefs_seq (loop_telemetry s w) = prefs_seq s).
  { intros s. unfold loop_telemetry. by destruct (_ && _). }
  by rewrite Ht, Hr, Hu.
Qed.

Lemma audio_tick_blocked st w :
  negb (sd_ok st) || capture_paused st = true →
  prefs_seq (audio_tick st w) = prefs_seq st
  ∧ (audio_recording (audio st) = false →
     audio_recording (audio (audio_tick st w)) = false).
Proof.
  intros Hb.
  assert (Hstart : ∀ s n e f,
            sd_ok s = sd_ok st → capture_paused s = capture_paused st →
            start_audio_recording s w n e f = (false, s)).
  { intros s n e f H1 H2.
    apply (start_audio_recording_media s w n e f). by rewrite H1, H2. }
  clear Hb. unfold audio_tick. destruct (negb (audio_ok st)); [done|].
  destruct (negb (w_i2s_ok w)); [done|]. cbv zeta.
  destruct (_ =? 0); [done|].
  destruct (audio_recording (audio st)) eqn:Hr; cbn [negb].
  - split; [|done]. unfold audio_tick_recording, write_audio_frame.
    assert (Hfin : ∀ s keep, prefs_seq s = prefs_seq st →
              prefs_seq (finish_audio_recording s keep) = prefs_seq st).
    { intros s keep <-. apply finish_audio_recording_media. }
    destruct (negb (audio_file (audio st))); [by apply Hfin|].
    destruct (negb (w_audio_write_ok w)); [by apply Hfin|].
    set (st1 := upd_audio _ st).
    destruct (audio_force_active (audio st1)).
    + destruct (_ && _); [by apply Hfin|done].
    + set (st2 := if w_rms_under_stop w then _ else _).
      assert (H2 : prefs_seq st2 = prefs_seq st)
        by (unfold st2; by destruct (w_rms_under_stop w)).
      destruct (_ || _); [by apply Hfin|done].
  - destruct (audio_photo_clip_pending (audio st)).
    { by rewrite Hstart. }
    destruct (audio_heartbeat_pending (audio st)).
    { by rewrite Hstart. }
    unfold audio_tick_vad_idle. cbv zeta.
    destruct (preroll_push_audio st (w_bytes_read w / 2)) as (Hp1 & _).
    destruct (preroll_push_media st (w_bytes_read w / 2)) as (Hm & Hp2 & _).
    set (st1 := if w_rms_over_start w then _ else _).
    assert (H1 : prefs_seq st1 = prefs_seq st
                 ∧ audio_recording (audio st1) = false
                 ∧ sd_ok st1 = sd_ok st
                 ∧ capture_paused st1 = capture_paused st).
    { destruct Hm as (? & _ & _ & _ & _ & ? & _).
      unfold st1. destruct (w_rms_over_start w); cbn; by rewrite ?Hp1, ?Hr. }
    destruct H1 as (H1 & H2 & H3 & H4). clearbody st1.
    destruct (_ <=? _); [|done]. by rewrite Hstart.
Qed.

(** On an unmounted card or while capture is paused, a pass of [loop()]
    uses no sequence number: it takes no photo and starts no recording.
    A recording that is going on is still written and finished. *)
Theorem loop_blocked DEVICE_TOKEN st w :
  negb (sd_ok st) || capture_paused st = true →
  let st' := loop DEVICE_TOKEN st w in
  prefs_seq st' = prefs_seq st
  ∧ (audio_recording (audio st) = false → audio_recording (audio st') = false)
  ∧ (audio_photo_clip_pending (audio st) = false →
     audio_photo_clip_pending (audio st') = false).
Proof.
  intros Hb st'. subst st'.
  destruct (audio_tick_blocked st w Hb) as [Hp Hrec].
  destruct (audio_tick_flags st w) as [Hflag _].
  pose proof (audio_tick_media st w) as (Hsd & _ & _ & _ & _ & Hcp & _).
  rewrite loop_recording.
  unfold loop, loop_after_tick, loop_connect_capture.
  set (s0 := audio_tick st w) in *.
  assert (H1 : ∃ b t, loop_wifi s0 w = set_wifi b t s0).
  { unfold loop_wifi. destruct (_ && _); [by eexists _, _|].
    exists (wifi_ok s0), (last_wifi_attempt s0). by destruct s0. }
  destruct H1 as (b1 & t1 & ->).
  set (s1 := set_wifi b1 t1 s0).
  assert (H2 : ∃ b t, loop_ntp s1 w = set_ntp b t s1).
  { unfold loop_ntp. destruct (_ && _); [by eexists _, _|].
    exists (ntp_synced s1), (last_ntp_attempt s1). by destruct s0. }
  destruct H2 as (b2 & t2 & ->).
  set (s2 := set_ntp b2 t2 s1).
  assert (Hcap : capture_and_save s2 w = (false, s2)).
  { apply capture_and_save_media.
    change (sd_ok s2) with (sd_ok s0).
    change (capture_paused s2) with (capture_paused s0).
    rewrite Hsd, Hcp.
    apply orb_true_iff in Hb as [->| ->]; [done|by rewrite !orb_true_r]. }
  assert (H3 : ∃ t, loop_capture s2 w = set_last_capture t s2).
  { unfold loop_capture. rewrite Hcap. destruct (_ <=? _); [by eexists|].
    exists (last_capture s2). by destruct s0. }
  destruct H3 as (t3 & ->).
  set (s3 := set_last_capture t3 s2).
  rewrite loop_tail_prefs_seq, loop_tail_audio.
  assert (H4 : prefs_seq (loop_heartbeat s3 w) = prefs_seq s0
               ∧ audio_photo_clip_pending (audio (loop_heartbeat s3 w))
                 = audio_photo_clip_pending (audio s0)).
  { unfold loop_heartbeat. destruct (_ && AUDIO_HEARTBEAT_ENABLED); [|done].
    by destruct (_ && _). }
  destruct H4 as [-> ->]. split_and!; [done|done|done].
Qed.

Lemma loop_blocked_witness :
  let st := set_capture_paused true heartbeat_due_state in
  let st' := loop "token" st (quiet_world 400000 1000) in
  prefs_seq st' = prefs_seq st
  ∧ (audio_recording (audio st) = false → audio_recording (audio st') = false)
  ∧ (audio_photo_clip_pending (audio st) = false →
     audio_photo_clip_pending (audio st') = false).
Proof.
  apply (loop_blocked "token" (set_capture_paused true heartbeat_due_state)
           (quiet_world 400000 1000)).
  reflexivity.
Defined.

(** ** The length of a clip *)

Lemma preroll_write_bound st :
  0 <= preroll_index (audio st) < kAudioPrerollSamples →
  0 <= preroll_write st <= kAudioPrerollSamples.
Proof.
  intros Hi. unfold preroll_write. cbv zeta.
  destruct (_ || _); [lia|].
  destruct (preroll_filled (audio st)).
  - destruct (Z.eqb_spec kAudioPrerollSamples 0); [lia|].
    destruct (Z.gtb_spec (kAudioPrerollSamples - preroll_index (audio st)) 0);
      [|lia].
    cbn [andb].
    destruct (Z.gtb_spec (preroll_index (audio st)) 0).
    + replace ((kAudioPrerollSamples - preroll_index (audio st)) * 2
               + preroll_index (audio st) * 2)
        with (kAudioPrerollSamples * 2) by lia.
      rewrite Z.div_mul by lia. lia.
    + replace (preroll_index (audio st)) with 0 by lia.
      rewrite Z.sub_0_r, Z.div_mul by lia. lia.
  - destruct (Z.eqb_spec (preroll_index (audio st)) 0); [lia|].
    destruct (Z.gtb_spec (preroll_index (audio st)) 0); [|lia].
    cbn [andb]. rewrite Z.div_mul by lia. lia.
Qed.

Lemma frame_fits_count w :
  frame_fits w → 0 <= w_bytes_read w / 2 <= kAudioFrameSamples.
Proof.
  unfold frame_fits. intros [H0 H1]. split; [apply Z.div_pos; lia|].
  apply Z.div_le_upper_bound; lia.
Qed.

Lemma clip_inv_finished st s keep :
  0 <= preroll_index (audio st) < kAudioPrerollSamples →
  same_ring st s → clip_inv (finish_audio_recording s keep).
Proof.
  intros Hi (_ & Hs & _).
  destruct (finish_audio_recording_media s keep) as (_ & (_ & Hf & _) & _).
  destruct (finish_audio_recording_flags s keep) as (Hr & _).
  cbv zeta in *. split; [by rewrite Hf, Hs|]. by rewrite Hr.
Qed.

(** A start from an idle state with a stop mark beyond what the ring and
    one frame can hold. *)
Lemma clip_inv_started st w count epoch force :
  0 <= preroll_index (audio st) < kAudioPrerollSamples →
  audio_recording (audio st) = false →
  0 <= count <= kAudioFrameSamples →
  (force = 0 ∨ (kAudioPrerollSamples + kAudioFrameSamples < force
                ∧ force <= AUDIO_MAX_SEC * AUDIO_SAMPLE_RATE)) →
  clip_inv (start_audio_recording st w count epoch force).2.
Proof.
  intros Hi Hr Hc Hforce.
  pose proof (start_audio_recording_spec st w count epoch force) as (_ & _ & Hs).
  pose proof (start_audio_recording_media st w count epoch force)
    as (_ & Hring & _ & Hm).
  cbv zeta in Hs, Hring, Hm. specialize (Hs Hr). specialize (Hm Hr).
  pose proof (preroll_write_bound st Hi) as Hw.
  destruct (start_audio_recording st w count epoch force) as [[] st1];
    cbn [fst snd] in *.
  - destruct Hs as (_ & _ & Hfa). destruct (Hm eq_refl) as (Hsw & Hfs & _).
    destruct Hring as (_ & Hidx & _).
    split; [by rewrite Hidx|]. intros _. unfold clip_limit.
    rewrite Hfa, Hsw, Hfs.
    assert (HN : kAudioPrerollSamples = 16000) by reflexivity.
    assert (HF : kAudioFrameSamples = 320) by reflexivity.
    assert (HM : AUDIO_MAX_SEC * AUDIO_SAMPLE_RATE = 960000) by reflexivity.
    rewrite HN, HF, HM in *.
    destruct Hforce as [->|[Hlo Hhi]].
    + cbn [Z.gtb Z.compare]. split_and!; [lia|lia|done].
    + destruct (Z.gtb_spec force 0); [|lia]. split_and!; lia.
  - destruct Hs as [Hrec _]. destruct Hring as (_ & Hidx & _).
    split; [by rewrite Hidx|]. by rewrite Hrec.
Qed.

Lemma audio_tick_clip_inv st w :
  clip_inv st → frame_fits w → clip_inv (audio_tick st w).
Proof.
  intros [Hi Hrec] Hw. pose proof (frame_fits_count w Hw) as Hc.
  unfold audio_tick. destruct (negb (audio_ok st)); [done|].
  destruct (negb (w_i2s_ok w)); [done|]. cbv zeta.
  destruct (_ =? 0); [done|].
  destruct (audio_recording (audio st)) eqn:Hr; cbn [negb].
  - destruct (Hrec eq_refl) as (Hlt & Hmax & Hstop).
    unfold audio_tick_recording, write_audio_frame.
    destruct (negb (audio_file (audio st)));
      [by apply (clip_inv_finished st), same_ring_refl|].
    destruct (negb (w_audio_write_ok w));
      [by apply (clip_inv_finished st), same_ring_refl|].
    set (st1 := upd_audio _ st).
    assert (Hring : same_ring st st1) by (by repeat split).
    unfold clip_limit in Hlt, Hmax.
    destruct (audio_force_active (audio st)) eqn:Hfa;
      change (audio_force_active (audio st1)) with (audio_force_active (audio st));
      rewrite Hfa.
    + specialize (Hstop eq_refl).
      change (audio_force_stop_samples (audio st1))
        with (audio_force_stop_samples (audio st)).
      change (audio_samples_written (audio st1))
        with (audio_samples_written (audio st) + w_bytes_read w / 2).
      destruct (Z.gtb_spec (audio_force_stop_samples (audio st)) 0); [|lia].
      destruct (Z.leb_spec (audio_force_stop_samples (audio st))
                  (audio_samples_written (audio st) + w_bytes_read w / 2));
        cbn [andb]; [by apply (clip_inv_finished st)|].
      split; [done|]. intros _. unfold clip_limit.
      change (audio_force_active (audio st1)) with (audio_force_active (audio st)).
      rewrite Hfa. split_and!; [done|done|done].
    + set (st2 := if w_rms_under_stop w then _ else _).
      assert (H2 : same_ring st st2
                   ∧ audio_recording (audio st2) = true
                   ∧ audio_force_active (audio st2) = false
                   ∧ audio_samples_written (audio st2)
                     = audio_samples_written (audio st) + w_bytes_read w / 2).
      { unfold st2. destruct (w_rms_under_stop w); cbn;
          by rewrite ?Hr, ?Hfa. }
      destruct H2 as (Hring2 & Hr2 & Hfa2 & Hs2). clearbody st2.
      rewrite Hs2.
      destruct (AUDIO_VAD_STOP_FRAMES <=? vad_under_count (audio st2)); cbn [orb];
        [by apply (clip_inv_finished st)|].
      destruct (Z.leb_spec (AUDIO_MAX_SEC * AUDIO_SAMPLE_RATE)
                  (audio_samples_written (audio st) + w_bytes_read w / 2));
        [by apply (clip_inv_finished st)|].
      destruct Hring2 as (_ & Hidx & _).
      split; [by rewrite Hidx|]. intros _. unfold clip_limit.
      rewrite Hfa2, Hs2. split_and!; [done|lia|done].
  - assert (Hstarted : ∀ s f epoch force,
              s = upd_audio f st →
              preroll_index (audio s) = preroll_index (audio st) →
              audio_recording (audio s) = false →
              kAudioPrerollSamples + kAudioFrameSamples < force →
              force <= AUDIO_MAX_SEC * AUDIO_SAMPLE_RATE →
              clip_inv (start_audio_recording s w (w_bytes_read w / 2)
                          epoch force).2).
    { intros s f epoch force -> Hidx Hrs Hlo Hhi.
      apply clip_inv_started; [by rewrite Hidx|done|done|by right]. }
    destruct (audio_photo_clip_pending (audio st)).
    { eapply Hstarted; [done|done|done|by vm_compute|by vm_compute]. }
    destruct (audio_heartbeat_pending (audio st)).
    { eapply Hstarted; [done|done|done|by vm_compute|by vm_compute]. }
    unfold audio_tick_vad_idle. cbv zeta.
    destruct (preroll_push_audio st (w_bytes_read w / 2)) as (Hp1 & _).
    assert (Hpi : 0 <= preroll_index (audio (preroll_push st (w_bytes_read w / 2)))
                  < kAudioPrerollSamples).
    { unfold preroll_push. destruct (_ || _); [done|]. cbn.
      apply Z.mod_pos_bound. lia. }
    set (st1 := if w_rms_over_start w then _ else _).
    assert (H1 : 0 <= preroll_index (audio st1) < kAudioPrerollSamples
                 ∧ audio_recording (audio st1) = false).
    { unfold st1. destruct (w_rms_over_start w); cbn; by rewrite ?Hp1, ?Hr. }
    destruct H1 as [Hi1 Hr1]. clearbody st1.
    destruct (_ <=? _); [|by split; [|rewrite Hr1]].
    pose proof (clip_inv_started st1 w (w_bytes_read w / 2) (now_epoch st1 w) 0
                  Hi1 Hr1 Hc (or_introl eq_refl)) as Hinv.
    destruct (start_audio_recording _ _ _ _ _) as [[] st2]; cbn [snd] in Hinv;
      [|done].
    destruct Hinv as [Hi2 Hrec2]. split; [done|]. exact Hrec2.
Qed.

Lemma loop_after_tick_clip_inv DEVICE_TOKEN st w :
  clip_inv st → clip_inv (loop_after_tick DEVICE_TOKEN st w).
Proof.
  intros [Hi Hrec].
  destruct (audio_recording (audio st)) eqn:Hr.
  - unfold clip_inv, clip_limit in *.
    by rewrite !(loop_after_tick_recording DEVICE_TOKEN st w Hr), Hr.
  - pose proof (loop_after_tick_keeps DEVICE_TOKEN st w) as Hk.
    rewrite Hr in Hk. split; [|by rewrite Hk].
    unfold loop_after_tick. rewrite loop_tail_audio.
    destruct (loop_heartbeat_audio (loop_connect_capture st w) w)
      as [->|(_ & _ & _ & ->)];
      destruct (loop_connect_capture_audio st w) as [->|(_ & e & ->)]; done.
Qed.

Lemma setup_clip_inv b seq0 c w : clip_inv (setup b seq0 c w).
Proof.
  unfold setup. cbv zeta.
  match goal with
  | |- context [capture_and_save ?s w] => set (s0 := s)
  end.
  assert (H0 : preroll_index (audio (capture_and_save s0 w).2) = 0
               ∧ audio_recording (audio (capture_and_save s0 w).2) = false).
  { destruct (capture_and_save_audio s0 w) as [->|(_ & _ & _ & ->)]; done. }
  destruct H0 as [Hi Hr]. split.
  - cbn [audio set_ntp set_wifi]. rewrite Hi. done.
  - cbn [audio set_ntp set_wifi]. by rewrite Hr.
Qed.

(** From [setup()] on, through any passes of [loop()] whose frames fit the
    frame buffer, the write index of the ring stays within the ring, and a
    recording that is going on between two ticks holds fewer samples than
    its limit: the stop mark of a forced clip, and
    [AUDIO_MAX_SEC * AUDIO_SAMPLE_RATE] for a voice clip.  No clip
    grows beyond [AUDIO_MAX_SEC] seconds and one frame. *)
Theorem clip_stays_within_limit DEVICE_TOKEN b seq0 c w0 ws :
  Forall frame_fits ws →
  let st := foldl (loop DEVICE_TOKEN) (setup b seq0 c w0) ws in
  0 <= preroll_index (audio st) < kAudioPrerollSamples
  ∧ (audio_recording (audio st) = true →
     audio_samples_written (audio st) < clip_limit st
     ∧ clip_limit st <= AUDIO_MAX_SEC * AUDIO_SAMPLE_RATE).
Proof.
  intros Hws.
  assert (Hinv : ∀ st, clip_inv st → clip_inv (foldl (loop DEVICE_TOKEN) st ws)).
  { induction Hws as [|w ws Hw _ IH]; intros st Hst; [done|].
    cbn [foldl]. apply IH. unfold loop.
    by apply loop_after_tick_clip_inv, audio_tick_clip_inv. }
  intros st. destruct (Hinv _ (setup_clip_inv b seq0 c w0)) as [Hi Hrec].
  split; [done|]. intros Hr. by destruct (Hrec Hr) as (? & ? & _).
Qed.

Lemma clip_stays_within_limit_witness :
  let st := foldl (loop "token") booted_state
              (replicate 3 (quiet_world 2000 1000)) in
  (audio_recording (audio st) = true
   ∧ audio_samples_written (audio st) = 960 ∧ clip_limit st = 160000)
  ∧ (0 <= preroll_index (audio st) < kAudioPrerollSamples
     ∧ (audio_recording (audio st) = true →
        audio_samples_written (audio st) < clip_limit st
        ∧ clip_limit st <= AUDIO_MAX_SEC * AUDIO_SAMPLE_RATE)).
Proof.
  split; [by vm_compute|].
  apply (clip_stays_within_limit "token" boot_ok 0 example_card (quiet_world 0 0)
           (replicate 3 (quiet_world 2000 1000))).
  repeat constructor; vm_compute; discriminate.
Defined.

(** ** A saved photo *)












(** ** A card that did not mount *)

Lemma audio_tick_unmounted st w :
  sd_ok st = false → audio_recording (audio st) = false →
  let st' := audio_tick st w in
  sd_ok st' = false ∧ audio_recording (audio st') = false
  ∧ SD_MMC st' = SD_MMC st ∧ prefs_seq st' = prefs_seq st.
Proof.
  intros Hsd Hr st'. subst st'.
  assert (Hstart : ∀ s n e f, sd_ok s = false →
            start_audio_recording s w n e f = (false, s)).
  { intros s n e f H. apply (start_audio_recording_media s w n e f).
    by rewrite H. }
  unfold audio_tick. destruct (negb (audio_ok st)); [done|].
  destruct (negb (w_i2s_ok w)); [done|]. cbv zeta.
  destruct (_ =? 0); [done|]. rewrite Hr. cbn [negb].
  destruct (audio_photo_clip_pending (audio st)); [by rewrite Hstart|].
  destruct (audio_heartbeat_pending (audio st)); [by rewrite Hstart|].
  unfold audio_tick_vad_idle. cbv zeta.
  destruct (preroll_push_audio st (w_bytes_read w / 2)) as (Hp1 & _).
  destruct (preroll_push_media st (w_bytes_read w / 2)) as (Hm & Hp2 & Hp3 & _).
  destruct Hm as (Hsd1 & _).
  set (st1 := if w_rms_over_start w then _ else _).
  assert (H1 : sd_ok st1 = false ∧ audio_recording (audio st1) = false
               ∧ SD_MMC st1 = SD_MMC st ∧ prefs_seq st1 = prefs_seq st).
  { unfold st1. destruct (w_rms_over_start w); cbn;
      by rewrite ?Hp1, ?Hp2, ?Hp3, ?Hsd1, ?Hr, ?Hsd. }
  clearbody st1. destruct H1 as (Hsd2 & ? & ? & ?).
  destruct (_ <=? _); [|done]. by rewrite Hstart by done.
Qed.

Lemma upload_batch_unmounted DEVICE_TOKEN st w :
  sd_ok st = false → upload_batch DEVICE_TOKEN st w = st.
Proof.
  intros Hsd. unfold upload_batch.
  destruct UPLOAD_BATCH_SIZE as [|n]; [done|].
  cbn [upload_batch_from]. unfold upload_one_pending. by rewrite Hsd.
Qed.

Lemma loop_after_tick_unmounted DEVICE_TOKEN st w :
  sd_ok st = false → audio_recording (audio st) = false →
  let st' := loop_after_tick DEVICE_TOKEN st w in
  sd_ok st' = false ∧ audio_recording (audio st') = false
  ∧ SD_MMC st' = SD_MMC st ∧ prefs_seq st' = prefs_seq st.
Proof.
  intros Hsd Hr st'. subst st'.
  unfold loop_after_tick, loop_connect_capture.
  assert (H1 : ∃ b t, loop_wifi st w = set_wifi b t st).
  { unfold loop_wifi. destruct (_ && _); [by eexists _, _|].
    exists (wifi_ok st), (last_wifi_attempt st). by destruct st. }
  destruct H1 as (b1 & t1 & ->).
  set (s1 := set_wifi b1 t1 st).
  assert (H2 : ∃ b t, loop_ntp s1 w = set_ntp b t s1).
  { unfold loop_ntp. destruct (_ && _); [by eexists _, _|].
    exists (ntp_synced s1), (last_ntp_attempt s1). by destruct st. }
  destruct H2 as (b2 & t2 & ->).
  set (s2 := set_ntp b2 t2 s1).
  assert (Hcap : capture_and_save s2 w = (false, s2)).
  { apply capture_and_save_media.
    change (sd_ok s2) with (sd_ok st). by rewrite Hsd. }
  assert (H3 : ∃ t, loop_capture s2 w = set_last_capture t s2).
  { unfold loop_capture. rewrite Hcap. destruct (_ <=? _); [by eexists|].
    exists (last_capture s2). by destruct st. }
  destruct H3 as (t3 & ->).
  set (s3 := set_last_capture t3 s2).
  set (s4 := loop_heartbeat s3 w).
  assert (H4 : sd_ok s4 = false ∧ audio_recording (audio s4) = false
               ∧ SD_MMC s4 = SD_MMC st ∧ prefs_seq s4 = prefs_seq st).
  { unfold s4, loop_heartbeat. destruct (_ && AUDIO_HEARTBEAT_ENABLED); [|done].
    by destruct (_ && _). }
  destruct H4 as (Hsd4 & Hr4 & Hc4 & Hp4). clearbody s4.
  unfold loop_tail.
  set (s5 := loop_upload DEVICE_TOKEN s4 w).
  assert (H5 : sd_ok s5 = false ∧ audio_recording (audio s5) = false
               ∧ SD_MMC s5 = SD_MMC st ∧ prefs_seq s5 = prefs_seq st).
  { unfold s5, loop_upload. rewrite upload_batch_unmounted by done.
    by destruct (_ && _). }
  destruct H5 as (Hsd5 & Hr5 & Hc5 & Hp5). clearbody s5.
  set (s6 := loop_retention s5 w).
  assert (H6 : sd_ok s6 = false ∧ audio_recording (audio s6) = false
               ∧ SD_MMC s6 = SD_MMC st ∧ prefs_seq s6 = prefs_seq st).
  { unfold s6, loop_retention, enforce_retention. rewrite Hsd5. cbn [negb].
    by destruct (_ && _). }
  destruct H6 as (Hsd6 & Hr6 & Hc6 & Hp6). clearbody s6.
  unfold loop_telemetry. by destruct (_ && _).
Qed.

(** When [SD_MMC.begin] fails in [setup()], no later pass of [loop()]
    mounts the card or touches it: whatever the passes read, the card is as
    it was, no sequence number is used and no recording is started. *)
Theorem boot_without_card DEVICE_TOKEN b seq0 c w0 ws :
  boot_sd_begin b = false →
  let st := foldl (loop DEVICE_TOKEN) (setup b seq0 c w0) ws in
  sd_ok st = false ∧ SD_MMC st = c ∧ prefs_seq st = seq0
  ∧ audio_recording (audio st) = false.
Proof.
  intros Hb.
  assert (Hinv : ∀ st, sd_ok st = false → audio_recording (audio st) = false →
            let st' := foldl (loop DEVICE_TOKEN) st ws in
            sd_ok st' = false ∧ SD_MMC st' = SD_MMC st
            ∧ prefs_seq st' = prefs_seq st
            ∧ audio_recording (audio st') = false).
  { induction ws as [|w ws IH]; intros st Hsd Hr; [done|].
    cbn [foldl].
    destruct (audio_tick_unmounted st w Hsd Hr) as (A1 & A2 & A3 & A4).
    destruct (loop_after_tick_unmounted DEVICE_TOKEN _ w A1 A2)
      as (B1 & B2 & B3 & B4).
    destruct (IH (loop DEVICE_TOKEN st w) B1 B2) as (C1 & C2 & C3 & C4).
    cbv zeta. unfold loop in *.
    by rewrite C1, C2, C3, C4, B3, B4, A3, A4. }
  assert (Hsetup : sd_ok (setup b seq0 c w0) = false
                   ∧ audio_recording (audio (setup b seq0 c w0)) = false
                   ∧ SD_MMC (setup b seq0 c w0) = c
                   ∧ prefs_seq (setup b seq0 c w0) = seq0).
  { unfold setup. cbv zeta.
    match goal with
    | |- context [capture_and_save ?s w0] =>
        rewrite (proj2 (capture_and_save_media s w0)) by (cbn; by rewrite Hb)
    end.
    cbn. by rewrite Hb. }
  destruct Hsetup as (S1 & S2 & S3 & S4).
  destruct (Hinv _ S1 S2) as (I1 & I2 & I3 & I4). cbv zeta.
  by rewrite I1, I2, I3, I4, S3, S4.
Qed.

Lemma boot_without_card_witness :
  let b := {| boot_camera_init := true; boot_sd_begin := false;
              boot_init_audio := true |} in
  let st := foldl (loop "token") (setup b 10 example_card (quiet_world 0 0))
              [quiet_world 400000 1000; quiet_world 800000 1400] in
  sd_ok st = false ∧ SD_MMC st = example_card ∧ prefs_seq st = 10
  ∧ audio_recording (audio st) = false.
Proof.
  intros b.
  apply (boot_without_card "token" b 10 example_card (quiet_world 0 0)
           [quiet_world 400000 1000; quiet_world 800000 1400]).
  reflexivity.
Defined.
